(** * cockpit-birdnet-go: the status, version, upgrade and log procedures of
      [src/app.tsx], embedded in Rocq.

    The dashboard shells out through [cockpit.spawn], parses the text that
    comes back and folds it into React state.  The embedding keeps that
    shape:

    - JavaScript strings are [string]s; the string methods the component
      calls ([trim], [split], [startsWith], [includes], [replace], the
      [/nightly-(\d{8})/] match, [parseInt]) are functions on them.
      Strings are byte strings: a character outside ASCII is written as
      the bytes of its UTF-8 encoding, which [split], [includes],
      [startsWith] and [replace] handle as they handle the characters;
      the white space class covers ASCII.  The case mappings are the
      engine's: they follow the Unicode tables and the context of a
      letter, and are taken as parameters.
    - JavaScript numbers are [number]: [NaN] or an integer.  Every number
      the component computes is an integer or [NaN]; the embedding is exact
      below 2^53.
    - untyped data coming from [JSON.parse] is a [json] tree (a number
      that is not such an integer carries the text it is printed as),
      [undefined]
      is [None]; property reads and method calls raise [TypeError] where
      the engine does.
    - an [async] function is a computation over the session (the React
      store, the commands issued so far, the alerts shown) that ends in a
      value or in a thrown error; [cockpit.spawn] and [JSON.parse] are the
      host's, taken as parameters. *)

From Stdlib Require Import List String Ascii ZArith Bool Lia Arith.
From Stdlib Require Import Sorting.Sorted Sorting.Permutation.
From Stdlib Require Import Numbers.DecimalString.
Import ListNotations.

Open Scope string_scope.
Open Scope bool_scope.
Open Scope nat_scope.

Set Implicit Arguments.
Set Warnings "-register-all".

(* ===================================================================== *)
(** ** Strings *)
(* ===================================================================== *)

Module Str.

Definition code (c : ascii) : nat := nat_of_ascii c.

(** The ASCII part of ECMAScript's WhiteSpace and LineTerminator. *)
Definition is_space (c : ascii) : bool :=
  let n := code c in
  (n =? 9) || (n =? 10) || (n =? 11) || (n =? 12) || (n =? 13) || (n =? 32).

(** [\d] of a regular expression without the unicode flag. *)
Definition is_digit (c : ascii) : bool :=
  let n := code c in (48 <=? n) && (n <=? 57).

Definition newline : ascii := ascii_of_nat 10.
Definition quote : ascii := ascii_of_nat 34.

Fixpoint trimStart (s : string) : string :=
  match s with
  | String c s' => if is_space c then trimStart s' else s
  | EmptyString => EmptyString
  end.

Fixpoint trimEnd (s : string) : string :=
  match s with
  | EmptyString => EmptyString
  | String c s' =>
      match trimEnd s' with
      | EmptyString => if is_space c then EmptyString else String c EmptyString
      | t => String c t
      end
  end.

(** [s.trim()] *)
Definition trim (s : string) : string := trimEnd (trimStart s).

(** [s.startsWith(p)] *)
Definition startsWith (s p : string) : bool := String.prefix p s.

(** [s.includes(sub)] *)
Fixpoint includes (s sub : string) : bool :=
  String.prefix sub s ||
  match s with
  | EmptyString => false
  | String _ s' => includes s' sub
  end.

(** [s.split(c)] for a one-character separator: never the empty list. *)
Fixpoint split (sep : ascii) (s : string) : list string :=
  match s with
  | EmptyString => [EmptyString]
  | String c s' =>
      if Ascii.eqb c sep then EmptyString :: split sep s'
      else match split sep s' with
           | h :: t => String c h :: t
           | [] => [String c EmptyString]
           end
  end.

(** [s.replace(c, '')] with a string pattern: only the first occurrence
    goes. *)
Fixpoint removeFirst (c : ascii) (s : string) : string :=
  match s with
  | EmptyString => EmptyString
  | String d s' => if Ascii.eqb d c then s' else String d (removeFirst c s')
  end.

Fixpoint drop (n : nat) (s : string) : string :=
  match n, s with
  | O, _ => s
  | S n', String _ s' => drop n' s'
  | S _, EmptyString => EmptyString
  end.

(** The first [n] characters when all of them are digits. *)
Fixpoint digits (n : nat) (s : string) : option string :=
  match n with
  | O => Some EmptyString
  | S n' =>
      match s with
      | String c s' =>
          if is_digit c
          then match digits n' s' with
               | Some d => Some (String c d)
               | None => None
               end
          else None
      | EmptyString => None
      end
  end.

Definition nightlyAt (s : string) : option string :=
  if startsWith s "nightly-" then digits 8 (drop 8 s) else None.

(** [s.match(/nightly-(\d{8})/)]: the capture group of the leftmost
    match, [None] for [null]. *)
Fixpoint matchNightly (s : string) : option string :=
  match nightlyAt s with
  | Some d => Some d
  | None =>
      match s with
      | EmptyString => None
      | String _ s' => matchNightly s'
      end
  end.

Definition upperChar (c : ascii) : ascii :=
  let n := code c in
  if (97 <=? n) && (n <=? 122) then ascii_of_nat (n - 32) else c.

Definition lowerChar (c : ascii) : ascii :=
  let n := code c in
  if (65 <=? n) && (n <=? 90) then ascii_of_nat (n + 32) else c.

Fixpoint mapChars (f : ascii -> ascii) (s : string) : string :=
  match s with
  | EmptyString => EmptyString
  | String c s' => String (f c) (mapChars f s')
  end.

(** What [toUpperCase] and [toLowerCase] do to a text of ASCII
    characters: each letter is mapped on its own. *)
Definition asciiUpper : string -> string := mapChars upperChar.
Definition asciiLower : string -> string := mapChars lowerChar.


(** [xs.join(sep)] *)
Fixpoint join (sep : string) (xs : list string) : string :=
  match xs with
  | [] => EmptyString
  | [x] => x
  | x :: rest => x ++ sep ++ join sep rest
  end.

End Str.

(* ===================================================================== *)
(** ** Numbers *)
(* ===================================================================== *)

Inductive number : Type :=
| NaN
| Num (z : Z).

Module Number.

Definition mul (a b : number) : number :=
  match a, b with
  | Num x, Num y => Num (x * y)
  | _, _ => NaN
  end.

Definition add (a b : number) : number :=
  match a, b with
  | Num x, Num y => Num (x + y)
  | _, _ => NaN
  end.

Definition sub (a b : number) : number :=
  match a, b with
  | Num x, Num y => Num (x - y)
  | _, _ => NaN
  end.

(** [a > b]: false as soon as one side is [NaN]. *)
Definition gt (a b : number) : bool :=
  match a, b with
  | Num x, Num y => (y <? x)%Z
  | _, _ => false
  end.

Definition lt (a b : number) : bool := gt b a.

Definition truthy (a : number) : bool :=
  match a with
  | NaN => false
  | Num z => negb (z =? 0)%Z
  end.

(** [a || 0] *)
Definition orZero (a : number) : number :=
  if truthy a then a else Num 0.

(** [ToNumber] of an array element that may be missing: [undefined]
    converts to [NaN]. *)
Definition ofElement (o : option number) : number :=
  match o with
  | Some n => n
  | None => NaN
  end.

Definition digitValue (radix : Z) (c : ascii) : option Z :=
  let n := Z.of_nat (Str.code c) in
  let v :=
    if (48 <=? n)%Z && (n <=? 57)%Z then Some (n - 48)%Z
    else if (97 <=? n)%Z && (n <=? 122)%Z then Some (n - 87)%Z
    else if (65 <=? n)%Z && (n <=? 90)%Z then Some (n - 55)%Z
    else None in
  match v with
  | Some d => if (d <? radix)%Z then Some d else None
  | None => None
  end.

(** The longest prefix of digits of the radix; [None] when it is
    empty. *)
Fixpoint readDigits (radix : Z) (acc : option Z) (s : string) : option Z :=
  match s with
  | EmptyString => acc
  | String c s' =>
      match digitValue radix c with
      | Some d =>
          readDigits radix
            (Some (radix * match acc with Some a => a | None => 0 end + d)%Z) s'
      | None => acc
      end
  end.

(** [parseInt(s)] with no radix argument. *)
Definition parseInt (s : string) : number :=
  let s1 := Str.trimStart s in
  let '(neg, s2) :=
    match s1 with
    | String c r =>
        if Ascii.eqb c "-" then (true, r)
        else if Ascii.eqb c "+" then (false, r)
        else (false, s1)
    | EmptyString => (false, s1)
    end in
  let '(radix, s3) :=
    if Str.startsWith s2 "0x" || Str.startsWith s2 "0X"
    then (16%Z, Str.drop 2 s2) else (10%Z, s2) in
  match readDigits radix None s3 with
  | None => NaN
  | Some z => Num (if neg then - z else z)%Z
  end.

End Number.

(* ===================================================================== *)
(** ** The stable comparator of [checkForUpdates] *)
(* ===================================================================== *)

(** [[
    const parseVersion = (v: string) => {
        const parts = v.split('.').map(p => parseInt(p) || 0);
        return parts[0] * 10000 + parts[1] * 100 + parts[2];
    };
    ]] *)
Definition parseVersion (v : string) : number :=
  let parts := map (fun p => Number.orZero (Number.parseInt p)) (Str.split "." v) in
  Number.add
    (Number.add
       (Number.mul (Number.ofElement (nth_error parts 0)) (Num 10000))
       (Number.mul (Number.ofElement (nth_error parts 1)) (Num 100)))
    (Number.ofElement (nth_error parts 2)).

Example parseVersion_123 : parseVersion "1.2.3" = Num 10203.
Proof. reflexivity. Qed.

Example parseVersion_12 : parseVersion "1.2" = NaN.
Proof. reflexivity. Qed.

(* ===================================================================== *)
(** ** Untyped data: what [JSON.parse] returns *)
(* ===================================================================== *)

(** A parsed JSON text.  The fields of an object are listed in the order
    [Object.entries] enumerates them.  [undefined] is not a JSON value: a
    value that may be [undefined] has type [option json].  A number is
    [JNum] when it is an integer that prints as its decimal digits; any
    other number (a fraction, an exponent) is [JReal] with the text that
    [Number.prototype.toString] gives it, and is never zero. *)
Inductive json : Type :=
| JNull
| JBool (b : bool)
| JNum (z : Z)
| JStr (s : string)
| JArr (items : list json)
| JObj (fields : list (string * json))
| JReal (text : string).

Inductive jserror : Type :=
| SpawnError   (* the promise of [cockpit.spawn] rejected *)
| TypeError
| SyntaxError. (* [JSON.parse] *)

(** How an expression ends: with a value or with a thrown error. *)
Inductive outcome (A : Type) : Type :=
| Done (a : A)
| Throw (e : jserror).

Arguments Done {A} a.
Arguments Throw {A} e.

Definition obind {A B : Type} (m : outcome A) (k : A -> outcome B) : outcome B :=
  match m with
  | Done a => k a
  | Throw e => Throw e
  end.

Notation "'let*' x ':=' m 'in' k" := (obind m (fun x => k))
  (at level 10, x name, m at level 100, k at level 200).

Module Json.

Fixpoint assoc (k : string) (fields : list (string * json)) : option json :=
  match fields with
  | [] => None
  | (k', v) :: rest => if String.eqb k' k then Some v else assoc k rest
  end.

(** [v.k] on a value that is not [undefined]: reading a property of
    [null] throws; the keys the component reads name no built-in
    property of a string, a number, a boolean or an array. *)
Definition prop (v : json) (k : string) : outcome (option json) :=
  match v with
  | JNull => Throw TypeError
  | JObj fields => Done (assoc k fields)
  | _ => Done None
  end.

(** [v.k] *)
Definition get (v : option json) (k : string) : outcome (option json) :=
  match v with
  | None => Throw TypeError
  | Some j => prop j k
  end.

(** [v?.k]: [undefined] when [v] is [undefined] or [null]. *)
Definition getOpt (v : option json) (k : string) : option json :=
  match v with
  | None | Some JNull => None
  | Some (JObj fields) => assoc k fields
  | Some _ => None
  end.

(** [v[0]] *)
Definition first (v : json) : outcome (option json) :=
  match v with
  | JNull => Throw TypeError
  | JArr items => Done (hd_error items)
  | JObj fields => Done (assoc "0" fields)
  | JStr (String c _) => Done (Some (JStr (String c EmptyString)))
  | _ => Done None
  end.

(** [ToBoolean] *)
Definition truthy (v : option json) : bool :=
  match v with
  | None | Some JNull => false
  | Some (JBool b) => b
  | Some (JNum z) => negb (z =? 0)%Z
  | Some (JStr s) => negb (String.eqb s EmptyString)
  | Some (JArr _) | Some (JObj _) | Some (JReal _) => true
  end.

(** [v === 'literal'] *)
Definition isString (v : option json) (lit : string) : bool :=
  match v with
  | Some (JStr s) => String.eqb s lit
  | _ => false
  end.

(** A method of [String.prototype] called on a value: only a string has
    it. *)
Definition asString (v : option json) : outcome string :=
  match v with
  | Some (JStr s) => Done s
  | _ => Throw TypeError
  end.

(** [v?.method(...)] for a string method: [undefined] on [undefined] and
    [null], [TypeError] on any other value that is not a string. *)
Definition asStringOpt (v : option json) : outcome (option string) :=
  match v with
  | None | Some JNull => Done None
  | Some (JStr s) => Done (Some s)
  | Some _ => Throw TypeError
  end.

(** [v.forEach(...)]: only an array has it. *)
Definition asArray (v : option json) : outcome (list json) :=
  match v with
  | Some (JArr items) => Done items
  | _ => Throw TypeError
  end.

Definition ofZ (z : Z) : string := NilZero.string_of_int (Z.to_int z).

(** [ToString], as a template literal applies it. *)
Fixpoint toString (v : json) : string :=
  match v with
  | JNull => "null"
  | JBool true => "true"
  | JBool false => "false"
  | JNum z => ofZ z
  | JStr s => s
  | JArr items =>
      Str.join ","
        (map (fun e => match e with JNull => EmptyString | _ => toString e end) items)
  | JObj _ => "[object Object]"
  | JReal text => text
  end.

Definition toStringU (v : option json) : string :=
  match v with
  | None => "undefined"
  | Some j => toString j
  end.

Definition hexDigit (n : nat) : ascii :=
  ascii_of_nat (if n <? 10 then 48 + n else 87 + n).

(** One character of a string literal, as [JSON.stringify] quotes it. *)
Definition escapeChar (c : ascii) : string :=
  let n := Str.code c in
  if n =? 34 then "\" ++ String Str.quote EmptyString
  else if n =? 92 then "\\"
  else if n =? 8 then "\b"
  else if n =? 9 then "\t"
  else if n =? 10 then "\n"
  else if n =? 12 then "\f"
  else if n =? 13 then "\r"
  else if n <? 32 then
    "\u00" ++ String (hexDigit (n / 16)) (String (hexDigit (n mod 16)) EmptyString)
  else String c EmptyString.

Fixpoint escape (s : string) : string :=
  match s with
  | EmptyString => EmptyString
  | String c s' => escapeChar c ++ escape s'
  end.

Definition quoted (s : string) : string :=
  String Str.quote (escape s ++ String Str.quote EmptyString).

(** [JSON.stringify(v)] with no replacer and no indentation. *)
Fixpoint stringify (v : json) : string :=
  match v with
  | JNull => "null"
  | JBool true => "true"
  | JBool false => "false"
  | JNum z => ofZ z
  | JStr s => quoted s
  | JArr items => "[" ++ Str.join "," (map stringify items) ++ "]"
  | JObj fields =>
      "{" ++ Str.join ","
               (map (fun kv => quoted (fst kv) ++ ":" ++ stringify (snd kv)) fields)
          ++ "}"
  | JReal text => text
  end.

End Json.

Example stringify_entry :
  Json.stringify (JObj [("level", JStr "INFO"); ("n", JNum (-12)); ("ok", JArr [JBool true; JNull; JNum 0])])
  = "{" ++ Json.quoted "level" ++ ":" ++ Json.quoted "INFO" ++ ","
        ++ Json.quoted "n" ++ ":-12," ++ Json.quoted "ok" ++ ":[true,null,0]}".
Proof. reflexivity. Qed.

(* ===================================================================== *)
(** ** The React state of [Application] *)
(* ===================================================================== *)

Module DockerStatus.
Record t : Type := Build
  { available : bool; running : bool; version : option string }.
End DockerStatus.

Module ContainerStatus.
Record t : Type := Build
  { exists_ : bool;
    running : bool;
    imagePresent : bool;
    containerId : option string;
    status : option string }.
End ContainerStatus.

Module SystemdStatus.
Record t : Type := Build
  { exists_ : bool; running : bool; enabled : bool; status : option string }.
End SystemdStatus.

(** [current], [buildDate], [latest], [releaseNotes] and [releaseUrl] are
    declared [string] but are assigned properties of parsed JSON without a
    check, so they hold whatever the payload held. *)
Module VersionInfo.
Record t : Type := Build
  { current : option json;
    buildDate : option json;
    latest : option json;
    latestNightly : option string;
    nightlyTags : option (list string);
    updateAvailable : option bool;
    checkingUpdate : option bool;
    updateError : option string;
    releaseNotes : option json;
    releaseUrl : option json }.
End VersionInfo.

(** The values of the [useState] hooks that the procedures read or write. *)
Record Store : Type := BuildStore
  { dockerStatus : DockerStatus.t;
    containerStatus : ContainerStatus.t;
    systemdStatus : SystemdStatus.t;
    healthStatus : json;  (* [null] until a payload arrives *)
    versionInfo : VersionInfo.t;
    appLogs : list json;
    selectedLogFile : string;
    logLevelFilter : string;
    logSearchText : string;
    loading : bool;
    upgrading : bool }.

(** The initial values of the hooks. *)
Definition initialStore : Store :=
  {| dockerStatus := DockerStatus.Build false false None;
     containerStatus := ContainerStatus.Build false false false None None;
     systemdStatus := SystemdStatus.Build false false false None;
     healthStatus := JNull;
     versionInfo :=
       VersionInfo.Build (Some (JStr "")) (Some (JStr "")) None None None
                         (Some false) (Some false) None None None;
     appLogs := [];
     selectedLogFile := "analysis.log";
     logLevelFilter := "all";
     logSearchText := "";
     loading := true;
     upgrading := false |}.

(** One call of [cockpit.spawn]. *)
Record command : Type := Command
  { argv : list string;
    superuser : bool  (* the option [{ superuser: "try" }] *) }.

(** What an [async] procedure works on: the store behind the setters, the
    commands spawned so far (oldest first), the [alert] boxes shown, the
    cell [versionInfoRef.current] of the later revision, and the error, if
    any, that a queued state updater threw once React ran it. *)
Record Session : Type := BuildSession
  { store : Store;
    issued : list command;
    alerts : list string;
    versionInfoRef : VersionInfo.t;
    updaterError : option jserror }.

Definition startSession (st : Store) : Session :=
  {| store := st; issued := []; alerts := [];
     versionInfoRef := versionInfo st; updaterError := None |}.

(** An [async] function body. *)
Definition Async (A : Type) : Type := Session -> outcome A * Session.

Definition ret {A : Type} (a : A) : Async A := fun s => (Done a, s).

Definition throw {A : Type} (e : jserror) : Async A := fun s => (Throw e, s).

Definition bind {A B : Type} (m : Async A) (k : A -> Async B) : Async B :=
  fun s =>
    match m s with
    | (Done a, s') => k a s'
    | (Throw e, s') => (Throw e, s')
    end.

Notation "x <- m ;; k" := (bind m (fun x => k))
  (at level 61, m at next level, right associativity).
Notation "m ;; k" := (bind m (fun _ => k))
  (at level 61, right associativity).

(** [try { body } catch { handler }] *)
Definition tryCatch {A : Type} (body : Async A) (handler : jserror -> Async A) : Async A :=
  fun s =>
    match body s with
    | (Done a, s') => (Done a, s')
    | (Throw e, s') => handler e s'
    end.

(** [try { body } finally { final }], for a [final] that does not throw. *)
Definition tryFinally {A : Type} (body : Async A) (final : Session -> Session) : Async A :=
  fun s => let '(r, s') := body s in (r, final s').

(** An expression evaluated inside an [async] function. *)
Definition lift {A : Type} (m : outcome A) : Async A := fun s => (m, s).

Definition modify (f : Session -> Session) : Async unit := fun s => (Done tt, f s).

Definition updateStore (f : Store -> Store) : Async unit :=
  modify (fun s =>
    {| store := f (store s); issued := issued s; alerts := alerts s;
       versionInfoRef := versionInfoRef s; updaterError := updaterError s |}).

Definition alert (msg : string) : Async unit :=
  modify (fun s =>
    {| store := store s; issued := issued s; alerts := (alerts s ++ [msg])%list;
       versionInfoRef := versionInfoRef s; updaterError := updaterError s |}).

(** The setters. *)

Definition withDockerStatus (v : DockerStatus.t) (st : Store) : Store :=
  {| dockerStatus := v; containerStatus := containerStatus st;
     systemdStatus := systemdStatus st; healthStatus := healthStatus st;
     versionInfo := versionInfo st; appLogs := appLogs st;
     selectedLogFile := selectedLogFile st; logLevelFilter := logLevelFilter st;
     logSearchText := logSearchText st; loading := loading st;
     upgrading := upgrading st |}.

Definition withContainerStatus (v : ContainerStatus.t) (st : Store) : Store :=
  {| dockerStatus := dockerStatus st; containerStatus := v;
     systemdStatus := systemdStatus st; healthStatus := healthStatus st;
     versionInfo := versionInfo st; appLogs := appLogs st;
     selectedLogFile := selectedLogFile st; logLevelFilter := logLevelFilter st;
     logSearchText := logSearchText st; loading := loading st;
     upgrading := upgrading st |}.

Definition withSystemdStatus (v : SystemdStatus.t) (st : Store) : Store :=
  {| dockerStatus := dockerStatus st; containerStatus := containerStatus st;
     systemdStatus := v; healthStatus := healthStatus st;
     versionInfo := versionInfo st; appLogs := appLogs st;
     selectedLogFile := selectedLogFile st; logLevelFilter := logLevelFilter st;
     logSearchText := logSearchText st; loading := loading st;
     upgrading := upgrading st |}.

Definition withHealthStatus (v : json) (st : Store) : Store :=
  {| dockerStatus := dockerStatus st; containerStatus := containerStatus st;
     systemdStatus := systemdStatus st; healthStatus := v;
     versionInfo := versionInfo st; appLogs := appLogs st;
     selectedLogFile := selectedLogFile st; logLevelFilter := logLevelFilter st;
     logSearchText := logSearchText st; loading := loading st;
     upgrading := upgrading st |}.

Definition withVersionInfo (v : VersionInfo.t) (st : Store) : Store :=
  {| dockerStatus := dockerStatus st; containerStatus := containerStatus st;
     systemdStatus := systemdStatus st; healthStatus := healthStatus st;
     versionInfo := v; appLogs := appLogs st;
     selectedLogFile := selectedLogFile st; logLevelFilter := logLevelFilter st;
     logSearchText := logSearchText st; loading := loading st;
     upgrading := upgrading st |}.

Definition withAppLogs (v : list json) (st : Store) : Store :=
  {| dockerStatus := dockerStatus st; containerStatus := containerStatus st;
     systemdStatus := systemdStatus st; healthStatus := healthStatus st;
     versionInfo := versionInfo st; appLogs := v;
     selectedLogFile := selectedLogFile st; logLevelFilter := logLevelFilter st;
     logSearchText := logSearchText st; loading := loading st;
     upgrading := upgrading st |}.

Definition withLoading (v : bool) (st : Store) : Store :=
  {| dockerStatus := dockerStatus st; containerStatus := containerStatus st;
     systemdStatus := systemdStatus st; healthStatus := healthStatus st;
     versionInfo := versionInfo st; appLogs := appLogs st;
     selectedLogFile := selectedLogFile st; logLevelFilter := logLevelFilter st;
     logSearchText := logSearchText st; loading := v;
     upgrading := upgrading st |}.

Definition withUpgrading (v : bool) (st : Store) : Store :=
  {| dockerStatus := dockerStatus st; containerStatus := containerStatus st;
     systemdStatus := systemdStatus st; healthStatus := healthStatus st;
     versionInfo := versionInfo st; appLogs := appLogs st;
     selectedLogFile := selectedLogFile st; logLevelFilter := logLevelFilter st;
     logSearchText := logSearchText st; loading := loading st;
     upgrading := v |}.

Definition setDockerStatus (v : DockerStatus.t) : Async unit :=
  updateStore (withDockerStatus v).
Definition setContainerStatus (v : ContainerStatus.t) : Async unit :=
  updateStore (withContainerStatus v).
Definition setSystemdStatus (v : SystemdStatus.t) : Async unit :=
  updateStore (withSystemdStatus v).
Definition setHealthStatus (v : json) : Async unit :=
  updateStore (withHealthStatus v).
Definition setAppLogs (v : list json) : Async unit :=
  updateStore (withAppLogs v).
Definition setLoading (v : bool) : Async unit :=
  updateStore (withLoading v).
Definition setUpgrading (v : bool) : Async unit :=
  updateStore (withUpgrading v).

(** [setVersionInfo(prev => ...)]: React runs the updater on the latest
    state.  An updater that throws does so when React runs it, outside
    the [try] block that queued it: the state stays and the error is
    recorded. *)
Definition setVersionInfo (updater : VersionInfo.t -> outcome VersionInfo.t) : Async unit :=
  fun s =>
    match updater (versionInfo (store s)) with
    | Done v => updateStore (withVersionInfo v) s
    | Throw e =>
        (Done tt,
         {| store := store s; issued := issued s; alerts := alerts s;
            versionInfoRef := versionInfoRef s; updaterError := Some e |})
    end.

(* ===================================================================== *)
(** ** Array helpers with callbacks that may throw *)
(* ===================================================================== *)

(** [xs.find(p)] *)
Fixpoint findM {A : Type} (p : A -> outcome bool) (xs : list A) : outcome (option A) :=
  match xs with
  | [] => Done None
  | x :: rest =>
      let* hit := p x in
      if hit then Done (Some x) else findM p rest
  end.

(** [xs.filter(p)] *)
Fixpoint filterM {A : Type} (p : A -> outcome bool) (xs : list A) : outcome (list A) :=
  match xs with
  | [] => Done []
  | x :: rest =>
      let* keep := p x in
      let* tail := filterM p rest in
      Done (if keep then x :: tail else tail)
  end.

(** [xs.forEach(f)] where [f] pushes onto an accumulator. *)
Fixpoint foldM {A S : Type} (f : S -> A -> outcome S) (acc : S) (xs : list A) : outcome S :=
  match xs with
  | [] => Done acc
  | x :: rest =>
      let* acc' := f acc x in
      foldM f acc' rest
  end.

(** [xs.sort(cmp)]: the sort is stable, so with a consistent comparator
    the result is the one of any stable sort.  [x] is placed behind [y]
    exactly when [cmp x y > 0]. *)
Fixpoint insertSorted {A : Type} (cmp : A -> A -> number) (x : A) (xs : list A) : list A :=
  match xs with
  | [] => [x]
  | y :: rest =>
      if Number.gt (cmp x y) (Num 0) then y :: insertSorted cmp x rest
      else x :: y :: rest
  end.

Definition sortWith {A : Type} (cmp : A -> A -> number) (xs : list A) : list A :=
  fold_right (insertSorted cmp) [] xs.

(* ===================================================================== *)
(** ** Nightly tags *)
(* ===================================================================== *)

(** The locals of the registry scan: [nightlyTags], [latestNightlyDate],
    [latestNightlyTag]. *)
Module Scan.
Record t : Type := Build
  { nightlyTags : list string;
    latestNightlyDate : number;
    latestNightlyTag : string }.

Definition empty : t := Build [] (Num 0) "".
End Scan.

(** [tag.startsWith('nightly-') && tag.match(/nightly-\d{8}/)] *)
Definition isNightlyTag (tag : string) : bool :=
  Str.startsWith tag "nightly-" &&
  match Str.matchNightly tag with Some _ => true | None => false end.

(** The body of the inner [forEach]. *)
Definition scanTag (acc : Scan.t) (tag : json) : outcome Scan.t :=
  let* tag := Json.asString (Some tag) in
  if isNightlyTag tag then
    let tags := (Scan.nightlyTags acc ++ [tag])%list in
    match Str.matchNightly tag with
    | Some d =>
        let date := Number.parseInt d in
        if Number.gt date (Scan.latestNightlyDate acc)
        then Done (Scan.Build tags date tag)
        else Done (Scan.Build tags (Scan.latestNightlyDate acc) (Scan.latestNightlyTag acc))
    | None => Done (Scan.Build tags (Scan.latestNightlyDate acc) (Scan.latestNightlyTag acc))
    end
  else Done acc.

(** The body of the outer [forEach]. *)
Definition scanVersion (acc : Scan.t) (version : json) : outcome Scan.t :=
  let* metadata := Json.prop version "metadata" in
  let tags := Json.getOpt (Json.getOpt metadata "container") "tags" in
  if Json.truthy tags then
    let* tags := Json.asArray tags in
    foldM scanTag acc tags
  else Done acc.

Definition scanVersions (versions : json) : outcome Scan.t :=
  let* versions := Json.asArray (Some versions) in
  foldM scanVersion Scan.empty versions.

(** [parseInt(t.match(/nightly-(\d{8})/)?.[1] || '0')] *)
Definition tagDate (tag : string) : number :=
  Number.parseInt
    match Str.matchNightly tag with
    | Some d => if String.eqb d "" then "0" else d
    | None => "0"
    end.

(** The date of a tag, as a plain integer. *)
Definition dateOf (tag : string) : Z :=
  match tagDate tag with
  | Num z => z
  | NaN => 0
  end.

(** The comparator of [nightlyTags.sort]: [dateB - dateA]. *)
Definition newestFirst (a b : string) : number :=
  Number.sub (tagDate b) (tagDate a).

(* ===================================================================== *)
(** ** The launch arguments of the replacement container *)
(* ===================================================================== *)

Fixpoint indexed (i : nat) (xs : list json) : list (string * json) :=
  match xs with
  | [] => []
  | x :: rest => (Json.ofZ (Z.of_nat i), x) :: indexed (S i) rest
  end.

Fixpoint chars (s : string) : list json :=
  match s with
  | EmptyString => []
  | String c s' => JStr (String c EmptyString) :: chars s'
  end.

(** [Object.entries(v)] for a truthy [v]. *)
Definition entries (v : json) : list (string * json) :=
  match v with
  | JObj fields => fields
  | JArr items => indexed 0 items
  | JStr s => indexed 0 (chars s)
  | _ => []
  end.

(** [containerPort.split('/')[0]] *)
Definition portOf (containerPort : string) : string :=
  hd EmptyString (Str.split "/" containerPort).

(** [createArgs.push("-p", `${binding.HostPort}:${containerPort.split('/')[0]}`)] *)
Definition pushBinding (containerPort : string) (args : list string) (binding : json)
  : outcome (list string) :=
  let* hostPort := Json.prop binding "HostPort" in
  Done (app args ["-p"; Json.toStringU hostPort ++ ":" ++ portOf containerPort]).

Definition pushPort (args : list string) (entry : string * json) : outcome (list string) :=
  match snd entry with
  | JArr hostPorts => foldM (pushBinding (fst entry)) args hostPorts
  | _ => Done args
  end.

Definition pushMount (args : list string) (mount : json) : outcome (list string) :=
  let* type := Json.prop mount "Type" in
  if Json.isString type "bind" then
    let* source := Json.prop mount "Source" in
    let* destination := Json.prop mount "Destination" in
    Done (app args ["-v"; Json.toStringU source ++ ":" ++ Json.toStringU destination])
  else Done args.

Definition pushEnv (args : list string) (env : json) : outcome (list string) :=
  let* env := Json.asString (Some env) in
  if negb (Str.startsWith env "PATH=") && negb (Str.startsWith env "HOME=")
  then Done (app args ["-e"; env])
  else Done args.

(** The array [createArgs] of [upgradeBirdNetGo] once the image name has
    been pushed; [config] is [JSON.parse(configJson)[0]]. *)
Definition createArgs (config : option json) (imageName : string) : outcome (list string) :=
  let* name := Json.get config "Name" in
  let* name := Json.asString name in
  let args :=
    ["docker"; "run"; "-d"; "--name"; Str.removeFirst "/" name;
     "--restart"; "unless-stopped"] in
  let* hostConfig := Json.get config "HostConfig" in
  let portBindings := Json.getOpt hostConfig "PortBindings" in
  let* args :=
    match portBindings with
    | Some pb => if Json.truthy portBindings then foldM pushPort args (entries pb) else Done args
    | None => Done args
    end in
  let* mounts := Json.get config "Mounts" in
  let* args :=
    if Json.truthy mounts
    then let* ms := Json.asArray mounts in foldM pushMount args ms
    else Done args in
  let* cfg := Json.get config "Config" in
  let env := Json.getOpt cfg "Env" in
  let* args :=
    if Json.truthy env
    then let* es := Json.asArray env in foldM pushEnv args es
    else Done args in
  Done (app args [imageName]).

(* ===================================================================== *)
(** ** The log view *)
(* ===================================================================== *)

(** The callback of [appLogs.filter] behind [filteredLogs]. *)
Section Filtering.

(** [String.prototype.toUpperCase] and [toLowerCase], the engine's. *)
Variable toUpperCase toLowerCase : string -> string.

Definition keepLog (levelFilter searchText : string) (log : json) : outcome bool :=
  let* levelOk :=
    if negb (String.eqb levelFilter "all") then
      let* level := Json.prop log "level" in
      let* level := Json.asStringOpt level in
      match level with
      | Some l => Done (String.eqb (toUpperCase l) (toUpperCase levelFilter))
      | None => Done false
      end
    else Done true in
  if negb levelOk then Done false
  else if negb (String.eqb searchText "") &&
          negb (Str.includes (toLowerCase (Json.stringify log))
                             (toLowerCase searchText))
  then Done false
  else Done true.

(** [filteredLogs], computed at every render from the state. *)
Definition filteredLogs (st : Store) : outcome (list json) :=
  filterM (keepLog (logLevelFilter st) (logSearchText st)) (appLogs st).

End Filtering.

(** The lines of the log file that [fetchAppLogs] keeps, newest first. *)
Definition parseAppLogs (JSON_parse : string -> option json) (result : string) : list json :=
  rev
    (filter (fun log => match log with JNull => false | _ => true end)
       (map (fun line => match JSON_parse line with Some v => v | None => JNull end)
          (Str.split Str.newline (Str.trim result)))).

(* ===================================================================== *)
(** ** The procedures of [Application] *)
(* ===================================================================== *)

(** The repository holds two revisions of the component: [src/app.tsx] and
    a later one.  The procedures below have the same text in both, up to
    layout, except for [checkForUpdates]: the later revision reads the
    current version through [versionInfoRef] instead of the closure and
    no longer clears [updateError] when it starts. *)
Inductive revision : Type :=
| AppTsx
| Later.

Definition healthUrl (hostname : string) : string :=
  "http://" ++ hostname ++ ":8080/api/v2/health".

Definition registryUrl : string :=
  "https://api.github.com/orgs/tphakala/packages/container/birdnet-go/versions?per_page=20".

Definition releasesUrl : string :=
  "https://api.github.com/repos/tphakala/birdnet-go/releases/latest".

Definition packageUrl : json :=
  JStr "https://github.com/tphakala/birdnet-go/pkgs/container/birdnet-go".

Definition logDirectory : string := "/home/thakala/birdnet-go-app/data/logs/".

Definition cmdDockerVersion : list string := ["docker"; "--version"].
Definition cmdDockerActive : list string := ["systemctl"; "is-active"; "docker"].
Definition cmdListUnit : list string :=
  ["systemctl"; "list-unit-files"; "--no-pager"; "--plain"; "birdnet-go.service"].
Definition cmdIsEnabled : list string := ["systemctl"; "is-enabled"; "birdnet-go.service"].
Definition cmdIsActive : list string := ["systemctl"; "is-active"; "birdnet-go.service"].
Definition cmdImages : list string :=
  ["docker"; "images"; "--format"; "{{.Repository}}:{{.Tag}}"].
Definition cmdPs : list string :=
  ["docker"; "ps"; "-a"; "--format"; "{{.ID}}|{{.Image}}|{{.Status}}|{{.Names}}"].
Definition cmdHealth (timeout hostname : string) : list string :=
  ["curl"; "-s"; "-m"; timeout; healthUrl hostname].
Definition cmdRegistry : list string :=
  ["curl"; "-s"; "-m"; "10"; "-H"; "Accept: application/vnd.github+json"; registryUrl].
Definition cmdReleases : list string := ["curl"; "-s"; "-m"; "10"; releasesUrl].
Definition cmdTail (file : string) : list string :=
  ["tail"; "-n"; "500"; logDirectory ++ file].
Definition cmdRestartUnit : list string := ["systemctl"; "restart"; "birdnet-go.service"].

(** The callback of [containerLines.find]. *)
Definition isBirdnetContainer (line : string) : outcome bool :=
  let parts := Str.split "|" line in
  let image := nth_error parts 1 in
  let name := nth_error parts 3 in
  match image with
  | None => Throw TypeError
  | Some image =>
      if Str.startsWith image "vsc-" then Done false
      else Done (Str.startsWith image "ghcr.io/tphakala/birdnet-go"
                 || String.eqb image "birdnet-go"
                 || match name with
                    | Some name => String.eqb name "birdnet-go"
                    | None => false
                    end)
  end.

(** The object literals that [checkForUpdates] hands to [setVersionInfo],
    each spreading [prev]. *)
Module Update.
Import VersionInfo.

Definition checking (rev : revision) (prev : t) : t :=
  {| current := current prev; buildDate := buildDate prev; latest := latest prev;
     latestNightly := latestNightly prev; nightlyTags := nightlyTags prev;
     updateAvailable := updateAvailable prev;
     checkingUpdate := Some true;
     updateError := match rev with AppTsx => None | Later => updateError prev end;
     releaseNotes := releaseNotes prev; releaseUrl := releaseUrl prev |}.

Definition nightly (scan : Scan.t) (available : bool) (prev : t) : t :=
  {| current := current prev; buildDate := buildDate prev; latest := latest prev;
     latestNightly :=
       Some (if String.eqb (Scan.latestNightlyTag scan) "" then "nightly"
             else Scan.latestNightlyTag scan);
     nightlyTags := Some (firstn 5 (sortWith newestFirst (Scan.nightlyTags scan)));
     updateAvailable := Some available;
     checkingUpdate := Some false;
     updateError := updateError prev;
     releaseNotes :=
       Some (JStr (if available
                   then "Newer nightly build available: " ++ Scan.latestNightlyTag scan
                   else "You are on the latest nightly build"));
     releaseUrl := Some packageUrl |}.

Definition development (prev : t) : t :=
  {| current := current prev; buildDate := buildDate prev;
     latest := Some (JStr "nightly (development build)");
     latestNightly := latestNightly prev; nightlyTags := nightlyTags prev;
     updateAvailable := Some false;
     checkingUpdate := Some false;
     updateError := updateError prev;
     releaseNotes :=
       Some (JStr "Nightly builds contain the latest development features and fixes");
     releaseUrl := Some packageUrl |}.

Definition stable (latestStable : option string) (available : bool)
           (body html_url : option json) (prev : t) : t :=
  {| current := current prev; buildDate := buildDate prev;
     latest := option_map JStr latestStable;
     latestNightly := latestNightly prev; nightlyTags := nightlyTags prev;
     updateAvailable := Some available;
     checkingUpdate := Some false;
     updateError := updateError prev;
     releaseNotes := body; releaseUrl := html_url |}.

Definition failed (prev : t) : t :=
  {| current := current prev; buildDate := buildDate prev; latest := latest prev;
     latestNightly := latestNightly prev; nightlyTags := nightlyTags prev;
     updateAvailable := updateAvailable prev;
     checkingUpdate := Some false;
     updateError := Some "Failed to check for updates";
     releaseNotes := releaseNotes prev; releaseUrl := releaseUrl prev |}.

Definition health (version build_date : option json) (prev : t) : t :=
  {| current := version; buildDate := build_date; latest := latest prev;
     latestNightly := latestNightly prev; nightlyTags := nightlyTags prev;
     updateAvailable := updateAvailable prev;
     checkingUpdate := checkingUpdate prev;
     updateError := updateError prev;
     releaseNotes := releaseNotes prev; releaseUrl := releaseUrl prev |}.
End Update.

(** The session once [c] has been spawned and has settled. *)
Definition spawned (c : command) (s : Session) : Session :=
  {| store := store s; issued := (issued s ++ [c])%list; alerts := alerts s;
     versionInfoRef := versionInfo (store s); updaterError := updaterError s |}.

Section Application.

(** The host: what a spawned command prints, given the commands spawned
    before it ([None] when the promise rejects), [JSON.parse] ([None]
    when it throws), [window.location.hostname], and which revision of
    the component runs. *)
Variable respond : list command -> command -> option string.
Variable JSON_parse : string -> option json.
Variable hostname : string.
Variable revised : revision.

(** [await cockpit.spawn(args, options)].  While the procedure is
    suspended React renders the pending state, which is when the later
    revision refreshes [versionInfoRef.current]. *)
Definition spawnAs (su : bool) (args : list string) : Async string :=
  fun s =>
    let c := Command args su in
    match respond (issued s) c with
    | Some out => (Done out, spawned c s)
    | None => (Throw SpawnError, spawned c s)
    end.

Definition spawn : list string -> Async string := spawnAs false.

Definition parse (text : string) : outcome json :=
  match JSON_parse text with
  | Some v => Done v
  | None => Throw SyntaxError
  end.

Definition checkDockerStatus : Async unit :=
  tryCatch
    (dockerVersion <- spawn cmdDockerVersion ;;
     dockerService <- spawn cmdDockerActive ;;
     setDockerStatus
       {| DockerStatus.available := true;
          DockerStatus.running := String.eqb (Str.trim dockerService) "active";
          DockerStatus.version := Some (Str.trim dockerVersion) |})
    (fun _ => setDockerStatus (DockerStatus.Build false false None)).

Definition checkSystemdStatus : Async unit :=
  tryCatch
    (serviceFiles <- spawn cmdListUnit ;;
     if Str.includes serviceFiles "birdnet-go.service" then
       isEnabled <-
         tryCatch
           (enabledState <- spawn cmdIsEnabled ;;
            ret (String.eqb (Str.trim enabledState) "enabled"))
           (fun _ => ret false) ;;
       active <-
         tryCatch
           (activeState <- spawn cmdIsActive ;;
            ret (Str.trim activeState))
           (fun _ => ret "inactive") ;;
       setSystemdStatus
         {| SystemdStatus.exists_ := true;
            SystemdStatus.running := String.eqb active "active";
            SystemdStatus.enabled := isEnabled;
            SystemdStatus.status := Some active |}
     else
       setSystemdStatus (SystemdStatus.Build false false false None))
    (fun _ => setSystemdStatus (SystemdStatus.Build false false false None)).

(** The health probe inside [checkBirdNetGoStatus]: [isActuallyRunning]. *)
Definition probeHealth : Async bool :=
  tryCatch
    (result <- spawn (cmdHealth "2" hostname) ;;
     if negb (String.eqb result "") then
       healthData <- lift (parse result) ;;
       status <- lift (Json.prop healthData "status") ;;
       ret (Json.isString status "healthy" || Json.isString status "degraded")
     else ret false)
    (fun _ => ret false).

Definition checkBirdNetGoStatus : Async unit :=
  tryCatch
    (images <- spawn cmdImages ;;
     let imagePresent := Str.includes images "ghcr.io/tphakala/birdnet-go" in
     isActuallyRunning <- probeHealth ;;
     containers <- spawn cmdPs ;;
     if negb (String.eqb (Str.trim containers) "") then
       let containerLines := Str.split Str.newline (Str.trim containers) in
       birdnetContainer <- lift (findM isBirdnetContainer containerLines) ;;
       (* a line that [find] returns has an image field, so it is not the
          empty string and [if (birdnetContainer)] asks whether one was
          found *)
       match birdnetContainer with
       | Some line =>
           let parts := Str.split "|" line in
           (* the debug line evaluates [status.startsWith('Up')] *)
           status <- lift (match nth_error parts 2 with
                           | Some status => Done status
                           | None => Throw TypeError
                           end) ;;
           setContainerStatus
             {| ContainerStatus.exists_ := true;
                ContainerStatus.running := isActuallyRunning || Str.startsWith status "Up";
                ContainerStatus.imagePresent := imagePresent;
                ContainerStatus.containerId := nth_error parts 0;
                ContainerStatus.status := Some status |}
       | None =>
           if isActuallyRunning then
             setContainerStatus
               {| ContainerStatus.exists_ := true;
                  ContainerStatus.running := true;
                  ContainerStatus.imagePresent := imagePresent;
                  ContainerStatus.containerId := None;
                  ContainerStatus.status := Some "Running (non-Docker or custom container)" |}
           else
             setContainerStatus (ContainerStatus.Build false false imagePresent None None)
       end
     else if isActuallyRunning then
       setContainerStatus
         {| ContainerStatus.exists_ := true;
            ContainerStatus.running := true;
            ContainerStatus.imagePresent := imagePresent;
            ContainerStatus.containerId := None;
            ContainerStatus.status := Some "Running (non-Docker)" |}
     else
       setContainerStatus (ContainerStatus.Build false false imagePresent None None))
    (fun _ => setContainerStatus (ContainerStatus.Build false false false None None)).

(** Every procedure is a closure of one render: [rendered] is the state
    of that render, which the procedure keeps reading whatever it sets
    in between. *)

Definition fetchHealthStatus (rendered : Store) : Async unit :=
  if negb (ContainerStatus.running (containerStatus rendered)) &&
     negb (SystemdStatus.running (systemdStatus rendered))
  then setHealthStatus JNull
  else
    tryCatch
      (result <- spawn (cmdHealth "5" hostname) ;;
       if negb (String.eqb result "") then
         data <- lift (parse result) ;;
         setHealthStatus data ;;
         setVersionInfo (fun prev =>
           let* version := Json.prop data "version" in
           let* build_date := Json.prop data "build_date" in
           Done (Update.health version build_date prev))
       else setHealthStatus JNull)
      (fun _ => setHealthStatus JNull).

Definition refreshStatus (rendered : Store) : Async unit :=
  setLoading true ;;
  checkDockerStatus ;;
  checkSystemdStatus ;;
  checkBirdNetGoStatus ;;
  fetchHealthStatus rendered ;;
  setLoading false.

(** [versionInfo.current] as [checkForUpdates] reads it. *)
Definition readCurrent (rendered : Store) : Async (option json) :=
  fun s =>
    (Done (VersionInfo.current
             match revised with
             | AppTsx => versionInfo rendered
             | Later => versionInfoRef s
             end), s).

(** The nightly branch of [checkForUpdates], inside its own [try]. *)
Definition checkNightly (currentVersion : string) : Async unit :=
  let currentDate :=
    match Str.matchNightly currentVersion with
    | Some d => Number.parseInt d
    | None => Num 0
    end in
  tryCatch
    (packageResult <- spawn cmdRegistry ;;
     if negb (String.eqb packageResult "") then
       versions <- lift (parse packageResult) ;;
       scan <- lift (scanVersions versions) ;;
       let updateAvailable := Number.gt (Scan.latestNightlyDate scan) currentDate in
       setVersionInfo (fun prev => Done (Update.nightly scan updateAvailable prev))
     else ret tt)
    (fun _ => setVersionInfo (fun prev => Done (Update.development prev))).

(** The stable branch.  [parseVersion] never throws, so the [catch]
    around the comparison is dead. *)
Definition checkStable (currentVersion : option string) : Async unit :=
  result <- spawn cmdReleases ;;
  if negb (String.eqb result "") then
    release <- lift (parse result) ;;
    tag_name <- lift (Json.prop release "tag_name") ;;
    tag_name <- lift (Json.asStringOpt tag_name) ;;
    let latestStable := option_map (Str.removeFirst "v") tag_name in
    let updateAvailable :=
      match latestStable, currentVersion with
      | Some latest, Some current =>
          if negb (String.eqb latest "") && negb (String.eqb current "") then
            let cleanCurrent := hd EmptyString (Str.split "-" current) in
            Number.gt (parseVersion latest) (parseVersion cleanCurrent)
          else false
      | _, _ => false
      end in
    setVersionInfo (fun prev =>
      let* body := Json.prop release "body" in
      let* html_url := Json.prop release "html_url" in
      Done (Update.stable latestStable updateAvailable body html_url prev))
  else ret tt.

(** The [try] block of [checkForUpdates]. *)
Definition checkForUpdatesBody (rendered : Store) : Async unit :=
  current <- readCurrent rendered ;;
  current <- lift (Json.asStringOpt current) ;;
  let currentVersion := option_map (Str.removeFirst "v") current in
  match currentVersion with
  | Some v => if Str.includes v "nightly" then checkNightly v else checkStable currentVersion
  | None => checkStable currentVersion
  end.

Definition checkForUpdates (rendered : Store) : Async unit :=
  setVersionInfo (fun prev => Done (Update.checking revised prev)) ;;
  tryCatch
    (checkForUpdatesBody rendered)
    (fun _ => setVersionInfo (fun prev => Done (Update.failed prev))).

(** The standalone-container branch of [upgradeBirdNetGo]. *)
Definition recreateContainer (containerId imageName : string) : Async unit :=
  spawn ["docker"; "stop"; containerId] ;;
  configJson <- spawn ["docker"; "inspect"; containerId] ;;
  parsed <- lift (parse configJson) ;;
  config <- lift (Json.first parsed) ;;
  spawn ["docker"; "rm"; containerId] ;;
  args <- lift (createArgs config imageName) ;;
  spawn args ;;
  ret tt.

(** The image the upgrade pulls. *)
Definition upgradeImage (rendered : Store) : outcome string :=
  let info := versionInfo rendered in
  let* current := Json.asStringOpt (VersionInfo.current info) in
  let isNightly :=
    match current with
    | Some c => Str.includes c "nightly"
    | None => false
    end in
  let imageTag :=
    if isNightly then
      match VersionInfo.latestNightly info with
      | Some tag => if String.eqb tag "" then "nightly" else tag
      | None => "nightly"
      end
    else if Json.truthy (VersionInfo.latest info)
         then "v" ++ Json.toStringU (VersionInfo.latest info)
         else "latest" in
  Done ("ghcr.io/tphakala/birdnet-go:" ++ imageTag).

Definition upgradeBirdNetGo (rendered : Store) : Async unit :=
  setUpgrading true ;;
  tryFinally
    (tryCatch
       (if negb (DockerStatus.available (dockerStatus rendered)) then
          alert "Docker is not available. Please install Docker to upgrade BirdNET-Go."
        else if negb (DockerStatus.running (dockerStatus rendered)) then
          alert "Docker service is not running. Please start Docker service first."
        else
          imageName <- lift (upgradeImage rendered) ;;
          spawn ["docker"; "pull"; imageName] ;;
          (if SystemdStatus.exists_ (systemdStatus rendered) then
             spawnAs true cmdRestartUnit ;; ret tt
           else
             match ContainerStatus.containerId (containerStatus rendered) with
             | Some containerId =>
                 if negb (String.eqb containerId "")
                 then recreateContainer containerId imageName
                 else ret tt
             | None => ret tt
             end) ;;
          refreshStatus rendered ;;
          checkForUpdates rendered)
       (fun _ => alert "Failed to upgrade BirdNET-Go. Please check the logs."))
    (fun s =>
       {| store := withUpgrading false (store s); issued := issued s;
          alerts := alerts s; versionInfoRef := versionInfoRef s;
          updaterError := updaterError s |}).

Definition fetchAppLogs (rendered : Store) : Async unit :=
  if String.eqb (selectedLogFile rendered) "" then ret tt
  else
    tryCatch
      (result <- spawn (cmdTail (selectedLogFile rendered)) ;;
       setAppLogs (parseAppLogs JSON_parse result))
      (fun _ => setAppLogs []).

End Application.

(* ===================================================================== *)
(** ** Vocabulary of the statements *)
(* ===================================================================== *)

(** The health payload reports the application as running. *)
Definition saysRunning (payload : json) : Prop :=
  Json.prop payload "status" = Done (Some (JStr "healthy")) \/
  Json.prop payload "status" = Done (Some (JStr "degraded")).

(** A listing as [docker ps --format '{{.ID}}|{{.Image}}|{{.Status}}|{{.Names}}']
    prints it: nothing, or lines with the fields up to the status. *)
Definition wellFormedListing (containers : string) : Prop :=
  Str.trim containers = "" \/
  Forall (fun line => 3 <= List.length (Str.split "|" line))
         (Str.split Str.newline (Str.trim containers)).

(** The degraded default of each probe. *)
Definition noDocker : DockerStatus.t := DockerStatus.Build false false None.
Definition noSystemd : SystemdStatus.t := SystemdStatus.Build false false false None.
Definition noContainer : ContainerStatus.t :=
  ContainerStatus.Build false false false None None.

(** The records of the lines that parse, in file order: what is left when
    only the lines that fail to parse are discarded. *)
Definition parsedRecords (JSON_parse : string -> option json) (lines : list string)
  : list json :=
  flat_map (fun line => match JSON_parse line with
                        | Some record => [record]
                        | None => []
                        end) lines.

(** The record a line contributes to the log view: none when the line
    fails to parse, and none when it parses to [null]. *)
Definition keptRecord (JSON_parse : string -> option json) (line : string) : list json :=
  match JSON_parse line with
  | Some JNull | None => []
  | Some record => [record]
  end.

(** The [level] of an entry can be compared: it is missing, [null] or a
    string, as [LogEntry] declares it. *)
Definition levelReadable (log : json) : bool :=
  match Json.prop log "level" with
  | Done None | Done (Some JNull) | Done (Some (JStr _)) => true
  | _ => false
  end.




(** The state of the log view with the given buffer and filters. *)
Definition logView (logs : list json) (level text : string) : Store :=
  {| dockerStatus := dockerStatus initialStore;
     containerStatus := containerStatus initialStore;
     systemdStatus := systemdStatus initialStore;
     healthStatus := healthStatus initialStore;
     versionInfo := versionInfo initialStore;
     appLogs := logs;
     selectedLogFile := selectedLogFile initialStore;
     logLevelFilter := level;
     logSearchText := text;
     loading := loading initialStore;
     upgrading := upgrading initialStore |}.

(** The strings of an array of strings. *)
Fixpoint stringItems (items : list json) : option (list string) :=
  match items with
  | [] => Some []
  | JStr s :: rest => option_map (cons s) (stringItems rest)
  | _ :: _ => None
  end.

(** The tags one version of a registry response declares, for a version
    the scan can read: it is not [null], and its
    [metadata.container.tags], when truthy, is an array of strings. *)
Definition declaredTags (version : json) : option (list string) :=
  match Json.prop version "metadata" with
  | Throw _ => None
  | Done metadata =>
      let tags := Json.getOpt (Json.getOpt metadata "container") "tags" in
      if Json.truthy tags then
        match tags with
        | Some (JArr items) => stringItems items
        | _ => None
        end
      else Some []
  end.

(** All the tags of a response, in the order the scan meets them. *)
Fixpoint responseTags (versions : list json) : option (list string) :=
  match versions with
  | [] => Some []
  | version :: rest =>
      match declaredTags version, responseTags rest with
      | Some tags, Some more => Some (tags ++ more)%list
      | _, _ => None
      end
  end.

(** [scanTag] on a tag that is a string. *)
Definition scanStep (acc : Scan.t) (tag : string) : Scan.t :=
  if isNightlyTag tag then
    if Number.gt (tagDate tag) (Scan.latestNightlyDate acc)
    then Scan.Build (Scan.nightlyTags acc ++ [tag])%list (tagDate tag) tag
    else Scan.Build (Scan.nightlyTags acc ++ [tag])%list
                    (Scan.latestNightlyDate acc) (Scan.latestNightlyTag acc)
  else acc.

(** The greatest date among tags, 0 when there is none. *)
Fixpoint maxDate (tags : list string) : Z :=
  match tags with
  | [] => 0
  | tag :: rest => Z.max (dateOf tag) (maxDate rest)
  end.

(** The tag of greatest date, the first one met when several carry it. *)
Fixpoint newest (tags : list string) : option string :=
  match tags with
  | [] => None
  | tag :: rest =>
      match newest rest with
      | Some other => if (dateOf tag <? dateOf other)%Z then Some other else Some tag
      | None => Some tag
      end
  end.

Definition newestOr (default : string) (tags : list string) : string :=
  match newest tags with
  | Some tag => tag
  | None => default
  end.

(** Newest first. *)
Definition notOlder (a b : string) : Prop := (dateOf b <= dateOf a)%Z.

(** The number that a text of decimal digits writes, read digit by
    digit from the left. *)
Fixpoint decimal (acc : Z) (digits : string) : Z :=
  match digits with
  | EmptyString => acc
  | String c rest => decimal (10 * acc + (Z.of_nat (nat_of_ascii c) - 48)) rest
  end.

(** Eight decimal digits. *)
Definition eightDigits (d : string) : Prop :=
  String.length d = 8 /\
  Forall (fun c => 48 <= nat_of_ascii c <= 57) (list_ascii_of_string d).

(** The date embedded in a tag, as the pattern [nightly-(\d{8})] finds
    it: the number that the eight digits write which follow the leftmost
    [nightly-] of the tag that eight digits follow. *)
Definition embeddedDate (tag : string) (date : Z) : Prop :=
  exists before d after,
    tag = before ++ "nightly-" ++ d ++ after /\
    eightDigits d /\
    date = decimal 0 d /\
    forall before' d' after',
      tag = before' ++ "nightly-" ++ d' ++ after' ->
      eightDigits d' ->
      String.length before <= String.length before'.

(** Both tags embed a date, and that of [b] is not after that of [a]. *)
Definition datedNoLater (a b : string) : Prop :=
  exists x y, embeddedDate a x /\ embeddedDate b y /\ (y <= x)%Z.

(** A procedure that leaves every session related to the one it started
    from. *)
Definition Keeps {A : Type} (R : Session -> Session -> Prop) (m : Async A) : Prop :=
  forall s, R s (snd (m s)).

(** The identity of the running build: [current] and [buildDate]. *)
Definition sameBuild (s s' : Session) : Prop :=
  VersionInfo.current (versionInfo (store s')) = VersionInfo.current (versionInfo (store s)) /\
  VersionInfo.buildDate (versionInfo (store s')) = VersionInfo.buildDate (versionInfo (store s)).

(** The commands issued are never taken back. *)
Definition issuedGrows (s s' : Session) : Prop :=
  exists more, issued s' = (issued s ++ more)%list.

(** The part of [docker inspect] that the upgrade reads, typed: the
    container name, the host ports bound to each container port, the
    mounts, the environment. *)
Module Inspect.
Record Mount : Type := BuildMount
  { Type_ : string; Source : string; Destination : string }.

Record t : Type := Build
  { Name : string;
    PortBindings : list (string * list string);
    Mounts : list Mount;
    Env : list string }.
End Inspect.

(** [v] is the array [items], or is [null] or missing and [items] is
    empty. *)
Definition arrayOrNothing (v : option json) (items : list json) : Prop :=
  v = Some (JArr items) \/ (Json.truthy v = false /\ items = []).

Definition describesBinding (binding : json) (hostPort : string) : Prop :=
  Json.prop binding "HostPort" = Done (Some (JStr hostPort)).

Definition describesPort (entry : string * json) (port : string * list string) : Prop :=
  fst entry = fst port /\
  ((snd entry = JNull /\ snd port = []) \/
   exists bindings,
     snd entry = JArr bindings /\ Forall2 describesBinding bindings (snd port)).

Definition describesMount (mount : json) (m : Inspect.Mount) : Prop :=
  Json.prop mount "Type" = Done (Some (JStr (Inspect.Type_ m))) /\
  Json.prop mount "Source" = Done (Some (JStr (Inspect.Source m))) /\
  Json.prop mount "Destination" = Done (Some (JStr (Inspect.Destination m))).

(** The inspect record [config] carries the configuration [c]. *)
Definition describes (config : json) (c : Inspect.t) : Prop :=
  Json.prop config "Name" = Done (Some (JStr (Inspect.Name c))) /\
  (exists hostConfig,
     Json.prop config "HostConfig" = Done hostConfig /\
     ((exists ports,
         Json.getOpt hostConfig "PortBindings" = Some (JObj ports) /\
         Forall2 describesPort ports (Inspect.PortBindings c)) \/
      (Json.truthy (Json.getOpt hostConfig "PortBindings") = false /\
       Inspect.PortBindings c = []))) /\
  (exists mounts items,
     Json.prop config "Mounts" = Done mounts /\
     arrayOrNothing mounts items /\
     Forall2 describesMount items (Inspect.Mounts c)) /\
  (exists cfg,
     Json.prop config "Config" = Done cfg /\
     arrayOrNothing (Json.getOpt cfg "Env") (map JStr (Inspect.Env c))).

Definition portFlags (port : string * list string) : list string :=
  flat_map (fun hostPort => ["-p"; hostPort ++ ":" ++ portOf (fst port)]) (snd port).

Definition mountFlags (m : Inspect.Mount) : list string :=
  if String.eqb (Inspect.Type_ m) "bind"
  then ["-v"; Inspect.Source m ++ ":" ++ Inspect.Destination m]
  else [].

Definition envFlags (env : string) : list string :=
  if negb (Str.startsWith env "PATH=") && negb (Str.startsWith env "HOME=")
  then ["-e"; env]
  else [].

(** The command line that recreates a container of configuration [c] on
    the image [imageName]. *)
Definition launchArgs (c : Inspect.t) (imageName : string) : list string :=
  (["docker"; "run"; "-d"; "--name"; Str.removeFirst "/" (Inspect.Name c);
    "--restart"; "unless-stopped"]
   ++ flat_map portFlags (Inspect.PortBindings c)
   ++ flat_map mountFlags (Inspect.Mounts c)
   ++ flat_map envFlags (Inspect.Env c)
   ++ [imageName])%list.

(** The arguments contain the option [flag] followed by [value]. *)
Definition hasFlag (flag value : string) (args : list string) : Prop :=
  exists before after, args = (before ++ flag :: value :: after)%list.

(* ===================================================================== *)
(** ** Sample hosts *)
(* ===================================================================== *)

(** Hosts to run the procedures on: one that answers from a script and a
    parser that knows the texts of a table of values. *)
Module Sample.

Fixpoint sameArgs (a b : list string) : bool :=
  match a, b with
  | [], [] => true
  | x :: a', y :: b' => String.eqb x y && sameArgs a' b'
  | _, _ => false
  end.

(** Prints the text the script gives for the command line; a command
    that the script does not list fails. *)
Fixpoint scripted (script : list (list string * string))
         (history : list command) (c : command) : option string :=
  match script with
  | [] => None
  | (args, out) :: rest =>
      if sameArgs args (argv c) then Some out else scripted rest history c
  end.

(** Parses exactly the texts that [JSON.stringify] gives for the values
    of the table, to those values. *)
Definition tableParse (known : list json) (text : string) : option json :=
  find (fun v => String.eqb (Json.stringify v) text) known.

Definition healthy : json :=
  JObj [("status", JStr "healthy"); ("version", JStr "nightly-20250831-5-gc2d911f7")].

Definition version (tags : list string) : json :=
  JObj [("id", JNum 1);
        ("metadata", JObj [("package_type", JStr "container");
                           ("container", JObj [("tags", JArr (map JStr tags))])])].

Definition nightlyStore (current : string) : Store :=
  withVersionInfo
    (VersionInfo.Build (Some (JStr current)) (Some (JStr "2025-08-31")) None None None
                       (Some false) (Some false) None None None)
    initialStore.

(** A host on which the application answers its health check while the
    engine lists its container as exited. *)
Definition stoppedListing : string :=
  "abc123|ghcr.io/tphakala/birdnet-go:nightly|Exited (0) 2 hours ago|birdnet-go".

Definition stoppedHost : list command -> command -> option string :=
  scripted
    [(cmdImages, "ghcr.io/tphakala/birdnet-go:nightly");
     (cmdHealth "2" "localhost", Json.stringify healthy);
     (cmdPs, stoppedListing)].

(** A host without a container engine on which the application runs
    natively: only the health check answers. *)
Definition nativeHost : list command -> command -> option string :=
  scripted [(cmdHealth "2" "localhost", Json.stringify healthy)].

(** A host whose engine lists its images and then stops answering, while
    the application answers its health check: [docker ps] fails. *)
Definition lostEngineHost : list command -> command -> option string :=
  scripted
    [(cmdImages, "ghcr.io/tphakala/birdnet-go:nightly");
     (cmdHealth "2" "localhost", Json.stringify healthy)].

(** A host whose container listing has a line without field separators. *)
Definition garbledHost : list command -> command -> option string :=
  scripted
    [(cmdImages, "ghcr.io/tphakala/birdnet-go:nightly");
     (cmdHealth "2" "localhost", Json.stringify healthy);
     (cmdPs, "abc123 ghcr.io/tphakala/birdnet-go:nightly")].

(** A host whose unit file exists and is enabled, and whose
    [systemctl is-active] exits non-zero. *)
Definition inactiveUnitHost : list command -> command -> option string :=
  scripted
    [(cmdListUnit, "birdnet-go.service enabled enabled");
     (cmdIsEnabled, "enabled")].

(** A host with the docker client installed and the daemon stopped:
    [systemctl is-active docker] exits non-zero. *)
Definition stoppedDaemonHost : list command -> command -> option string :=
  scripted [(cmdDockerVersion, "Docker version 27.0.3, build 7d4bcd8")].

Definition errorEntry : json :=
  JObj [("time", JStr "2025-09-01T10:00:00Z"); ("level", JStr "ERROR");
        ("msg", JStr "capture failed"); ("service", JStr "audio");
        ("device", JStr "hw:1,0")].

Definition infoEntry : json :=
  JObj [("time", JStr "2025-09-01T10:00:01Z"); ("level", JStr "INFO");
        ("msg", JStr "analysis started"); ("service", JStr "analysis")].

Definition debugEntry : json :=
  JObj [("time", JStr "2025-09-01T10:00:02Z"); ("level", JStr "DEBUG");
        ("msg", JStr "chunk read"); ("service", JStr "audio")].

(** A log file whose first line is the JSON literal [null]. *)
Definition logText : string :=
  "null" ++ String Str.newline (Json.stringify infoEntry).

Definition logHost : list command -> command -> option string :=
  scripted [(cmdTail "analysis.log", logText)].

(** Registry responses: one with a newer nightly, one whose only nightly
    tag carries the date 00000000, one with seven nightly tags. *)
Definition registry : json :=
  JArr [version ["nightly-20250901"; "nightly"];
        version ["nightly-20250830"; "v1.0"];
        version []].

Definition zeroRegistry : json := JArr [version ["nightly-00000000"]].

Definition longRegistry : json :=
  JArr [version ["nightly-20250828"; "nightly-20250901"];
        version ["nightly-20250830"];
        version ["nightly-20250827"; "nightly-20250831"; "latest"];
        version ["nightly-20250829"; "nightly-20250826"]].

Definition registryHost (response : json) : list command -> command -> option string :=
  scripted [(cmdRegistry, Json.stringify response)].

Definition nightlyBuild : string := "nightly-20250831-5-gc2d911f7".

(** A stable build on a host whose releases request fails. *)
Definition stableStore : Store :=
  withVersionInfo
    (VersionInfo.Build (Some (JStr "v1.2.3")) (Some (JStr "2025-06-01"))
                       (Some (JStr "1.2.2")) None None
                       (Some true) (Some false) None
                       (Some (JStr "notes")) (Some (JStr "https://example.org/r")))
    initialStore.

(** The inspect record of a container with port binding 8080:8080, the
    volume /data:/data and the variables FOO=bar, PATH and HOME, as the
    engine prints it, and its configuration. *)
Definition inspected : json :=
  JObj [("Id", JStr "abc123");
        ("Name", JStr "/birdnet-go");
        ("HostConfig",
         JObj [("PortBindings",
                JObj [("8080/tcp",
                       JArr [JObj [("HostIp", JStr ""); ("HostPort", JStr "8080")]])]);
               ("RestartPolicy", JObj [("Name", JStr "no")])]);
        ("Mounts",
         JArr [JObj [("Type", JStr "bind"); ("Source", JStr "/data");
                     ("Destination", JStr "/data"); ("RW", JBool true)]]);
        ("Config",
         JObj [("Env",
                JArr [JStr "FOO=bar";
                      JStr "PATH=/usr/local/bin:/usr/bin";
                      JStr "HOME=/root"]);
               ("Image", JStr "ghcr.io/tphakala/birdnet-go:nightly")])].

Definition configuration : Inspect.t :=
  {| Inspect.Name := "/birdnet-go";
     Inspect.PortBindings := [("8080/tcp", ["8080"])];
     Inspect.Mounts := [Inspect.BuildMount "bind" "/data" "/data"];
     Inspect.Env := ["FOO=bar"; "PATH=/usr/local/bin:/usr/bin"; "HOME=/root"] |}.

(** A host with a running engine and that container, on a nightly build
    that knows a newer nightly tag. *)
Definition upgradeStore : Store :=
  withDockerStatus (DockerStatus.Build true true (Some "Docker version 27.0.3"))
    (withContainerStatus
       (ContainerStatus.Build true true true (Some "abc123") (Some "Up 2 hours"))
       (withVersionInfo
          (VersionInfo.Build (Some (JStr nightlyBuild)) (Some (JStr "2025-08-31"))
                             None (Some "nightly-20250901") None
                             (Some true) (Some false) None None None)
          initialStore)).

Definition upgradeHost : list command -> command -> option string :=
  scripted
    [(["docker"; "pull"; "ghcr.io/tphakala/birdnet-go:nightly-20250901"], "pulled");
     (["docker"; "stop"; "abc123"], "abc123");
     (["docker"; "inspect"; "abc123"], Json.stringify (JArr [inspected]));
     (["docker"; "rm"; "abc123"], "abc123")].

End Sample.

(* ===================================================================== *)
(** ** The rest of the component: cards, controls, actions, log fetchers *)
(* ===================================================================== *)

(** [getDockerStatusVariant] *)
Definition getDockerStatusVariant (st : Store) : string :=
  if negb (DockerStatus.available (dockerStatus st)) then "danger"
  else if negb (DockerStatus.running (dockerStatus st)) then "warning"
  else "success".

(** [getContainerStatusVariant] *)
Definition getContainerStatusVariant (st : Store) : string :=
  if SystemdStatus.exists_ (systemdStatus st) then
    if SystemdStatus.running (systemdStatus st) then "success" else "warning"
  else if negb (ContainerStatus.imagePresent (containerStatus st)) then "warning"
  else if negb (ContainerStatus.exists_ (containerStatus st)) then "info"
  else if negb (ContainerStatus.running (containerStatus st)) then "warning"
  else "success".

(** [getDockerStatusText]; [gettext] is cockpit's [_]. *)
Definition getDockerStatusText (gettext : string -> string) (st : Store) : string :=
  if negb (DockerStatus.available (dockerStatus st)) then gettext "Docker not available"
  else if negb (DockerStatus.running (dockerStatus st))
       then gettext "Docker service not running"
       else gettext "Docker service running".

(** [getContainerStatusText] *)
Definition getContainerStatusText (gettext : string -> string) (st : Store) : string :=
  if SystemdStatus.exists_ (systemdStatus st) then
    if SystemdStatus.running (systemdStatus st)
    then gettext "BirdNET-Go service running (systemd)"
    else gettext "BirdNET-Go service stopped (systemd)"
  else if negb (ContainerStatus.imagePresent (containerStatus st))
       then gettext "BirdNET-Go Docker image not found"
  else if negb (ContainerStatus.exists_ (containerStatus st))
       then gettext "No BirdNET-Go container found"
  else if negb (ContainerStatus.running (containerStatus st))
       then gettext "BirdNET-Go container stopped"
  else gettext "BirdNET-Go container running".

(** The handlers behind the buttons of the actions card. *)
Inductive action : Type :=
| RefreshStatus
| StartService
| StopService
| RestartService
| EnableAtBoot
| StartContainer
| StopContainer
| RestartContainer
| CreateContainer
| PullImage
| OpenWebInterface.

Record button : Type := Button
  { onClick : action;
    isDisabled : bool }.

(** [cond && <Button .../>] *)
Definition shown (cond : bool) (b : button) : list button :=
  if cond then [b] else [].

(** The buttons that the actions card renders, in document order.
    [restarting] is the flag of the later revision, which also disables
    the container restart; [src/app.tsx] has no such flag, which is
    [restarting = false]. *)
Definition serviceControls (restarting : bool) (st : Store) : list button :=
  let docker := dockerStatus st in
  let systemd := systemdStatus st in
  let container := containerStatus st in
  ([Button RefreshStatus false]
   ++ (if SystemdStatus.exists_ systemd then
         shown (negb (SystemdStatus.running systemd)) (Button StartService false)
         ++ shown (SystemdStatus.running systemd) (Button StopService false)
         ++ [Button RestartService false]
         ++ shown (negb (SystemdStatus.enabled systemd)) (Button EnableAtBoot false)
       else [])
   ++ (if negb (SystemdStatus.exists_ systemd) then
         shown (ContainerStatus.exists_ container && negb (ContainerStatus.running container))
               (Button StartContainer (negb (DockerStatus.running docker)))
         ++ shown (ContainerStatus.exists_ container && ContainerStatus.running container)
                  (Button StopContainer false)
         ++ shown (ContainerStatus.exists_ container)
                  (Button RestartContainer (negb (DockerStatus.running docker) || restarting))
         ++ shown (negb (ContainerStatus.exists_ container)
                   && ContainerStatus.imagePresent container)
                  (Button CreateContainer (negb (DockerStatus.running docker)))
         ++ shown (negb (ContainerStatus.imagePresent container)
                   && DockerStatus.available docker)
                  (Button PullImage (negb (DockerStatus.running docker)))
       else [])
   ++ shown (ContainerStatus.running container || SystemdStatus.running systemd)
            (Button OpenWebInterface false))%list.

Definition offers (a : action) (buttons : list button) : Prop :=
  exists disabled, In (Button a disabled) buttons.

Definition isContainerAction (a : action) : bool :=
  match a with
  | StartContainer | StopContainer | RestartContainer | CreateContainer | PullImage => true
  | _ => false
  end.

Definition isServiceAction (a : action) : bool :=
  match a with
  | StartService | StopService | RestartService | EnableAtBoot => true
  | _ => false
  end.

(** [getLogLevelColor(level)], called on [log.level]. *)
Definition getLogLevelColor (toUpperCase : string -> string) (level : option json)
  : outcome string :=
  let* level := Json.asStringOpt level in
  match option_map toUpperCase level with
  | Some "ERROR" => Done "#c9190b"
  | Some "WARN" => Done "#f0ab00"
  | Some "INFO" => Done "#0066cc"
  | Some "DEBUG" => Done "#6a6e73"
  | _ => Done "#151515"
  end.

Definition cmdCreate : list string :=
  ["docker"; "run"; "-d"; "--name"; "birdnet-go";
   "-p"; "8080:8080"; "-p"; "8090:8090";
   "-v"; "/home/thakala/birdnet-go-app/config:/config";
   "-v"; "/home/thakala/birdnet-go-app/data:/data";
   "ghcr.io/tphakala/birdnet-go:nightly"].

Definition cmdPullNightly : list string :=
  ["docker"; "pull"; "ghcr.io/tphakala/birdnet-go:nightly"].

Definition cmdService (verb : string) : list string :=
  ["systemctl"; verb; "birdnet-go.service"].

Definition cmdLogs (containerId : string) : list string :=
  ["docker"; "logs"; "--tail"; "200"; containerId].

Definition cmdListLogs : list string := ["ls"; "-1"; logDirectory].

(** [s.endsWith(p)] *)
Definition endsWith (s p : string) : bool :=
  (String.length p <=? String.length s) &&
  String.eqb (Str.drop (String.length s - String.length p) s) p.

(** [files.includes(name)] *)
Definition listed (name : string) (files : list string) : bool :=
  existsb (String.eqb name) files.

Definition withSelectedLogFile (v : string) (st : Store) : Store :=
  {| dockerStatus := dockerStatus st; containerStatus := containerStatus st;
     systemdStatus := systemdStatus st; healthStatus := healthStatus st;
     versionInfo := versionInfo st; appLogs := appLogs st;
     selectedLogFile := v; logLevelFilter := logLevelFilter st;
     logSearchText := logSearchText st; loading := loading st;
     upgrading := upgrading st |}.

Definition setSelectedLogFile (v : string) : Async unit :=
  updateStore (withSelectedLogFile v).

Section Actions.

Variable respond : list command -> command -> option string.
Variable JSON_parse : string -> option json.
Variable hostname : string.

(** The shape the lifecycle handlers share: spawn one command, then
    refresh; an error is logged to the console and goes no further. *)
Definition spawnThenRefresh (su : bool) (args : list string) (rendered : Store) : Async unit :=
  tryCatch
    (spawnAs respond su args ;;
     refreshStatus respond JSON_parse hostname rendered)
    (fun _ => ret tt).

(** [if (!containerStatus.containerId) return;] followed by the handler. *)
Definition onContainer (verb : string) (rendered : Store) : Async unit :=
  match ContainerStatus.containerId (containerStatus rendered) with
  | Some containerId =>
      if String.eqb containerId "" then ret tt
      else spawnThenRefresh false ["docker"; verb; containerId] rendered
  | None => ret tt
  end.

Definition startContainer : Store -> Async unit := onContainer "start".
Definition stopContainer : Store -> Async unit := onContainer "stop".

(** [restartContainer]; the later revision also raises a [restarting]
    flag around it, kept in a hook of its own. *)
Definition restartContainer : Store -> Async unit := onContainer "restart".

Definition createContainer : Store -> Async unit := spawnThenRefresh false cmdCreate.
Definition pullImage : Store -> Async unit := spawnThenRefresh false cmdPullNightly.

Definition startSystemdService : Store -> Async unit :=
  spawnThenRefresh true (cmdService "start").
Definition stopSystemdService : Store -> Async unit :=
  spawnThenRefresh true (cmdService "stop").
(** [restartSystemdService]; the later revision raises the same
    [restarting] flag around it. *)
Definition restartSystemdService : Store -> Async unit :=
  spawnThenRefresh true (cmdService "restart").
Definition enableSystemdService : Store -> Async unit :=
  spawnThenRefresh true (cmdService "enable").

(** The handler a button runs; [Open Web Interface] opens a window and
    spawns nothing. *)
Definition handler (a : action) (rendered : Store) : Async unit :=
  match a with
  | RefreshStatus => refreshStatus respond JSON_parse hostname rendered
  | StartService => startSystemdService rendered
  | StopService => stopSystemdService rendered
  | RestartService => restartSystemdService rendered
  | EnableAtBoot => enableSystemdService rendered
  | StartContainer => startContainer rendered
  | StopContainer => stopContainer rendered
  | RestartContainer => restartContainer rendered
  | CreateContainer => createContainer rendered
  | PullImage => pullImage rendered
  | OpenWebInterface => ret tt
  end.

(** [fetchLogs]: the computation ends in the text it hands to
    [setContainerLogs], a hook outside [Store]. *)
Definition fetchLogs (rendered : Store) : Async string :=
  let container := containerStatus rendered in
  match ContainerStatus.containerId container with
  | Some containerId =>
      if negb (ContainerStatus.exists_ container) || String.eqb containerId ""
      then ret ""
      else tryCatch (spawn respond (cmdLogs containerId))
                    (fun _ => ret "Error fetching logs")
  | None => ret ""
  end.

(** [fetchLogFiles]: the computation ends in the list it hands to
    [setLogFiles], a hook outside [Store]. *)
Definition fetchLogFiles (rendered : Store) : Async (list string) :=
  tryCatch
    (result <- spawn respond cmdListLogs ;;
     let files :=
       filter (fun file => endsWith file ".log")
              (Str.split Str.newline (Str.trim result)) in
     (if (0 <? List.length files) && negb (listed (selectedLogFile rendered) files)
      then setSelectedLogFile (hd EmptyString files)
      else ret tt) ;;
     ret files)
    (fun _ => ret []).

End Actions.

(** The commands that only read the state of the host. *)
Definition probeCommands (hostname : string) : list (list string) :=
  [cmdDockerVersion; cmdDockerActive; cmdListUnit; cmdIsEnabled; cmdIsActive;
   cmdImages; cmdHealth "2" hostname; cmdPs; cmdHealth "5" hostname].

Definition isProbe (hostname : string) (c : command) : Prop :=
  superuser c = false /\ In (argv c) (probeCommands hostname).

(** The session gained only commands that satisfy [P]. *)
Definition issuedOnly (P : command -> Prop) (s s' : Session) : Prop :=
  exists more, issued s' = (issued s ++ more)%list /\ Forall P more.

(** The session shows the same alerts. *)
Definition sameAlerts (s s' : Session) : Prop := alerts s' = alerts s.

(** The command behind a button, when it spawns one. *)
Definition commandOf (a : action) (rendered : Store) : option command :=
  let onId verb :=
    match ContainerStatus.containerId (containerStatus rendered) with
    | Some containerId =>
        if String.eqb containerId "" then None
        else Some (Command ["docker"; verb; containerId] false)
    | None => None
    end in
  match a with
  | StartService => Some (Command (cmdService "start") true)
  | StopService => Some (Command (cmdService "stop") true)
  | RestartService => Some (Command (cmdService "restart") true)
  | EnableAtBoot => Some (Command (cmdService "enable") true)
  | StartContainer => onId "start"
  | StopContainer => onId "stop"
  | RestartContainer => onId "restart"
  | CreateContainer => Some (Command cmdCreate false)
  | PullImage => Some (Command cmdPullNightly false)
  | RefreshStatus | OpenWebInterface => None
  end.

(** The promise of the procedure is never rejected. *)
Definition Settles {A : Type} (m : Async A) : Prop :=
  forall s, exists a, fst (m s) = Done a.

(** The session kept its version information. *)
Definition sameVersionInfo (s s' : Session) : Prop :=
  versionInfo (store s') = versionInfo (store s).

(** [s] does not contain the character [c]. *)
Fixpoint lacks (c : ascii) (s : string) : bool :=
  match s with
  | EmptyString => true
  | String d s' => negb (Ascii.eqb d c) && lacks c s'
  end.

(** A component of a release number: a text without dot or hyphen that
    [parseInt] reads as a number below 100. *)
Definition component (s : string) (n : Z) : Prop :=
  lacks "." s = true /\ lacks "-" s = true /\
  Number.parseInt s = Num n /\ (0 <= n < 100)%Z.

(** The order of release numbers. *)
Definition olderRelease (v w : Z * Z * Z) : Prop :=
  let '(a, b, c) := v in
  let '(a', b', c') := w in
  (a < a' \/ (a = a' /\ (b < b' \/ (b = b' /\ c < c'))))%Z.

(** [versionInfo.current] as the update check reads it. *)
Definition currentOf (revised : revision) (rendered : Store) (s : Session) : option json :=
  VersionInfo.current
    match revised with
    | AppTsx => versionInfo rendered
    | Later => versionInfoRef s
    end.

(** The alert of an upgrade that failed. *)
Definition upgradeFailed : string :=
  "Failed to upgrade BirdNET-Go. Please check the logs.".

(** The requests that an upgrade may add to the probes of its refresh. *)
Definition isQuery (hostname : string) (c : command) : Prop :=
  superuser c = false /\
  In (argv c) (probeCommands hostname ++ [cmdRegistry; cmdReleases])%list.

(** The repository the upgrade pulls from. *)
Definition imageRepository : string := "ghcr.io/tphakala/birdnet-go:".

(** Hosts for the cards, the actions and the log fetchers. *)
Module Hosts.

(** A host without a unit file, whose engine holds the image and no
    container, and whose application is down. *)
Definition freshHost : list command -> command -> option string :=
  Sample.scripted
    [(cmdListUnit, "0 unit files listed.");
     (cmdImages, "ghcr.io/tphakala/birdnet-go:nightly");
     (cmdPs, "")].

(** A host whose only container is an editor container that happens to
    be called [birdnet-go]. *)
Definition editorHost : list command -> command -> option string :=
  Sample.scripted
    [(cmdImages, "vsc-birdnet-go-1234:latest");
     (cmdPs, "f00|vsc-birdnet-go-1234|Up 3 hours|birdnet-go")].

(** A host whose engine lists the container as up while the application
    does not answer yet. *)
Definition startingHost : list command -> command -> option string :=
  Sample.scripted
    [(cmdImages, "ghcr.io/tphakala/birdnet-go:nightly");
     (cmdPs, "abc123|ghcr.io/tphakala/birdnet-go:nightly|Up 2 seconds|birdnet-go")].

Definition containerStore : Store :=
  withContainerStatus
    (ContainerStatus.Build true true true (Some "abc123") (Some "Up 2 hours"))
    initialStore.

(** A health payload with its version and build date. *)
Definition payload : json :=
  JObj [("status", JStr "healthy"); ("version", JStr "v1.2.3");
        ("build_date", JStr "2025-06-01T00:00:00Z")].

Definition healthHost : list command -> command -> option string :=
  Sample.scripted [(cmdHealth "5" "localhost", Json.stringify payload)].

(** A registry that answers with an error object, and hosts that answer
    with nothing. *)
Definition rateLimited : json :=
  JObj [("message", JStr "API rate limit exceeded")].

Definition rateLimitedHost : list command -> command -> option string :=
  Sample.scripted [(cmdRegistry, Json.stringify rateLimited)].

Definition silentHost : list command -> command -> option string :=
  Sample.scripted [(cmdRegistry, ""); (cmdReleases, "")].

(** The latest release of a stable build. *)
Definition release : json :=
  JObj [("tag_name", JStr "v1.3.0"); ("body", JStr "Fixes");
        ("html_url", JStr "https://github.com/tphakala/birdnet-go/releases/tag/v1.3.0")].

Definition releaseHost : list command -> command -> option string :=
  Sample.scripted [(cmdReleases, Json.stringify release)].

Definition stableBuild : Store :=
  withVersionInfo
    (VersionInfo.Build (Some (JStr "v1.2.3-rc1")) (Some (JStr "2025-06-01"))
                       None None None (Some false) (Some false) None None None)
    initialStore.

(** A host managed by a unit, on which everything the upgrade spawns
    succeeds. *)
Definition unitStore : Store :=
  withDockerStatus (DockerStatus.Build true true (Some "Docker version 27.0.3"))
    (withSystemdStatus (SystemdStatus.Build true true true (Some "active"))
       (withVersionInfo
          (VersionInfo.Build (Some (JStr "v1.2.3")) (Some (JStr "2025-06-01"))
                             (Some (JStr "1.3.0")) None None
                             (Some true) (Some false) None None None)
          initialStore)).

Definition unitHost : list command -> command -> option string :=
  Sample.scripted
    [(["docker"; "pull"; "ghcr.io/tphakala/birdnet-go:v1.3.0"], "pulled");
     (cmdRestartUnit, "")].

(** A log directory. *)
Definition logsHost : list command -> command -> option string :=
  Sample.scripted
    [(cmdListLogs, "actions.log" ++ String Str.newline
                   ("notes.txt" ++ String Str.newline "birdweather.log"));
     (cmdLogs "abc123", "line 1")].

(** A release tagged with two components only. *)
Definition shortRelease : json := JObj [("tag_name", JStr "v2.0")].

Definition shortReleaseHost : list command -> command -> option string :=
  Sample.scripted [(cmdReleases, Json.stringify shortRelease)].

(** An engine that pulls and then refuses every other command. *)
Definition pullOnlyHost : list command -> command -> option string :=
  Sample.scripted
    [(["docker"; "pull"; "ghcr.io/tphakala/birdnet-go:nightly-20250901"], "pulled")].

(** A log entry whose level is a number. *)
Definition numberedEntry : json :=
  JObj [("time", JStr "2025-09-01T10:00:03Z"); ("level", JNum 3); ("msg", JStr "tick")].





End Hosts.

(* ===================================================================== *)
(** * Properties *)
(* ===================================================================== *)

(** ** Strings and numbers *)

Lemma prefix_app (a b : string) : String.prefix a (a ++ b) = true.
Proof.
  induction a as [|c a IH]; simpl.
  - destruct b; reflexivity.
  - destruct (ascii_dec c c); [exact IH | contradiction].
Qed.

Lemma prefix_app_l (a b s : string) :
  String.prefix (a ++ b) s = true -> String.prefix a s = true.
Proof.
  revert s; induction a as [|c a IH]; intros s H.
  - destruct s; reflexivity.
  - destruct s as [|d s]; simpl in *; [discriminate|].
    destruct (ascii_dec c d); [apply IH; exact H | discriminate].
Qed.

Lemma prefix_cons (a c : ascii) (p s : string) :
  String.prefix (String a p) (String c s) =
  if ascii_dec a c then String.prefix p s else false.
Proof. reflexivity. Qed.

Lemma includes_prefix (s sub : string) :
  String.prefix sub s = true -> Str.includes s sub = true.
Proof. intros H. destruct s; cbn [Str.includes]; rewrite H; reflexivity. Qed.

Lemma includes_skip (c : ascii) (s sub : string) :
  Str.includes s sub = true -> Str.includes (String c s) sub = true.
Proof. intros H. cbn [Str.includes]. rewrite H. apply orb_true_r. Qed.



Lemma digit_not_space (c : ascii) : Str.is_digit c = true -> Str.is_space c = false.
Proof.
  unfold Str.is_digit, Str.is_space. intros H.
  apply andb_true_iff in H as [H1 H2].
  apply Nat.leb_le in H1.
  repeat (apply orb_false_iff; split); apply Nat.eqb_neq; lia.
Qed.

Lemma digit_not_char (c d : ascii) :
  Str.is_digit c = true -> Str.is_digit d = false -> Ascii.eqb c d = false.
Proof.
  intros Hc Hd. destruct (Ascii.eqb c d) eqn:E; [|reflexivity].
  apply Ascii.eqb_eq in E. subst. congruence.
Qed.

Lemma digit_value (c : ascii) :
  Str.is_digit c = true ->
  exists d, Number.digitValue 10 c = Some d /\ (0 <= d)%Z.
Proof.
  unfold Str.is_digit, Number.digitValue. intros H.
  apply andb_true_iff in H as [H1 H2].
  apply Nat.leb_le in H1. apply Nat.leb_le in H2.
  exists (Z.of_nat (Str.code c) - 48)%Z.
  replace ((48 <=? Z.of_nat (Str.code c))%Z) with true by (symmetry; apply Z.leb_le; lia).
  replace ((Z.of_nat (Str.code c) <=? 57)%Z) with true by (symmetry; apply Z.leb_le; lia).
  simpl.
  replace ((Z.of_nat (Str.code c) - 48 <? 10)%Z) with true by (symmetry; apply Z.ltb_lt; lia).
  split; [reflexivity | lia].
Qed.

Lemma readDigits_digits (n : nat) (s d : string) (acc : option Z) :
  Str.digits n s = Some d ->
  (0 <= match acc with Some a => a | None => 0 end)%Z ->
  (0 < n \/ acc <> None) ->
  exists z, Number.readDigits 10 acc d = Some z /\ (0 <= z)%Z.
Proof.
  revert s d acc. induction n as [|n IH]; intros s d acc Hd Hacc Hn.
  - simpl in Hd. injection Hd as <-. simpl.
    destruct acc as [a|]; [exists a; auto | destruct Hn; [lia | contradiction]].
  - simpl in Hd. destruct s as [|c s]; [discriminate|].
    destruct (Str.is_digit c) eqn:Hc; [|discriminate].
    destruct (Str.digits n s) as [d'|] eqn:Hd'; [|discriminate].
    injection Hd as <-. cbn [Number.readDigits].
    destruct (digit_value c Hc) as [v [-> Hv]].
    eapply IH; [exact Hd' | | right; discriminate].
    cbn beta iota. destruct acc; cbn beta iota in *; lia.
Qed.

(** [parseInt] of a run of decimal digits is a number, never [NaN]. *)
Lemma parseInt_digits (n : nat) (s d : string) :
  0 < n -> Str.digits n s = Some d ->
  exists z, Number.parseInt d = Num z /\ (0 <= z)%Z.
Proof.
  intros Hn Hd.
  destruct n as [|n]; [lia|].
  pose proof Hd as Hd0.
  simpl in Hd. destruct s as [|c s]; [discriminate|].
  destruct (Str.is_digit c) eqn:Hc; [|discriminate].
  destruct (Str.digits n s) as [d'|] eqn:Hd'; [|discriminate].
  injection Hd as <-.
  unfold Number.parseInt.
  cbn [Str.trimStart]. rewrite (digit_not_space c Hc).
  rewrite (digit_not_char c "-" Hc eq_refl), (digit_not_char c "+" Hc eq_refl).
  assert (Hx : Str.startsWith (String c d') "0x" || Str.startsWith (String c d') "0X" = false).
  { unfold Str.startsWith. rewrite !prefix_cons.
    destruct (ascii_dec "0" c); [|reflexivity].
    destruct d' as [|c2 d'']; [reflexivity|].
    destruct n as [|n]; [cbn in Hd'; discriminate|].
    cbn [Str.digits] in Hd'. destruct s as [|c2' s]; [discriminate|].
    destruct (Str.is_digit c2') eqn:Hc2; [|discriminate].
    destruct (Str.digits n s); [|discriminate].
    injection Hd' as -> _.
    rewrite !prefix_cons.
    destruct (ascii_dec "x" c2) as [<-|]; [discriminate Hc2|].
    destruct (ascii_dec "X" c2) as [<-|]; [discriminate Hc2|].
    reflexivity. }
  rewrite Hx.
  destruct (@readDigits_digits (S n) (String c s) (String c d') None Hd0) as [z [Hz Hz0]];
    [simpl; lia | left; lia |].
  rewrite Hz. exists z. split; [reflexivity | exact Hz0].
Qed.

Lemma digits_nonempty (n : nat) (s d : string) :
  0 < n -> Str.digits n s = Some d -> d <> EmptyString.
Proof.
  intros Hn Hd. destruct n; [lia|]. simpl in Hd.
  destruct s; [discriminate|]. destruct (Str.is_digit a); [|discriminate].
  destruct (Str.digits n s); [|discriminate]. injection Hd as <-. discriminate.
Qed.

Lemma matchNightly_digits (s d : string) :
  Str.matchNightly s = Some d -> exists t, Str.digits 8 t = Some d.
Proof.
  induction s as [|c s IH]; intros H.
  - cbn in H. discriminate.
  - cbn [Str.matchNightly] in H.
    destruct (Str.nightlyAt (String c s)) as [d'|] eqn:E.
    + injection H as <-. unfold Str.nightlyAt in E.
      destruct (Str.startsWith (String c s) "nightly-"); [|discriminate].
      eexists; exact E.
    + apply IH, H.
Qed.

Lemma matchNightly_includes (s d : string) :
  Str.matchNightly s = Some d -> Str.includes s "nightly" = true.
Proof.
  induction s as [|c s IH]; intros H.
  - cbn in H. discriminate.
  - cbn [Str.matchNightly] in H.
    destruct (Str.nightlyAt (String c s)) as [d'|] eqn:E.
    + unfold Str.nightlyAt, Str.startsWith in E.
      destruct (String.prefix "nightly-" (String c s)) eqn:P; [|discriminate].
      apply includes_prefix.
      apply (prefix_app_l "nightly" "-"). exact P.
    + apply includes_skip, IH, H.
Qed.

(** The sort key of a tag is always a number. *)
Lemma tagDate_number (tag : string) : exists z, tagDate tag = Num z /\ (0 <= z)%Z.
Proof.
  unfold tagDate. destruct (Str.matchNightly tag) as [d|] eqn:E.
  - destruct (matchNightly_digits _ E) as [t Ht].
    destruct (String.eqb d "") eqn:Ed.
    + exists 0%Z. split; [reflexivity | lia].
    + eapply parseInt_digits; [|exact Ht]. lia.
  - exists 0%Z. split; [reflexivity | lia].
Qed.

Lemma tagDate_dateOf (tag : string) : tagDate tag = Num (dateOf tag).
Proof.
  unfold dateOf. destruct (tagDate_number tag) as [z [-> _]]. reflexivity.
Qed.

Lemma dateOf_nonneg (tag : string) : (0 <= dateOf tag)%Z.
Proof.
  unfold dateOf. destruct (tagDate_number tag) as [z [-> Hz]]. exact Hz.
Qed.

(** For a tag that matches, the date [scanTag] parses is the sort key. *)
Lemma matchNightly_date (tag d : string) :
  Str.matchNightly tag = Some d -> Number.parseInt d = Num (dateOf tag).
Proof.
  intros H. rewrite <- tagDate_dateOf. unfold tagDate. rewrite H.
  destruct (matchNightly_digits _ H) as [t Ht].
  destruct (String.eqb d "") eqn:E; [|reflexivity].
  apply String.eqb_eq in E. exfalso.
  eapply digits_nonempty; [|exact Ht|exact E]. lia.
Qed.

(** ** The stable comparator *)

Lemma orZero_number (n : number) : exists z, Number.orZero n = Num z.
Proof.
  unfold Number.orZero. destruct n as [|z]; simpl.
  - exists 0%Z; reflexivity.
  - destruct (z =? 0)%Z; simpl; eexists; reflexivity.
Qed.

(** With three components or more the result is the weighted sum of the
    first three, each read by [parseInt] and replaced by 0 when that gives
    [NaN]. *)
Lemma parseVersion_three (v a b c : string) (rest : list string) :
  Str.split "." v = a :: b :: c :: rest ->
  exists x y z,
    Number.orZero (Number.parseInt a) = Num x /\
    Number.orZero (Number.parseInt b) = Num y /\
    Number.orZero (Number.parseInt c) = Num z /\
    parseVersion v = Num (x * 10000 + y * 100 + z).
Proof.
  intros H. unfold parseVersion. rewrite H. cbn [map nth_error Number.ofElement].
  destruct (orZero_number (Number.parseInt a)) as [x Hx].
  destruct (orZero_number (Number.parseInt b)) as [y Hy].
  destruct (orZero_number (Number.parseInt c)) as [z Hz].
  exists x, y, z. rewrite Hx, Hy, Hz. repeat split; reflexivity.
Qed.

(** With fewer than three components [parts[2]] is [undefined] and the sum
    is [NaN]. *)
Lemma parseVersion_short (v : string) :
  List.length (Str.split "." v) < 3 -> parseVersion v = NaN.
Proof.
  intros H. unfold parseVersion.
  destruct (Str.split "." v) as [|a [|b [|c rest]]]; cbn [List.length] in H; try lia;
    cbn [map nth_error Number.ofElement].
  - reflexivity.
  - destruct (orZero_number (Number.parseInt a)) as [x ->]. reflexivity.
  - destruct (orZero_number (Number.parseInt a)) as [x ->].
    destruct (orZero_number (Number.parseInt b)) as [y ->]. reflexivity.
Qed.

Lemma parseVersion_order :
  Number.lt (parseVersion "1.2.3") (parseVersion "1.3.0") = true /\
  Number.lt (parseVersion "1.3.0") (parseVersion "2.0.0") = true.
Proof. split; reflexivity. Qed.

(** C2 (defect).  The claim has [parseVersion("1.2")] equal to
    [parseVersion("1.2.0")], the missing patch component counting as 0.
    The code yields [NaN] for ["1.2"]: only components that are present
    and not numeric are replaced by 0, and [NaN] compares false with
    everything, so a release ["1.3"] is never seen as newer than
    ["1.2.0"]. *)
Theorem parseVersion_missing_patch :
  parseVersion "1.2" = NaN /\
  parseVersion "1.2.0" = Num 10200 /\
  Number.gt (parseVersion "1.3") (parseVersion "1.2.0") = false /\
  Number.gt (parseVersion "1.3.0") (parseVersion "1.2") = false.
Proof. repeat split; reflexivity. Qed.

(** ** Refusing to upgrade *)

(** C6.  When the engine is unavailable or not running, [upgradeBirdNetGo]
    ends normally (it does not throw), shows exactly one alert and
    spawns nothing: the commands issued are those issued before.  The
    only state it leaves changed is [upgrading], back to [false]. *)
Theorem upgrade_refused_without_engine
  (respond : list command -> command -> option string)
  (JSON_parse : string -> option json) (hostname : string) (revised : revision)
  (rendered : Store) (s : Session) :
  DockerStatus.available (dockerStatus rendered) = false \/
  DockerStatus.running (dockerStatus rendered) = false ->
  exists msg,
    upgradeBirdNetGo respond JSON_parse hostname revised rendered s =
    (Done tt,
     {| store := withUpgrading false (store s);
        issued := issued s;
        alerts := (alerts s ++ [msg])%list;
        versionInfoRef := versionInfoRef s;
        updaterError := updaterError s |}).
Proof.
  intros H.
  unfold upgradeBirdNetGo, tryFinally, tryCatch, bind, setUpgrading, updateStore, modify.
  destruct (DockerStatus.available (dockerStatus rendered)) eqn:Ha; simpl.
  - destruct H as [H|H]; [discriminate|]. rewrite H. simpl.
    eexists. reflexivity.
  - eexists. reflexivity.
Qed.

Lemma upgrade_refused_without_engine_witness :
  exists msg,
    upgradeBirdNetGo (Sample.scripted []) (Sample.tableParse []) "localhost" AppTsx
                     initialStore (startSession initialStore) =
    (Done tt,
     {| store := withUpgrading false initialStore;
        issued := [];
        alerts := [msg];
        versionInfoRef := versionInfo initialStore;
        updaterError := None |}).
Proof.
  apply (@upgrade_refused_without_engine
           (Sample.scripted []) (Sample.tableParse []) "localhost" AppTsx
           initialStore (startSession initialStore)).
  left. reflexivity.
Defined.

(** ** The status probes *)

Section Probes.

Variable respond : list command -> command -> option string.
Variable JSON_parse : string -> option json.
Variable hostname : string.

Let cVersion := Command cmdDockerVersion false.
Let cActive := Command cmdDockerActive false.
Let cListUnit := Command cmdListUnit false.
Let cIsEnabled := Command cmdIsEnabled false.
Let cIsActive := Command cmdIsActive false.
Let cImages := Command cmdImages false.
Let cHealth := Command (cmdHealth "2" hostname) false.
Let cPs := Command cmdPs false.

Lemma tryCatch_total (body : Async unit) (handler : jserror -> Async unit) (s : Session) :
  (forall e s', fst (handler e s') = Done tt) ->
  fst (tryCatch body handler s) = Done tt.
Proof.
  intros H. unfold tryCatch.
  destruct (body s) as [[[]|e] s']; [reflexivity | apply H].
Qed.

(** The health probe always settles on a boolean. *)
Lemma probeHealth_run (s : Session) :
  exists b, probeHealth respond JSON_parse hostname s = (Done b, spawned cHealth s).
Proof.
  unfold probeHealth, tryCatch, bind, spawn, spawnAs, lift, ret, parse. fold cHealth.
  destruct (respond (issued s) cHealth) as [result|]; [|eexists; reflexivity].
  destruct (negb (String.eqb result "")); [|eexists; reflexivity].
  destruct (JSON_parse result) as [payload|]; [|eexists; reflexivity].
  destruct (Json.prop payload "status"); eexists; reflexivity.
Qed.

Lemma probeHealth_healthy (s : Session) (result : string) (payload : json) :
  respond (issued s) cHealth = Some result ->
  result <> "" ->
  JSON_parse result = Some payload ->
  saysRunning payload ->
  probeHealth respond JSON_parse hostname s = (Done true, spawned cHealth s).
Proof.
  intros Hr Hne Hp Hs.
  unfold probeHealth, tryCatch, bind, spawn, spawnAs, lift, ret, parse. fold cHealth.
  rewrite Hr. apply String.eqb_neq in Hne. rewrite Hne. cbn [negb].
  rewrite Hp. destruct Hs as [-> | ->]; reflexivity.
Qed.

(** On a well-formed listing the scan for the container does not throw,
    and what it finds is a line of the listing. *)
Lemma findM_listing (lines : list string) :
  Forall (fun line => 3 <= List.length (Str.split "|" line)) lines ->
  exists found, findM isBirdnetContainer lines = Done found /\
    match found with
    | Some line => In line lines
    | None => True
    end.
Proof.
  induction 1 as [|line lines Hl _ IH].
  - exists None. split; [reflexivity | exact I].
  - cbn [findM]. unfold isBirdnetContainer at 1.
    destruct (Str.split "|" line) as [|p0 [|p1 rest]] eqn:E;
      cbn [List.length] in Hl; try lia.
    cbn [nth_error].
    destruct IH as [found [Hf Hin]].
    destruct (Str.startsWith p1 "vsc-").
    + cbn [obind]. rewrite Hf. exists found. split; [reflexivity|].
      destruct found; [right; exact Hin | exact I].
    + cbn [obind].
      match goal with |- context [if ?b then _ else _] => destruct b end.
      * exists (Some line). split; [reflexivity | left; reflexivity].
      * rewrite Hf. exists found. split; [reflexivity|].
        destruct found; [right; exact Hin | exact I].
Qed.

(** [find] returns the first element that the callback accepts, when the
    callback throws on none. *)
Lemma findM_first {A : Type} (p : A -> outcome bool) (xs : list A) :
  Forall (fun x => exists b, p x = Done b) xs ->
  (findM p xs = Done None /\ Forall (fun x => p x = Done false) xs) \/
  (exists before x after,
     xs = (before ++ x :: after)%list /\
     Forall (fun y => p y = Done false) before /\
     p x = Done true /\
     findM p xs = Done (Some x)).
Proof.
  induction 1 as [|x xs [b Hb] _ IH].
  - left. split; [reflexivity | constructor].
  - cbn [findM]. rewrite Hb. cbn [obind]. destruct b.
    + right. exists [], x, xs. repeat split; [constructor | exact Hb].
    + destruct IH as [[Hn Hall] | [before [y [after [-> [Hbefore [Hy Hf]]]]]]].
      * left. split; [exact Hn | constructor; [exact Hb | exact Hall]].
      * right. exists (x :: before), y, after.
        split; [reflexivity|]. split; [constructor; [exact Hb | exact Hbefore]|].
        split; [exact Hy | exact Hf].
Qed.

(** The callback of the container search does not throw on a line that
    has an image field. *)
Lemma isBirdnetContainer_answers (lines : list string) :
  Forall (fun line => 3 <= List.length (Str.split "|" line)) lines ->
  Forall (fun line => exists b, isBirdnetContainer line = Done b) lines.
Proof.
  intros H. eapply Forall_impl; [|exact H]. intros line Hl. cbv beta in Hl.
  unfold isBirdnetContainer.
  destruct (Str.split "|" line) as [|p0 [|p1 rest]]; cbn [List.length] in Hl; try lia.
  cbn [nth_error]. destruct (Str.startsWith p1 "vsc-"); eexists; reflexivity.
Qed.

(** C1 (as amended).  When the image listing and the container listing
    both succeed and the listing is well formed, a health payload whose
    status is healthy or degraded makes [checkBirdNetGoStatus] end
    normally with [running = true] and [exists = true], whatever the
    listing says.  The matched container is the first line of the listing
    that the search accepts: the record carries its id and, as status
    text, its status field as the engine prints it (for instance
    [Exited (0) ...] when the engine reports it stopped).  When the
    search accepts no line the record has no id and the text
    [Running (non-Docker or custom container)]; when the listing is
    empty, no id and the text [Running (non-Docker)]. *)
Theorem health_takes_precedence
  (s : Session) (images result containers : string) (payload : json) :
  respond (issued s) cImages = Some images ->
  respond (issued s ++ [cImages]) cHealth = Some result ->
  result <> "" ->
  JSON_parse result = Some payload ->
  saysRunning payload ->
  respond (issued s ++ [cImages; cHealth]) cPs = Some containers ->
  wellFormedListing containers ->
  let lines := Str.split Str.newline (Str.trim containers) in
  exists record,
    checkBirdNetGoStatus respond JSON_parse hostname s =
    setContainerStatus record (spawned cPs (spawned cHealth (spawned cImages s))) /\
    ContainerStatus.exists_ record = true /\
    ContainerStatus.running record = true /\
    ContainerStatus.imagePresent record = Str.includes images "ghcr.io/tphakala/birdnet-go" /\
    ((Str.trim containers = "" /\
      ContainerStatus.containerId record = None /\
      ContainerStatus.status record = Some "Running (non-Docker)") \/
     (Str.trim containers <> "" /\
      Forall (fun line => isBirdnetContainer line = Done false) lines /\
      ContainerStatus.containerId record = None /\
      ContainerStatus.status record = Some "Running (non-Docker or custom container)") \/
     (exists before line after id image status rest,
        Str.trim containers <> "" /\
        lines = (before ++ line :: after)%list /\
        Forall (fun other => isBirdnetContainer other = Done false) before /\
        isBirdnetContainer line = Done true /\
        Str.split "|" line = id :: image :: status :: rest /\
        ContainerStatus.containerId record = Some id /\
        ContainerStatus.status record = Some status)).
Proof.
  intros Hi Hh Hne Hp Hs Hc Hw lines.
  unfold checkBirdNetGoStatus, tryCatch, bind.
  unfold spawn at 1. unfold spawnAs. fold cImages. rewrite Hi.
  rewrite (@probeHealth_healthy (spawned cImages s) result payload);
    [| exact Hh | exact Hne | exact Hp | exact Hs].
  unfold spawn, spawnAs. fold cPs. cbn [issued spawned].
  rewrite <- app_assoc. cbn [app]. rewrite Hc.
  destruct (String.eqb (Str.trim containers) "") eqn:E; cbn [negb].
  - apply String.eqb_eq in E.
    eexists. split; [reflexivity|]. repeat (split; [reflexivity|]).
    left. repeat split. exact E.
  - apply String.eqb_neq in E.
    destruct Hw as [He | Hw]; [contradiction|]. fold lines in Hw |- *.
    unfold lift.
    destruct (@findM_first _ isBirdnetContainer lines (isBirdnetContainer_answers Hw))
      as [[Hf Hnone] | [before [line [after [Hl [Hbefore [Hline Hf]]]]]]]; rewrite Hf.
    + eexists. split; [reflexivity|]. repeat (split; [reflexivity|]).
      right; left. repeat split; [exact E | exact Hnone].
    + assert (Hin : In line lines) by (rewrite Hl; apply in_elt).
      rewrite Forall_forall in Hw. specialize (Hw line Hin).
      destruct (Str.split "|" line) as [|id [|image [|status rest]]] eqn:El;
        cbn [List.length] in Hw; try lia.
      cbn [nth_error orb].
      eexists. split; [reflexivity|]. repeat (split; [reflexivity|]).
      right; right. exists before, line, after, id, image, status, rest.
      repeat split; try assumption.
Qed.

End Probes.

Lemma health_takes_precedence_witness :
  exists record,
    checkBirdNetGoStatus Sample.stoppedHost (Sample.tableParse [Sample.healthy])
                         "localhost" (startSession initialStore) =
    setContainerStatus record
      (spawned (Command cmdPs false)
         (spawned (Command (cmdHealth "2" "localhost") false)
            (spawned (Command cmdImages false) (startSession initialStore)))) /\
    ContainerStatus.exists_ record = true /\
    ContainerStatus.running record = true.
Proof.
  destruct (@health_takes_precedence
              Sample.stoppedHost (Sample.tableParse [Sample.healthy]) "localhost"
              (startSession initialStore)
              "ghcr.io/tphakala/birdnet-go:nightly"
              (Json.stringify Sample.healthy) Sample.stoppedListing Sample.healthy)
    as [record [Hrun [He [Hr _]]]].
  - reflexivity.
  - reflexivity.
  - discriminate.
  - reflexivity.
  - left. reflexivity.
  - reflexivity.
  - right. vm_compute. repeat constructor.
  - exists record. split; [exact Hrun | split; [exact He | exact Hr]].
Defined.

(** C1 (as stated) fails.  On the first host the probe receives a health
    payload of status healthy, then [docker ps] fails, and the record it
    produces has [running = false].  On the second host, which has no
    engine at all, the application would answer healthy too, but
    [docker images] fails first and the record is the same.  On the
    third host both listings succeed, but a line of the container
    listing has no image field, reading it throws, and the record is
    the same again. *)
Lemma healthy_but_reported_stopped :
  let parse := Sample.tableParse [Sample.healthy] in
  let text := Json.stringify Sample.healthy in
  let s := startSession initialStore in
  let lost := checkBirdNetGoStatus Sample.lostEngineHost parse "localhost" s in
  let native := checkBirdNetGoStatus Sample.nativeHost parse "localhost" s in
  let garbled := checkBirdNetGoStatus Sample.garbledHost parse "localhost" s in
  parse text = Some Sample.healthy /\
  saysRunning Sample.healthy /\
  probeHealth Sample.lostEngineHost parse "localhost" (spawned (Command cmdImages false) s)
  = (Done true,
     spawned (Command (cmdHealth "2" "localhost") false)
             (spawned (Command cmdImages false) s)) /\
  issued (snd lost) =
    [Command cmdImages false; Command (cmdHealth "2" "localhost") false;
     Command cmdPs false] /\
  fst lost = Done tt /\
  ContainerStatus.running (containerStatus (store (snd lost))) = false /\
  fst native = Done tt /\
  ContainerStatus.running (containerStatus (store (snd native))) = false /\
  fst garbled = Done tt /\
  ContainerStatus.running (containerStatus (store (snd garbled))) = false.
Proof.
  cbv zeta. split; [reflexivity|]. split; [left; reflexivity|].
  repeat split; reflexivity.
Qed.

Section Degrading.

Variable respond : list command -> command -> option string.
Variable JSON_parse : string -> option json.
Variable hostname : string.

Let cVersion := Command cmdDockerVersion false.
Let cActive := Command cmdDockerActive false.
Let cListUnit := Command cmdListUnit false.
Let cIsEnabled := Command cmdIsEnabled false.
Let cIsActive := Command cmdIsActive false.
Let cImages := Command cmdImages false.
Let cHealth := Command (cmdHealth "2" hostname) false.
Let cPs := Command cmdPs false.

Lemma checkDockerStatus_degrades (s : Session) :
  respond (issued s) cVersion = None \/
  respond (issued s ++ [cVersion]) cActive = None ->
  dockerStatus (store (snd (checkDockerStatus respond s))) = noDocker.
Proof.
  intros H.
  unfold checkDockerStatus, tryCatch, bind, spawn, spawnAs. fold cVersion cActive.
  destruct (respond (issued s) cVersion) as [v|] eqn:Ev; [|reflexivity].
  destruct H as [H|H]; [discriminate|].
  cbn [issued spawned]. rewrite H. reflexivity.
Qed.

Lemma checkSystemdStatus_degrades (s : Session) :
  respond (issued s) cListUnit = None ->
  systemdStatus (store (snd (checkSystemdStatus respond s))) = noSystemd.
Proof.
  intros H.
  unfold checkSystemdStatus, tryCatch, bind, spawn, spawnAs. fold cListUnit.
  rewrite H. reflexivity.
Qed.

Lemma checkBirdNetGoStatus_degrades (s : Session) :
  respond (issued s) cImages = None \/
  respond (issued s ++ [cImages; cHealth]) cPs = None ->
  containerStatus (store (snd (checkBirdNetGoStatus respond JSON_parse hostname s)))
  = noContainer.
Proof.
  intros H.
  unfold checkBirdNetGoStatus, tryCatch, bind.
  unfold spawn at 1. unfold spawnAs. fold cImages.
  destruct (respond (issued s) cImages) as [images|] eqn:Ei; [|reflexivity].
  destruct H as [H|H]; [discriminate|].
  destruct (probeHealth_run respond JSON_parse hostname (spawned cImages s)) as [b ->].
  unfold spawn, spawnAs. fold cPs. cbn [issued spawned].
  rewrite <- app_assoc. cbn [app]. fold cHealth. rewrite H. reflexivity.
Qed.

Lemma checkSystemdStatus_inactive (s : Session) (files : string) :
  respond (issued s) cListUnit = Some files ->
  Str.includes files "birdnet-go.service" = true ->
  respond (issued s ++ [cListUnit; cIsEnabled]) cIsActive = None ->
  let status := systemdStatus (store (snd (checkSystemdStatus respond s))) in
  SystemdStatus.exists_ status = true /\
  SystemdStatus.running status = false /\
  SystemdStatus.status status = Some "inactive".
Proof.
  intros Hl Hi Ha. cbv zeta.
  unfold checkSystemdStatus, tryCatch, bind, spawn, spawnAs, ret.
  fold cListUnit cIsEnabled cIsActive.
  rewrite Hl, Hi. cbn [issued spawned].
  destruct (respond (issued s ++ [cListUnit]) cIsEnabled) as [e|];
    cbn [issued spawned]; rewrite <- app_assoc; cbn [app]; rewrite Ha;
    repeat split; reflexivity.
Qed.

(** The unit is listed: the record is read from the two guarded queries,
    each with its own default. *)
Lemma checkSystemdStatus_listed (s : Session) (files : string) :
  respond (issued s) cListUnit = Some files ->
  Str.includes files "birdnet-go.service" = true ->
  let isEnabled :=
    match respond (issued s ++ [cListUnit]) cIsEnabled with
    | Some enabledState => String.eqb (Str.trim enabledState) "enabled"
    | None => false
    end in
  let active :=
    match respond (issued s ++ [cListUnit; cIsEnabled]) cIsActive with
    | Some activeState => Str.trim activeState
    | None => "inactive"
    end in
  systemdStatus (store (snd (checkSystemdStatus respond s))) =
  SystemdStatus.Build true (String.eqb active "active") isEnabled (Some active).
Proof.
  intros Hl Hi. cbv zeta.
  unfold checkSystemdStatus, tryCatch, bind, spawn, spawnAs, ret.
  fold cListUnit cIsEnabled cIsActive.
  rewrite Hl, Hi. cbn [issued spawned].
  destruct (respond (issued s ++ [cListUnit]) cIsEnabled) as [e|];
    cbn [issued spawned]; rewrite <- app_assoc; cbn [app];
    destruct (respond (issued s ++ [cListUnit; cIsEnabled]) cIsActive) as [a|];
    reflexivity.
Qed.

(** A health query that fails, prints nothing or prints no JSON counts
    as an application that does not run. *)
Lemma probeHealth_silent (s : Session) :
  respond (issued s) cHealth = None \/
  respond (issued s) cHealth = Some "" \/
  (exists result, respond (issued s) cHealth = Some result /\ JSON_parse result = None) ->
  probeHealth respond JSON_parse hostname s = (Done false, spawned cHealth s).
Proof.
  intros H.
  unfold probeHealth, tryCatch, bind, spawn, spawnAs, lift, ret, parse. fold cHealth.
  destruct H as [-> | [-> | [result [-> Hp]]]]; try reflexivity.
  destruct (negb (String.eqb result "")); [|reflexivity].
  rewrite Hp. reflexivity.
Qed.

(** C9 (as amended).  No status probe ever throws.  A failure of a
    command that no inner [try] guards collapses the record to the
    fully-degraded default: either command of [checkDockerStatus], the
    unit-file listing of [checkSystemdStatus], the image listing or the
    container listing of [checkBirdNetGoStatus].  A failure of a guarded
    command only defaults what is read from it.  When
    [systemctl is-active birdnet-go.service] fails the record still says
    that the unit exists, with [running = false] and status [inactive],
    and [enabled] as [is-enabled] answered.  When [systemctl is-enabled]
    fails the record says that the unit exists with [enabled = false],
    and [running] and the status text as [is-active] answered.  When the
    health query fails, prints nothing or prints no JSON, the image flag
    is still read from the image listing and the record is what the
    container listing says: that of the first line the search accepts,
    running when its status field starts with [Up], or that of no
    container. *)
Theorem probes_degrade (s : Session) :
  (fst (checkDockerStatus respond s) = Done tt /\
   fst (checkSystemdStatus respond s) = Done tt /\
   fst (checkBirdNetGoStatus respond JSON_parse hostname s) = Done tt) /\
  (respond (issued s) cVersion = None \/
   respond (issued s ++ [cVersion]) cActive = None ->
   dockerStatus (store (snd (checkDockerStatus respond s))) = noDocker) /\
  (respond (issued s) cListUnit = None ->
   systemdStatus (store (snd (checkSystemdStatus respond s))) = noSystemd) /\
  (respond (issued s) cImages = None \/
   respond (issued s ++ [cImages; cHealth]) cPs = None ->
   containerStatus (store (snd (checkBirdNetGoStatus respond JSON_parse hostname s)))
   = noContainer) /\
  (forall files,
     respond (issued s) cListUnit = Some files ->
     Str.includes files "birdnet-go.service" = true ->
     respond (issued s ++ [cListUnit; cIsEnabled]) cIsActive = None ->
     let status := systemdStatus (store (snd (checkSystemdStatus respond s))) in
     SystemdStatus.exists_ status = true /\
     SystemdStatus.running status = false /\
     SystemdStatus.status status = Some "inactive" /\
     SystemdStatus.enabled status =
       match respond (issued s ++ [cListUnit]) cIsEnabled with
       | Some enabledState => String.eqb (Str.trim enabledState) "enabled"
       | None => false
       end) /\
  (forall files,
     respond (issued s) cListUnit = Some files ->
     Str.includes files "birdnet-go.service" = true ->
     respond (issued s ++ [cListUnit]) cIsEnabled = None ->
     let status := systemdStatus (store (snd (checkSystemdStatus respond s))) in
     let active :=
       match respond (issued s ++ [cListUnit; cIsEnabled]) cIsActive with
       | Some activeState => Str.trim activeState
       | None => "inactive"
       end in
     SystemdStatus.exists_ status = true /\
     SystemdStatus.enabled status = false /\
     SystemdStatus.running status = String.eqb active "active" /\
     SystemdStatus.status status = Some active) /\
  (forall images containers,
     respond (issued s) cImages = Some images ->
     respond (issued s ++ [cImages]) cHealth = None \/
     respond (issued s ++ [cImages]) cHealth = Some "" \/
     (exists result,
        respond (issued s ++ [cImages]) cHealth = Some result /\
        JSON_parse result = None) ->
     respond (issued s ++ [cImages; cHealth]) cPs = Some containers ->
     wellFormedListing containers ->
     let present := Str.includes images "ghcr.io/tphakala/birdnet-go" in
     let lines := Str.split Str.newline (Str.trim containers) in
     exists record,
       checkBirdNetGoStatus respond JSON_parse hostname s =
       setContainerStatus record (spawned cPs (spawned cHealth (spawned cImages s))) /\
       ContainerStatus.imagePresent record = present /\
       ((record = ContainerStatus.Build false false present None None /\
         (Str.trim containers = "" \/
          Forall (fun line => isBirdnetContainer line = Done false) lines)) \/
        exists before line after id image status rest,
          Str.trim containers <> "" /\
          lines = (before ++ line :: after)%list /\
          Forall (fun other => isBirdnetContainer other = Done false) before /\
          isBirdnetContainer line = Done true /\
          Str.split "|" line = id :: image :: status :: rest /\
          record = ContainerStatus.Build true (Str.startsWith status "Up") present
                                         (Some id) (Some status))).
Proof.
  split; [|split; [|split; [|split; [|split; [|split]]]]].
  - repeat split; apply tryCatch_total; intros; reflexivity.
  - apply checkDockerStatus_degrades.
  - apply checkSystemdStatus_degrades.
  - apply checkBirdNetGoStatus_degrades.
  - intros files Hl Hi Ha. cbv zeta.
    rewrite (checkSystemdStatus_listed s Hl Hi), Ha. repeat split.
  - intros files Hl Hi He. cbv zeta.
    rewrite (checkSystemdStatus_listed s Hl Hi), He. repeat split.
  - intros images containers Hi Hh Hc Hw present lines.
    unfold checkBirdNetGoStatus, tryCatch, bind.
    unfold spawn at 1. unfold spawnAs. fold cImages. rewrite Hi.
    rewrite (@probeHealth_silent (spawned cImages s)); [|exact Hh].
    unfold spawn, spawnAs. fold cPs. cbn [issued spawned].
    rewrite <- app_assoc. cbn [app]. rewrite Hc. fold present.
    destruct (String.eqb (Str.trim containers) "") eqn:E; cbn [negb].
    + apply String.eqb_eq in E. eexists. split; [reflexivity|]. split; [reflexivity|].
      left. split; [reflexivity | left; exact E].
    + apply String.eqb_neq in E.
      destruct Hw as [He | Hw]; [contradiction|]. fold lines in Hw |- *.
      unfold lift.
      destruct (@findM_first _ isBirdnetContainer lines (isBirdnetContainer_answers Hw))
        as [[Hf Hnone] | [before [line [after [Hl [Hbefore [Hline Hf]]]]]]]; rewrite Hf.
      * eexists. split; [reflexivity|]. split; [reflexivity|].
        left. split; [reflexivity | right; exact Hnone].
      * assert (Hin : In line lines) by (rewrite Hl; apply in_elt).
        rewrite Forall_forall in Hw. specialize (Hw line Hin).
        destruct (Str.split "|" line) as [|id [|image [|status rest]]] eqn:El;
          cbn [List.length] in Hw; try lia.
        cbn [nth_error orb].
        eexists. split; [reflexivity|]. split; [reflexivity|].
        right. exists before, line, after, id, image, status, rest.
        repeat split; try assumption.
Qed.

End Degrading.

Lemma probes_degrade_witness :
  dockerStatus
    (store (snd (checkDockerStatus Sample.stoppedDaemonHost (startSession initialStore))))
  = noDocker.
Proof.
  apply (proj1 (proj2 (@probes_degrade Sample.stoppedDaemonHost
                         (Sample.tableParse []) "localhost"
                         (startSession initialStore)))).
  right. reflexivity.
Defined.

(** C9 (as stated) fails: [systemctl is-active birdnet-go.service] fails
    on this host, and the record [checkSystemdStatus] produces is not the
    fully-degraded default: it says the unit exists and is enabled. *)
Lemma guarded_failure_is_not_default :
  let s := startSession initialStore in
  let status := systemdStatus (store (snd (checkSystemdStatus Sample.inactiveUnitHost s))) in
  Sample.inactiveUnitHost
    [Command cmdListUnit false; Command cmdIsEnabled false]
    (Command cmdIsActive false) = None /\
  status = SystemdStatus.Build true false true (Some "inactive") /\
  status <> noSystemd.
Proof.
  cbv zeta. split; [reflexivity|]. split; [reflexivity | discriminate].
Qed.

(** ** The application log *)

Lemma parseAppLogs_kept (JSON_parse : string -> option json) (result : string) :
  parseAppLogs JSON_parse result =
  rev (flat_map (keptRecord JSON_parse) (Str.split Str.newline (Str.trim result))).
Proof.
  unfold parseAppLogs. f_equal.
  induction (Str.split Str.newline (Str.trim result)) as [|line lines IH].
  - reflexivity.
  - cbn [map filter flat_map]. unfold keptRecord at 1.
    destruct (JSON_parse line) as [[]|]; cbn [app]; rewrite IH; reflexivity.
Qed.

Lemma in_keptRecord (JSON_parse : string -> option json) (lines : list string) (v : json) :
  In v (flat_map (keptRecord JSON_parse) lines) <->
  v <> JNull /\ exists line, In line lines /\ JSON_parse line = Some v.
Proof.
  rewrite in_flat_map. split.
  - intros [line [Hin Hk]]. unfold keptRecord in Hk.
    destruct (JSON_parse line) as [[]|] eqn:E; cbn in Hk;
      try contradiction; destruct Hk as [<-|[]];
      (split; [discriminate | exists line; split; [exact Hin | exact E]]).
  - intros [Hv [line [Hin E]]]. exists line. split; [exact Hin|].
    unfold keptRecord. rewrite E. destruct v; try (left; reflexivity). contradiction.
Qed.

(** C7 (as amended).  With a log file selected and a [tail] that succeeds,
    [fetchAppLogs] spawns exactly [tail -n 500] on the selected file,
    then stores, newest first, the record of every line that parses to
    something other than [null]: a line that fails to parse contributes
    nothing, and neither does a line that reads [null]. *)
Theorem fetchAppLogs_newest_first
  (respond : list command -> command -> option string)
  (JSON_parse : string -> option json)
  (rendered : Store) (s : Session) (result : string) :
  selectedLogFile rendered <> "" ->
  respond (issued s) (Command (cmdTail (selectedLogFile rendered)) false) = Some result ->
  let lines := Str.split Str.newline (Str.trim result) in
  let logs := rev (flat_map (keptRecord JSON_parse) lines) in
  cmdTail (selectedLogFile rendered) =
    ["tail"; "-n"; "500"; logDirectory ++ selectedLogFile rendered] /\
  fetchAppLogs respond JSON_parse rendered s =
    setAppLogs logs (spawned (Command (cmdTail (selectedLogFile rendered)) false) s) /\
  (forall v, In v logs <->
             v <> JNull /\ exists line, In line lines /\ JSON_parse line = Some v) /\
  (forall line, JSON_parse line = None -> keptRecord JSON_parse line = []).
Proof.
  intros Hfile Hr lines logs. split; [reflexivity|]. split; [|split].
  - unfold fetchAppLogs. apply String.eqb_neq in Hfile. rewrite Hfile.
    unfold tryCatch, bind, spawn, spawnAs. rewrite Hr.
    rewrite parseAppLogs_kept. reflexivity.
  - intros v. unfold logs. rewrite <- in_rev. apply in_keptRecord.
  - intros line E. unfold keptRecord. rewrite E. reflexivity.
Qed.

Lemma fetchAppLogs_newest_first_witness :
  fetchAppLogs Sample.logHost (Sample.tableParse [JNull; Sample.infoEntry])
               initialStore (startSession initialStore) =
  setAppLogs
    (rev (flat_map (keptRecord (Sample.tableParse [JNull; Sample.infoEntry]))
                   (Str.split Str.newline (Str.trim Sample.logText))))
    (spawned (Command (cmdTail "analysis.log") false) (startSession initialStore)).
Proof.
  refine (proj1 (proj2 (@fetchAppLogs_newest_first
                          Sample.logHost (Sample.tableParse [JNull; Sample.infoEntry])
                          initialStore (startSession initialStore) Sample.logText _ _))).
  - discriminate.
  - reflexivity.
Defined.

(** C7 (as stated) fails: the first line of this file, [null], parses,
    so discarding only the lines that fail to parse leaves two records;
    [fetchAppLogs] stores one. *)
Lemma null_line_is_discarded :
  let parse := Sample.tableParse [JNull; Sample.infoEntry] in
  let lines := Str.split Str.newline (Str.trim Sample.logText) in
  let run := fetchAppLogs Sample.logHost parse initialStore (startSession initialStore) in
  lines = ["null"; Json.stringify Sample.infoEntry] /\
  parse "null" = Some JNull /\
  rev (parsedRecords parse lines) = [Sample.infoEntry; JNull] /\
  appLogs (store (snd run)) = [Sample.infoEntry] /\
  appLogs (store (snd run)) <> rev (parsedRecords parse lines).
Proof.
  vm_compute. repeat split; discriminate.
Qed.

(** ** The log filter *)

Lemma append_assoc (a b c : string) : (a ++ b) ++ c = a ++ b ++ c.
Proof. induction a as [|x a IH]; cbn [append]; [reflexivity | now rewrite IH]. Qed.





Section LogFilter.

Variable toUpperCase toLowerCase : string -> string.







End LogFilter.




(** ** The scan of the registry response *)

Lemma isNightlyTag_match (tag : string) :
  isNightlyTag tag = true -> exists d, Str.matchNightly tag = Some d.
Proof.
  unfold isNightlyTag. intros H. apply andb_true_iff in H as [_ H].
  destruct (Str.matchNightly tag) as [d|]; [exists d; reflexivity | discriminate].
Qed.

Lemma isNightlyTag_nonempty (tag : string) :
  isNightlyTag tag = true -> String.eqb tag "" = false.
Proof. destruct tag; [discriminate | reflexivity]. Qed.

Lemma scanTag_string (acc : Scan.t) (tag : string) :
  scanTag acc (JStr tag) = Done (scanStep acc tag).
Proof.
  unfold scanTag, scanStep. cbn [Json.asString obind].
  destruct (isNightlyTag tag) eqn:E; [|reflexivity].
  destruct (isNightlyTag_match tag E) as [d Hd]. rewrite Hd.
  rewrite (matchNightly_date tag Hd), tagDate_dateOf.
  destruct (Number.gt _ _); reflexivity.
Qed.

Lemma foldM_scanTag (items : list json) (tags : list string) (acc : Scan.t) :
  stringItems items = Some tags ->
  foldM scanTag acc items = Done (fold_left scanStep tags acc).
Proof.
  revert tags acc. induction items as [|item items IH]; intros tags acc H.
  - injection H as <-. reflexivity.
  - destruct item; try discriminate H. cbn [stringItems] in H.
    destruct (stringItems items) as [rest|]; [|discriminate H].
    injection H as <-. cbn [foldM fold_left].
    rewrite scanTag_string. cbn [obind]. apply IH. reflexivity.
Qed.

Lemma scanVersion_declared (version : json) (tags : list string) (acc : Scan.t) :
  declaredTags version = Some tags ->
  scanVersion acc version = Done (fold_left scanStep tags acc).
Proof.
  unfold declaredTags, scanVersion. intros H.
  destruct (Json.prop version "metadata") as [metadata|]; [|discriminate H].
  cbn [obind].
  destruct (Json.truthy (Json.getOpt (Json.getOpt metadata "container") "tags")).
  - destruct (Json.getOpt (Json.getOpt metadata "container") "tags") as [[]|];
      try discriminate H.
    cbn [Json.asArray obind]. apply foldM_scanTag, H.
  - injection H as <-. reflexivity.
Qed.

Lemma foldM_scanVersion (versions : list json) (tags : list string) (acc : Scan.t) :
  responseTags versions = Some tags ->
  foldM scanVersion acc versions = Done (fold_left scanStep tags acc).
Proof.
  revert tags acc. induction versions as [|version versions IH]; intros tags acc H.
  - injection H as <-. reflexivity.
  - cbn [responseTags] in H.
    destruct (declaredTags version) as [here|] eqn:E; [|discriminate H].
    destruct (responseTags versions) as [more|]; [|discriminate H].
    injection H as <-. cbn [foldM].
    rewrite (scanVersion_declared version acc E). cbn [obind].
    rewrite fold_left_app. apply IH. reflexivity.
Qed.

(** A response the scan can read is scanned without an error. *)
Lemma scanVersions_response (versions : list json) (tags : list string) :
  responseTags versions = Some tags ->
  scanVersions (JArr versions) = Done (fold_left scanStep tags Scan.empty).
Proof. intros H. unfold scanVersions. cbn [Json.asArray obind]. apply foldM_scanVersion, H. Qed.

Lemma scan_collects (tags : list string) (acc : Scan.t) :
  Scan.nightlyTags (fold_left scanStep tags acc) =
  (Scan.nightlyTags acc ++ filter isNightlyTag tags)%list.
Proof.
  revert acc. induction tags as [|tag tags IH]; intros acc; cbn [fold_left filter].
  - symmetry. apply app_nil_r.
  - rewrite IH. unfold scanStep. destruct (isNightlyTag tag); [|reflexivity].
    destruct (Number.gt _ _); cbn [Scan.nightlyTags]; rewrite <- app_assoc; reflexivity.
Qed.

Lemma maxDate_nonneg (tags : list string) : (0 <= maxDate tags)%Z.
Proof. induction tags as [|tag tags IH]; cbn [maxDate]; lia. Qed.

Lemma newest_date (tags : list string) (tag : string) :
  newest tags = Some tag -> In tag tags /\ dateOf tag = maxDate tags.
Proof.
  revert tag. induction tags as [|t tags IH]; intros tag H; [discriminate|].
  cbn [newest maxDate] in *.
  destruct (newest tags) as [other|] eqn:E.
  - destruct (IH other eq_refl) as [Hin Hd].
    destruct (dateOf t <? dateOf other)%Z eqn:L; injection H as <-.
    + apply Z.ltb_lt in L. split; [right; exact Hin | lia].
    + apply Z.ltb_ge in L. split; [left; reflexivity | lia].
  - injection H as <-. split; [left; reflexivity|].
    destruct tags as [|t' tags']; [cbn; pose proof (dateOf_nonneg t); lia|].
    cbn [newest] in E. destruct (newest tags'); [destruct (_ <? _)%Z|]; discriminate.
Qed.

Lemma newest_none (tags : list string) : newest tags = None -> tags = [].
Proof.
  destruct tags as [|t tags]; [reflexivity|]. cbn [newest].
  destruct (newest tags); [destruct (_ <? _)%Z|]; discriminate.
Qed.

Lemma maxDate_bound (tags : list string) (tag : string) :
  In tag tags -> (dateOf tag <= maxDate tags)%Z.
Proof.
  induction tags as [|t tags IH]; intros H; [contradiction|].
  cbn [maxDate]. destruct H as [->|H]; [lia | specialize (IH H); lia].
Qed.

(** What the scan remembers as the latest tag: the newest candidate once
    one beats the date it started from. *)
Lemma scan_latest (tags : list string) (acc : Scan.t) (d0 : Z) :
  Scan.latestNightlyDate acc = Num d0 ->
  (0 <= d0)%Z ->
  let candidates := filter isNightlyTag tags in
  let result := fold_left scanStep tags acc in
  Scan.latestNightlyDate result = Num (Z.max d0 (maxDate candidates)) /\
  Scan.latestNightlyTag result =
    if (d0 <? maxDate candidates)%Z
    then newestOr (Scan.latestNightlyTag acc) candidates
    else Scan.latestNightlyTag acc.
Proof.
  revert acc d0. induction tags as [|tag tags IH]; intros acc d0 Hd H0; cbv zeta.
  - cbn [fold_left filter maxDate]. rewrite Hd.
    replace (d0 <? 0)%Z with false by (symmetry; apply Z.ltb_ge; lia).
    split; [f_equal; lia | reflexivity].
  - cbn [fold_left filter]. unfold scanStep at 2 4.
    destruct (isNightlyTag tag) eqn:E; [|apply IH; assumption].
    rewrite Hd, tagDate_dateOf. cbn [Number.gt].
    pose proof (maxDate_nonneg (filter isNightlyTag tags)) as Hm.
    pose proof (dateOf_nonneg tag) as Ht.
    destruct (d0 <? dateOf tag)%Z eqn:L.
    + apply Z.ltb_lt in L.
      destruct (IH (Scan.Build (Scan.nightlyTags acc ++ [tag]) (Num (dateOf tag)) tag)
                   (dateOf tag) eq_refl Ht) as [H1 H2].
      cbv zeta in H1, H2. rewrite H1, H2. cbn [Scan.latestNightlyTag maxDate].
      split; [f_equal; lia|].
      replace (d0 <? Z.max (dateOf tag) (maxDate (filter isNightlyTag tags)))%Z
        with true by (symmetry; apply Z.ltb_lt; lia).
      unfold newestOr. cbn [newest].
      destruct (newest (filter isNightlyTag tags)) as [other|] eqn:En.
      * destruct (newest_date _ En) as [_ Ho]. rewrite Ho.
        destruct (dateOf tag <? maxDate (filter isNightlyTag tags))%Z; reflexivity.
      * apply newest_none in En. rewrite En. cbn [maxDate].
        replace (dateOf tag <? 0)%Z with false by (symmetry; apply Z.ltb_ge; lia).
        reflexivity.
    + apply Z.ltb_ge in L.
      destruct (IH (Scan.Build (Scan.nightlyTags acc ++ [tag]) (Num d0)
                               (Scan.latestNightlyTag acc))
                   d0 eq_refl H0) as [H1 H2].
      cbv zeta in H1, H2. rewrite H1, H2. cbn [Scan.latestNightlyTag maxDate].
      split; [f_equal; lia|].
      destruct (d0 <? maxDate (filter isNightlyTag tags))%Z eqn:L2.
      * apply Z.ltb_lt in L2.
        replace (d0 <? Z.max (dateOf tag) (maxDate (filter isNightlyTag tags)))%Z
          with true by (symmetry; apply Z.ltb_lt; lia).
        unfold newestOr. cbn [newest].
        destruct (newest (filter isNightlyTag tags)) as [other|] eqn:En.
        -- destruct (newest_date _ En) as [_ Ho].
           replace (dateOf tag <? dateOf other)%Z with true
             by (symmetry; apply Z.ltb_lt; lia).
           reflexivity.
        -- apply newest_none in En. rewrite En in L2. cbn [maxDate] in L2. lia.
      * apply Z.ltb_ge in L2.
        replace (d0 <? Z.max (dateOf tag) (maxDate (filter isNightlyTag tags)))%Z
          with false by (symmetry; apply Z.ltb_ge; lia).
        reflexivity.
Qed.

(** ** Sorting the nightly tags *)

Lemma newestFirst_gt (a b : string) :
  Number.gt (newestFirst a b) (Num 0) = (dateOf a <? dateOf b)%Z.
Proof.
  unfold newestFirst. rewrite !tagDate_dateOf. cbn [Number.sub Number.gt].
  destruct (dateOf a <? dateOf b)%Z eqn:E.
  - apply Z.ltb_lt in E. apply Z.ltb_lt. lia.
  - apply Z.ltb_ge in E. apply Z.ltb_ge. lia.
Qed.

Lemma insertSorted_In (x y : string) (tags : list string) :
  In y (insertSorted newestFirst x tags) <-> y = x \/ In y tags.
Proof.
  induction tags as [|t tags IH]; cbn [insertSorted].
  - cbn. intuition congruence.
  - destruct (Number.gt (newestFirst x t) (Num 0)); cbn [In].
    + rewrite IH. intuition congruence.
    + intuition congruence.
Qed.

Lemma insertSorted_sorted (x : string) (tags : list string) :
  StronglySorted notOlder tags ->
  StronglySorted notOlder (insertSorted newestFirst x tags).
Proof.
  induction 1 as [|t tags Hs IH Hall]; cbn [insertSorted].
  - constructor; constructor.
  - rewrite newestFirst_gt. destruct (dateOf x <? dateOf t)%Z eqn:E.
    + apply Z.ltb_lt in E. constructor; [exact IH|].
      apply Forall_forall. intros y Hy. apply insertSorted_In in Hy.
      destruct Hy as [->|Hy].
      * unfold notOlder. lia.
      * rewrite Forall_forall in Hall. apply Hall, Hy.
    + apply Z.ltb_ge in E. constructor; [constructor; assumption|].
      constructor; [exact E|].
      eapply Forall_impl; [|exact Hall]. unfold notOlder. intros y Hy. lia.
Qed.

Lemma sortWith_sorted (tags : list string) :
  StronglySorted notOlder (sortWith newestFirst tags).
Proof.
  induction tags as [|t tags IH]; cbn [sortWith fold_right].
  - constructor.
  - apply insertSorted_sorted, IH.
Qed.

Lemma insertSorted_perm (x : string) (tags : list string) :
  Permutation (insertSorted newestFirst x tags) (x :: tags).
Proof.
  induction tags as [|t tags IH]; cbn [insertSorted]; [reflexivity|].
  destruct (Number.gt _ _); [|reflexivity].
  rewrite IH. apply perm_swap.
Qed.

Lemma sortWith_perm (tags : list string) :
  Permutation (sortWith newestFirst tags) tags.
Proof.
  induction tags as [|t tags IH]; cbn [sortWith fold_right]; [reflexivity|].
  rewrite insertSorted_perm. apply perm_skip, IH.
Qed.

Lemma firstn_sorted (n : nat) (tags : list string) :
  StronglySorted notOlder tags -> StronglySorted notOlder (firstn n tags).
Proof.
  intros H. revert n. induction H as [|t tags Hs IH Hall]; intros n.
  - rewrite firstn_nil. constructor.
  - destruct n as [|n]; cbn [firstn]; constructor; [apply IH|].
    apply Forall_forall. intros y Hy.
    rewrite Forall_forall in Hall. apply Hall.
    rewrite <- (firstn_skipn n tags). apply in_or_app. left. exact Hy.
Qed.

(** ** Checking for updates *)

Section Updates.

Variable respond : list command -> command -> option string.
Variable JSON_parse : string -> option json.
Variable revised : revision.

Let cRegistry := Command cmdRegistry false.

Lemma checkNightly_total (currentVersion : string) (s : Session) :
  fst (checkNightly respond JSON_parse currentVersion s) = Done tt.
Proof.
  unfold checkNightly. apply tryCatch_total. intros e s'. reflexivity.
Qed.

(** A nightly check on a response the scan can read. *)
Lemma checkForUpdates_nightly
  (rendered : Store) (s : Session) (current packageResult : string)
  (versions : list json) (tags : list string) :
  VersionInfo.current
    match revised with
    | AppTsx => versionInfo rendered
    | Later => versionInfoRef s
    end = Some (JStr current) ->
  Str.includes (Str.removeFirst "v" current) "nightly" = true ->
  respond (issued s) cRegistry = Some packageResult ->
  packageResult <> "" ->
  JSON_parse packageResult = Some (JArr versions) ->
  responseTags versions = Some tags ->
  let scan := fold_left scanStep tags Scan.empty in
  let currentDate :=
    match Str.matchNightly (Str.removeFirst "v" current) with
    | Some d => Number.parseInt d
    | None => Num 0
    end in
  checkForUpdates respond JSON_parse revised rendered s =
  setVersionInfo
    (fun prev =>
       Done (Update.nightly scan (Number.gt (Scan.latestNightlyDate scan) currentDate) prev))
    (spawned cRegistry
       (snd (setVersionInfo (fun prev => Done (Update.checking revised prev)) s))).
Proof.
  intros Hcur Hn Hr Hne Hp Ht scan currentDate.
  unfold checkForUpdates, bind at 1.
  cbn [setVersionInfo updateStore modify fst snd].
  unfold tryCatch, checkForUpdatesBody, bind, readCurrent, lift.
  cbn [versionInfoRef store].
  rewrite Hcur. cbn [Json.asStringOpt option_map]. rewrite Hn.
  unfold checkNightly, tryCatch, bind, spawn, spawnAs, lift, parse.
  cbn [issued]. fold cRegistry. rewrite Hr.
  apply String.eqb_neq in Hne. rewrite Hne. cbn [negb].
  rewrite Hp, (scanVersions_response versions Ht).
  reflexivity.
Qed.

End Updates.

(** C3 (as amended).  For a current version in which the code reads a
    nightly date (the capture of [nightly-(\d{8})] once the first [v] is
    removed) and a registry response the scan can read, [checkForUpdates]
    ends normally; [updateAvailable] is true exactly when the greatest
    date among the tags that start with [nightly-] and match the pattern
    (0 when there is none) is strictly greater than the current date;
    when that greatest date is positive [latestNightly] is the tag that
    carries it, the first one met on a tie; when it is 0, no tag or only
    tags dated 00000000, [latestNightly] is the literal [nightly]. *)
Theorem nightly_selects_greatest_date
  (respond : list command -> command -> option string)
  (JSON_parse : string -> option json) (revised : revision)
  (rendered : Store) (s : Session) (current date packageResult : string)
  (versions : list json) (tags : list string) :
  VersionInfo.current
    match revised with
    | AppTsx => versionInfo rendered
    | Later => versionInfoRef s
    end = Some (JStr current) ->
  Str.matchNightly (Str.removeFirst "v" current) = Some date ->
  respond (issued s) (Command cmdRegistry false) = Some packageResult ->
  packageResult <> "" ->
  JSON_parse packageResult = Some (JArr versions) ->
  responseTags versions = Some tags ->
  let candidates := filter isNightlyTag tags in
  let latest := maxDate candidates in
  let run := checkForUpdates respond JSON_parse revised rendered s in
  let info := versionInfo (store (snd run)) in
  fst run = Done tt /\
  VersionInfo.updateAvailable info =
    Some (Number.gt (Num latest) (Number.parseInt date)) /\
  ((0 < latest)%Z ->
   exists tag,
     newest candidates = Some tag /\
     VersionInfo.latestNightly info = Some tag /\
     In tag candidates /\
     dateOf tag = latest /\
     Forall (fun other => (dateOf other <= dateOf tag)%Z) candidates) /\
  (latest = 0%Z -> VersionInfo.latestNightly info = Some "nightly").
Proof.
  intros Hcur Hdate Hr Hne Hp Ht candidates latest run info.
  unfold info, run.
  rewrite (checkForUpdates_nightly respond JSON_parse revised rendered s
             Hcur (matchNightly_includes _ Hdate) Hr Hne Hp Ht).
  rewrite Hdate.
  cbn [setVersionInfo updateStore modify fst snd store versionInfo withVersionInfo
       Update.nightly VersionInfo.updateAvailable VersionInfo.latestNightly].
  destruct (@scan_latest tags Scan.empty 0 eq_refl (Z.le_refl 0)) as [Hd Ht'].
  cbv zeta in Hd, Ht'. fold candidates in Hd, Ht'. fold latest in Hd, Ht'.
  pose proof (maxDate_nonneg candidates) as Hm. fold latest in Hm.
  rewrite Hd, Ht'. replace (Z.max 0 latest) with latest by lia.
  split; [reflexivity|]. split; [reflexivity|]. split.
  - intros Hpos.
    replace (0 <? latest)%Z with true by (symmetry; apply Z.ltb_lt; exact Hpos).
    unfold newestOr. destruct (newest candidates) as [tag|] eqn:En.
    + destruct (newest_date _ En) as [Hin Hmax].
      exists tag. split; [reflexivity|]. split.
      * assert (Hnight : isNightlyTag tag = true).
        { unfold candidates in Hin. apply filter_In in Hin. apply Hin. }
        rewrite (isNightlyTag_nonempty tag Hnight). reflexivity.
      * split; [exact Hin|]. split; [exact Hmax|].
        apply Forall_forall. intros other Ho. rewrite Hmax.
        apply maxDate_bound, Ho.
    + apply newest_none in En. unfold latest in Hpos. rewrite En in Hpos.
      cbn [maxDate] in Hpos. lia.
  - intros Hzero. rewrite Hzero. reflexivity.
Qed.

Lemma nightly_selects_greatest_date_witness :
  let run :=
    checkForUpdates (Sample.registryHost Sample.registry)
                    (Sample.tableParse [Sample.registry]) AppTsx
                    (Sample.nightlyStore Sample.nightlyBuild)
                    (startSession (Sample.nightlyStore Sample.nightlyBuild)) in
  VersionInfo.updateAvailable (versionInfo (store (snd run))) = Some true /\
  VersionInfo.latestNightly (versionInfo (store (snd run))) = Some "nightly-20250901".
Proof.
  destruct (@nightly_selects_greatest_date
              (Sample.registryHost Sample.registry)
              (Sample.tableParse [Sample.registry]) AppTsx
              (Sample.nightlyStore Sample.nightlyBuild)
              (startSession (Sample.nightlyStore Sample.nightlyBuild))
              Sample.nightlyBuild "20250831" (Json.stringify Sample.registry)
              [Sample.version ["nightly-20250901"; "nightly"];
               Sample.version ["nightly-20250830"; "v1.0"];
               Sample.version []]
              ["nightly-20250901"; "nightly"; "nightly-20250830"; "v1.0"])
    as [_ [Hup [Hpos _]]].
  - reflexivity.
  - reflexivity.
  - reflexivity.
  - discriminate.
  - reflexivity.
  - reflexivity.
  - cbv zeta. split.
    + rewrite Hup. vm_compute. reflexivity.
    + destruct Hpos as [tag [Hn [Hl _]]]; [vm_compute; reflexivity|].
      rewrite Hl, <- Hn. vm_compute. reflexivity.
Defined.

(** C3 (as stated) fails: the only tag of this response that matches the
    pattern is [nightly-00000000], so it is the tag of greatest date, and
    [latestNightly] is set to [nightly] instead. *)
Lemma zero_dated_tag_is_not_selected :
  let store0 := Sample.nightlyStore Sample.nightlyBuild in
  let run :=
    checkForUpdates (Sample.registryHost Sample.zeroRegistry)
                    (Sample.tableParse [Sample.zeroRegistry]) AppTsx
                    store0 (startSession store0) in
  responseTags [Sample.version ["nightly-00000000"]] = Some ["nightly-00000000"] /\
  filter isNightlyTag ["nightly-00000000"] = ["nightly-00000000"] /\
  newest ["nightly-00000000"] = Some "nightly-00000000" /\
  fst run = Done tt /\
  VersionInfo.latestNightly (versionInfo (store (snd run))) = Some "nightly" /\
  VersionInfo.latestNightly (versionInfo (store (snd run))) <> newest ["nightly-00000000"].
Proof.
  vm_compute. repeat split; discriminate.
Qed.

(** ** The date embedded in a tag *)

Lemma digitValue_code (c : ascii) :
  Str.is_digit c = true ->
  Number.digitValue 10 c = Some (Z.of_nat (nat_of_ascii c) - 48)%Z.
Proof.
  unfold Str.is_digit, Number.digitValue, Str.code. intros H.
  apply andb_true_iff in H as [H1 H2].
  apply Nat.leb_le in H1. apply Nat.leb_le in H2.
  replace ((48 <=? Z.of_nat (nat_of_ascii c))%Z) with true by (symmetry; apply Z.leb_le; lia).
  replace ((Z.of_nat (nat_of_ascii c) <=? 57)%Z) with true by (symmetry; apply Z.leb_le; lia).
  cbn [andb].
  replace ((Z.of_nat (nat_of_ascii c) - 48 <? 10)%Z) with true
    by (symmetry; apply Z.ltb_lt; lia).
  reflexivity.
Qed.

Lemma readDigits_decimal (n : nat) (s d : string) (acc : Z) :
  Str.digits n s = Some d ->
  Number.readDigits 10 (Some acc) d = Some (decimal acc d).
Proof.
  revert s d acc. induction n as [|n IH]; intros s d acc Hd.
  - cbn in Hd. injection Hd as <-. reflexivity.
  - cbn [Str.digits] in Hd. destruct s as [|c s]; [discriminate|].
    destruct (Str.is_digit c) eqn:Hc; [|discriminate].
    destruct (Str.digits n s) as [d'|] eqn:Hd'; [|discriminate].
    injection Hd as <-. cbn [Number.readDigits decimal].
    rewrite (digitValue_code c Hc). apply (IH s d' _ Hd').
Qed.

(** [parseInt] reads a run of decimal digits as the number they write. *)
Lemma parseInt_decimal (n : nat) (s d : string) :
  0 < n -> Str.digits n s = Some d -> Number.parseInt d = Num (decimal 0 d).
Proof.
  intros Hn Hd.
  destruct n as [|n]; [lia|].
  cbn [Str.digits] in Hd. destruct s as [|c s]; [discriminate|].
  destruct (Str.is_digit c) eqn:Hc; [|discriminate].
  destruct (Str.digits n s) as [d'|] eqn:Hd'; [|discriminate].
  injection Hd as <-.
  unfold Number.parseInt.
  cbn [Str.trimStart]. rewrite (digit_not_space c Hc).
  rewrite (digit_not_char c "-" Hc eq_refl), (digit_not_char c "+" Hc eq_refl).
  assert (Hx : Str.startsWith (String c d') "0x" || Str.startsWith (String c d') "0X" = false).
  { unfold Str.startsWith. rewrite !prefix_cons.
    destruct (ascii_dec "0" c); [|reflexivity].
    destruct d' as [|c2 d'']; [reflexivity|].
    destruct n as [|n]; [cbn in Hd'; discriminate|].
    cbn [Str.digits] in Hd'. destruct s as [|c2' s]; [discriminate|].
    destruct (Str.is_digit c2') eqn:Hc2; [|discriminate].
    destruct (Str.digits n s); [|discriminate].
    injection Hd' as -> _.
    rewrite !prefix_cons.
    destruct (ascii_dec "x" c2) as [<-|]; [discriminate Hc2|].
    destruct (ascii_dec "X" c2) as [<-|]; [discriminate Hc2|].
    reflexivity. }
  rewrite Hx. cbn [Number.readDigits decimal]. rewrite (digitValue_code c Hc).
  rewrite (readDigits_decimal n s _ Hd'). reflexivity.
Qed.

(** What [digits] cuts off the front of a text, and when. *)
Lemma digits_split (n : nat) (t d : string) :
  Str.digits n t = Some d ->
  exists after,
    t = d ++ after /\ String.length d = n /\
    Forall (fun c => 48 <= nat_of_ascii c <= 57) (list_ascii_of_string d).
Proof.
  revert t d. induction n as [|n IH]; intros t d Hd.
  - cbn in Hd. injection Hd as <-. exists t. repeat split. constructor.
  - cbn [Str.digits] in Hd. destruct t as [|c t]; [discriminate|].
    destruct (Str.is_digit c) eqn:Hc; [|discriminate].
    destruct (Str.digits n t) as [d'|] eqn:Hd'; [|discriminate].
    injection Hd as <-.
    destruct (IH t d' Hd') as [after [-> [Hlen Hall]]].
    exists after. split; [reflexivity|]. split; [cbn [String.length]; now rewrite Hlen|].
    cbn [list_ascii_of_string]. constructor; [|exact Hall].
    unfold Str.is_digit, Str.code in Hc. apply andb_true_iff in Hc as [H1 H2].
    apply Nat.leb_le in H1. apply Nat.leb_le in H2. lia.
Qed.

Lemma digits_app (d after : string) :
  Forall (fun c => 48 <= nat_of_ascii c <= 57) (list_ascii_of_string d) ->
  Str.digits (String.length d) (d ++ after) = Some d.
Proof.
  induction d as [|c d IH]; intros H; [reflexivity|].
  cbn [list_ascii_of_string] in H. inversion H as [|? ? Hc Hd]; subst.
  cbn [String.length append Str.digits].
  assert (E : Str.is_digit c = true).
  { unfold Str.is_digit, Str.code. apply andb_true_iff.
    split; apply Nat.leb_le; lia. }
  rewrite E, (IH Hd). reflexivity.
Qed.

Lemma prefix_drop (p s : string) :
  String.prefix p s = true -> s = p ++ Str.drop (String.length p) s.
Proof.
  revert s. induction p as [|a p IH]; intros s H.
  - reflexivity.
  - destruct s as [|c s]; [discriminate H|].
    rewrite prefix_cons in H. destruct (ascii_dec a c) as [<-|]; [|discriminate H].
    cbn [String.length Str.drop append]. f_equal. apply IH, H.
Qed.

(** The pattern matches at the head of a text exactly when the text is
    [nightly-], eight digits, and whatever follows. *)
Lemma nightlyAt_spec (s d : string) :
  Str.nightlyAt s = Some d <->
  exists after, s = "nightly-" ++ d ++ after /\ eightDigits d.
Proof.
  unfold Str.nightlyAt, Str.startsWith. split.
  - intros H. destruct (String.prefix "nightly-" s) eqn:E; [|discriminate H].
    apply prefix_drop in E. cbn [String.length] in E.
    destruct (digits_split _ _ H) as [after [Ht [Hlen Hall]]].
    exists after. split; [rewrite E at 1; rewrite Ht; reflexivity|].
    split; assumption.
  - intros [after [-> [Hlen Hall]]].
    rewrite prefix_app.
    change (Str.drop 8 ("nightly-" ++ d ++ after)) with (d ++ after).
    rewrite <- Hlen. apply digits_app, Hall.
Qed.

(** The capture of the leftmost match is where the embedded date is. *)
Lemma matchNightly_leftmost (s d : string) :
  Str.matchNightly s = Some d ->
  exists before after,
    s = before ++ "nightly-" ++ d ++ after /\
    eightDigits d /\
    forall before' d' after',
      s = before' ++ "nightly-" ++ d' ++ after' ->
      eightDigits d' ->
      String.length before <= String.length before'.
Proof.
  induction s as [|c s IH]; intros H.
  - cbn in H. discriminate H.
  - cbn [Str.matchNightly] in H.
    destruct (Str.nightlyAt (String c s)) as [d0|] eqn:E.
    + injection H as <-. apply nightlyAt_spec in E. destruct E as [after [Hs Hd]].
      exists "", after. split; [exact Hs|]. split; [exact Hd|].
      intros before' d' after' _ _. cbn [String.length]. lia.
    + destruct (IH H) as [before [after [Hs [Hd Hleft]]]].
      exists (String c before), after.
      split; [rewrite Hs at 1; reflexivity|]. split; [exact Hd|].
      intros before' d' after' Hs' Hd'.
      destruct before' as [|c' before'].
      * exfalso. cbn [append] in Hs'.
        assert (E' : Str.nightlyAt (String c s) = Some d').
        { apply nightlyAt_spec. exists after'. split; [exact Hs' | exact Hd']. }
        rewrite E in E'. discriminate E'.
      * cbn [append] in Hs'. injection Hs' as _ Hs'.
        cbn [String.length]. apply le_n_S. exact (Hleft before' d' after' Hs' Hd').
Qed.

(** The sort key of a tag that matches is the date it embeds. *)
Lemma embeddedDate_dateOf (tag : string) :
  isNightlyTag tag = true -> embeddedDate tag (dateOf tag).
Proof.
  intros H. destruct (isNightlyTag_match tag H) as [d Hd].
  destruct (matchNightly_leftmost _ Hd) as [before [after [Hs [H8 Hleft]]]].
  exists before, d, after. split; [exact Hs|]. split; [exact H8|]. split; [|exact Hleft].
  destruct (matchNightly_digits _ Hd) as [t Ht].
  pose proof (matchNightly_date _ Hd) as Hdate.
  rewrite (parseInt_decimal (n := 8) t) in Hdate by (try lia; exact Ht).
  injection Hdate as Hdate. symmetry. exact Hdate.
Qed.

Lemma append_same_length (a b a' b' : string) :
  a ++ b = a' ++ b' -> String.length a = String.length a' -> a = a' /\ b = b'.
Proof.
  revert a'. induction a as [|c a IH]; intros [|c' a'] H Hl; cbn [String.length] in Hl;
    try discriminate Hl.
  - split; [reflexivity | exact H].
  - cbn [append] in H. injection H as -> H. injection Hl as Hl.
    destruct (IH a' H Hl) as [-> ->]. split; reflexivity.
Qed.

(** A tag embeds one date at most. *)
Lemma embeddedDate_unique (tag : string) (x y : Z) :
  embeddedDate tag x -> embeddedDate tag y -> x = y.
Proof.
  intros [b1 [d1 [a1 [H1 [E1 [-> L1]]]]]] [b2 [d2 [a2 [H2 [E2 [-> L2]]]]]].
  pose proof (L1 b2 d2 a2 H2 E2) as Hle1.
  pose proof (L2 b1 d1 a1 H1 E1) as Hle2.
  rewrite H1 in H2.
  destruct (append_same_length _ _ _ _ H2 (Nat.le_antisymm _ _ Hle1 Hle2)) as [_ Hrest].
  change ("nightly-" ++ d1 ++ a1) with (String "n" (String "i" (String "g" (String "h"
            (String "t" (String "l" (String "y" (String "-" (d1 ++ a1))))))))) in Hrest.
  change ("nightly-" ++ d2 ++ a2) with (String "n" (String "i" (String "g" (String "h"
            (String "t" (String "l" (String "y" (String "-" (d2 ++ a2))))))))) in Hrest.
  injection Hrest as Hrest.
  destruct E1 as [Hl1 _], E2 as [Hl2 _].
  destruct (append_same_length _ _ _ _ Hrest (eq_trans Hl1 (eq_sym Hl2))) as [-> _].
  reflexivity.
Qed.

Example embeddedDate_of_a_tag : embeddedDate "nightly-20250901-5-gc2d911f7" 20250901.
Proof.
  exists "", "20250901", "-5-gc2d911f7".
  split; [reflexivity|]. split; [|split; [reflexivity|]].
  - split; [reflexivity|]. repeat constructor; cbn; lia.
  - intros before' d' after' _ _. cbn [String.length]. lia.
Qed.

Lemma sorted_by_embedded_date (tags : list string) :
  Forall (fun tag => isNightlyTag tag = true) tags ->
  StronglySorted notOlder tags ->
  StronglySorted datedNoLater tags.
Proof.
  intros Hall Hs. induction Hs as [|t tags Hs IH Hrest]; [constructor|].
  inversion Hall as [|? ? Ht Htags]; subst.
  constructor; [apply IH, Htags|].
  rewrite Forall_forall in *. intros other Hin.
  exists (dateOf t), (dateOf other).
  split; [apply embeddedDate_dateOf, Ht|].
  split; [apply embeddedDate_dateOf, Htags, Hin|].
  apply Hrest, Hin.
Qed.

Lemma sorted_app (R : string -> string -> Prop) (front back : list string) :
  StronglySorted R (front ++ back) ->
  forall a b, In a front -> In b back -> R a b.
Proof.
  induction front as [|x front IH]; intros H a b Ha Hb; [contradiction|].
  cbn [app] in H. inversion H as [|? ? Hs Hx]; subst.
  destruct Ha as [<- | Ha].
  - rewrite Forall_forall in Hx. apply Hx, in_or_app. right. exact Hb.
  - exact (IH Hs a b Ha Hb).
Qed.

(** C10.  After a nightly check on a registry response that the scan can
    read, [nightlyTags] holds at most 5 tags, each one a tag of the
    response that matches the pattern, in non-increasing order of their
    dates: the first five of the matching tags sorted newest first.  The
    date of a tag is the number written by the eight digits that follow
    the leftmost [nightly-] of the tag that eight digits follow; every
    tag kept embeds exactly one, the tags kept are in non-increasing
    order of it, and no matching tag left out is dated after one that
    is kept. *)
Theorem nightlyTags_sorted_and_capped
  (respond : list command -> command -> option string)
  (JSON_parse : string -> option json) (revised : revision)
  (rendered : Store) (s : Session) (current packageResult : string)
  (versions : list json) (tags : list string) :
  VersionInfo.current
    match revised with
    | AppTsx => versionInfo rendered
    | Later => versionInfoRef s
    end = Some (JStr current) ->
  Str.includes (Str.removeFirst "v" current) "nightly" = true ->
  respond (issued s) (Command cmdRegistry false) = Some packageResult ->
  packageResult <> "" ->
  JSON_parse packageResult = Some (JArr versions) ->
  responseTags versions = Some tags ->
  let candidates := filter isNightlyTag tags in
  let run := checkForUpdates respond JSON_parse revised rendered s in
  exists shown,
    fst run = Done tt /\
    VersionInfo.nightlyTags (versionInfo (store (snd run))) = Some shown /\
    shown = firstn 5 (sortWith newestFirst candidates) /\
    List.length shown <= 5 /\
    StronglySorted notOlder shown /\
    Permutation (sortWith newestFirst candidates) candidates /\
    (forall tag, In tag shown -> In tag candidates) /\
    List.length shown = Nat.min 5 (List.length candidates) /\
    Forall (fun tag =>
              exists date,
                embeddedDate tag date /\
                forall other, embeddedDate tag other -> other = date) shown /\
    StronglySorted datedNoLater shown /\
    (forall kept left,
       In kept shown -> In left candidates -> ~ In left shown -> datedNoLater kept left).
Proof.
  intros Hcur Hn Hr Hne Hp Ht candidates run.
  exists (firstn 5 (sortWith newestFirst candidates)).
  unfold run.
  rewrite (checkForUpdates_nightly respond JSON_parse revised rendered s
             Hcur Hn Hr Hne Hp Ht).
  cbn [setVersionInfo updateStore modify fst snd store versionInfo withVersionInfo
       Update.nightly VersionInfo.nightlyTags].
  rewrite scan_collects. cbn [Scan.nightlyTags Scan.empty app]. fold candidates.
  split; [reflexivity|]. split; [reflexivity|]. split; [reflexivity|].
  split; [apply firstn_le_length|].
  split; [apply firstn_sorted, sortWith_sorted|].
  split; [apply sortWith_perm|].
  assert (Hshown : forall tag,
            In tag (firstn 5 (sortWith newestFirst candidates)) -> In tag candidates).
  { intros tag Hin.
    apply (Permutation_in tag (sortWith_perm candidates)).
    rewrite <- (firstn_skipn 5 (sortWith newestFirst candidates)).
    apply in_or_app. left. exact Hin. }
  assert (Hnightly : forall tag, In tag candidates -> isNightlyTag tag = true).
  { intros tag Hin. unfold candidates in Hin. apply filter_In in Hin. apply Hin. }
  assert (Hsorted : Forall (fun tag => isNightlyTag tag = true)
                           (sortWith newestFirst candidates)).
  { apply Forall_forall. intros tag Hin. apply Hnightly.
    apply (Permutation_in tag (sortWith_perm candidates)), Hin. }
  split; [exact Hshown|].
  split.
  { rewrite length_firstn, (Permutation_length (sortWith_perm candidates)). reflexivity. }
  split.
  { apply Forall_forall. intros tag Hin. exists (dateOf tag).
    pose proof (embeddedDate_dateOf tag (Hnightly tag (Hshown tag Hin))) as Hd.
    split; [exact Hd|]. intros other Ho. exact (embeddedDate_unique Ho Hd). }
  split.
  { apply sorted_by_embedded_date; [|apply firstn_sorted, sortWith_sorted].
    apply Forall_forall. intros tag Hin. apply Hnightly, Hshown, Hin. }
  intros kept left Hk Hl Hout.
  apply (@sorted_app datedNoLater (firstn 5 (sortWith newestFirst candidates))
                     (skipn 5 (sortWith newestFirst candidates))).
  - rewrite firstn_skipn. apply sorted_by_embedded_date; [exact Hsorted|].
    apply sortWith_sorted.
  - exact Hk.
  - apply (Permutation_in left (Permutation_sym (sortWith_perm candidates))) in Hl.
    rewrite <- (firstn_skipn 5 (sortWith newestFirst candidates)) in Hl.
    apply in_app_or in Hl. destruct Hl as [Hl | Hl]; [contradiction | exact Hl].
Qed.

Lemma nightlyTags_sorted_and_capped_witness :
  exists shown,
    VersionInfo.nightlyTags
      (versionInfo
         (store (snd (checkForUpdates (Sample.registryHost Sample.longRegistry)
                        (Sample.tableParse [Sample.longRegistry]) Later
                        (Sample.nightlyStore Sample.nightlyBuild)
                        (startSession (Sample.nightlyStore Sample.nightlyBuild))))))
    = Some shown /\
    List.length shown <= 5 /\
    StronglySorted notOlder shown /\
    StronglySorted datedNoLater shown.
Proof.
  destruct (@nightlyTags_sorted_and_capped
              (Sample.registryHost Sample.longRegistry)
              (Sample.tableParse [Sample.longRegistry]) Later
              (Sample.nightlyStore Sample.nightlyBuild)
              (startSession (Sample.nightlyStore Sample.nightlyBuild))
              Sample.nightlyBuild (Json.stringify Sample.longRegistry)
              [Sample.version ["nightly-20250828"; "nightly-20250901"];
               Sample.version ["nightly-20250830"];
               Sample.version ["nightly-20250827"; "nightly-20250831"; "latest"];
               Sample.version ["nightly-20250829"; "nightly-20250826"]]
              ["nightly-20250828"; "nightly-20250901"; "nightly-20250830";
               "nightly-20250827"; "nightly-20250831"; "latest";
               "nightly-20250829"; "nightly-20250826"])
    as [shown [_ [H1 [_ [H2 [H3 [_ [_ [_ [_ [H4 _]]]]]]]]]]].
  - reflexivity.
  - reflexivity.
  - reflexivity.
  - discriminate.
  - reflexivity.
  - reflexivity.
  - exists shown. split; [exact H1 | split; [exact H2 | split; [exact H3 | exact H4]]].
Defined.

(** ** What a procedure leaves in place *)

Section Keeping.

Variable R : Session -> Session -> Prop.
Hypothesis R_refl : forall s, R s s.
Hypothesis R_trans : forall s1 s2 s3, R s1 s2 -> R s2 s3 -> R s1 s3.
Hypothesis R_spawned : forall c s, R s (spawned c s).

Lemma keeps_ret {A : Type} (a : A) : Keeps R (ret a).
Proof. intros s. apply R_refl. Qed.

Lemma keeps_lift {A : Type} (m : outcome A) : Keeps R (lift m).
Proof. intros s. apply R_refl. Qed.

Lemma keeps_bind {A B : Type} (m : Async A) (k : A -> Async B) :
  Keeps R m -> (forall a, Keeps R (k a)) -> Keeps R (bind m k).
Proof.
  intros Hm Hk s. unfold bind. specialize (Hm s).
  destruct (m s) as [[a|e] s']; cbn [snd] in *; [|exact Hm].
  eapply R_trans; [exact Hm | apply Hk].
Qed.

Lemma keeps_tryCatch {A : Type} (body : Async A) (handler : jserror -> Async A) :
  Keeps R body -> (forall e, Keeps R (handler e)) -> Keeps R (tryCatch body handler).
Proof.
  intros Hb Hh s. unfold tryCatch. specialize (Hb s).
  destruct (body s) as [[a|e] s']; cbn [snd] in *; [exact Hb|].
  eapply R_trans; [exact Hb | apply Hh].
Qed.

Lemma keeps_tryFinally {A : Type} (body : Async A) (final : Session -> Session) :
  Keeps R body -> (forall s, R s (final s)) -> Keeps R (tryFinally body final).
Proof.
  intros Hb Hf s. unfold tryFinally. specialize (Hb s).
  destruct (body s) as [r s']; cbn [snd] in *.
  eapply R_trans; [exact Hb | apply Hf].
Qed.

Lemma keeps_spawnAs (respond : list command -> command -> option string)
      (su : bool) (args : list string) :
  Keeps R (spawnAs respond su args).
Proof.
  intros s. unfold spawnAs.
  destruct (respond (issued s) (Command args su)); apply R_spawned.
Qed.

Lemma keeps_modify (f : Session -> Session) :
  (forall s, R s (f s)) -> Keeps R (modify f).
Proof. intros H s. apply H. Qed.

Lemma keeps_setVersionInfo (updater : VersionInfo.t -> outcome VersionInfo.t) :
  (forall s v, updater (versionInfo (store s)) = Done v ->
               R s (snd (updateStore (withVersionInfo v) s))) ->
  (forall s e, R s {| store := store s; issued := issued s; alerts := alerts s;
                      versionInfoRef := versionInfoRef s; updaterError := Some e |}) ->
  Keeps R (setVersionInfo updater).
Proof.
  intros Hd He s. unfold setVersionInfo.
  destruct (updater (versionInfo (store s))) as [v|e] eqn:E; [apply Hd, E | apply He].
Qed.

End Keeping.

Lemma sameBuild_refl (s : Session) : sameBuild s s.
Proof. split; reflexivity. Qed.

Lemma sameBuild_trans (s1 s2 s3 : Session) :
  sameBuild s1 s2 -> sameBuild s2 s3 -> sameBuild s1 s3.
Proof. intros [A B] [C D]. split; congruence. Qed.

Lemma sameBuild_spawned (c : command) (s : Session) : sameBuild s (spawned c s).
Proof. split; reflexivity. Qed.

(** An updater that spreads [prev] and sets neither [current] nor
    [buildDate]. *)
Lemma sameBuild_spread (f : VersionInfo.t -> VersionInfo.t) :
  (forall prev, VersionInfo.current (f prev) = VersionInfo.current prev /\
                VersionInfo.buildDate (f prev) = VersionInfo.buildDate prev) ->
  Keeps sameBuild (setVersionInfo (fun prev => Done (f prev))).
Proof.
  intros H. apply keeps_setVersionInfo.
  - intros s v E. injection E as <-. apply H.
  - intros s e. split; reflexivity.
Qed.

Section Failing.

Variable respond : list command -> command -> option string.
Variable JSON_parse : string -> option json.
Variable revised : revision.

Lemma setVersionInfo_done (updater : VersionInfo.t -> outcome VersionInfo.t) (s : Session) :
  fst (setVersionInfo updater s) = Done tt.
Proof. unfold setVersionInfo. destruct (updater _); reflexivity. Qed.

Lemma checkStable_keeps (currentVersion : option string) :
  Keeps sameBuild (checkStable respond JSON_parse currentVersion).
Proof.
  unfold checkStable.
  apply keeps_bind; [exact sameBuild_trans | apply keeps_spawnAs; exact sameBuild_spawned |].
  intros result. destruct (negb (String.eqb result ""));
    [|apply keeps_ret; exact sameBuild_refl].
  repeat (apply keeps_bind;
          [exact sameBuild_trans | apply keeps_lift; exact sameBuild_refl | intros ?]).
  apply keeps_setVersionInfo.
  - intros s v E.
    destruct (Json.prop a "body"); [|discriminate E].
    destruct (Json.prop a "html_url"); [|discriminate E].
    cbn [obind] in E. injection E as <-. split; reflexivity.
  - intros s e. split; reflexivity.
Qed.

Lemma checkNightly_keeps (currentVersion : string) :
  Keeps sameBuild (checkNightly respond JSON_parse currentVersion).
Proof.
  unfold checkNightly.
  apply keeps_tryCatch; [exact sameBuild_trans | |].
  - apply keeps_bind; [exact sameBuild_trans | apply keeps_spawnAs; exact sameBuild_spawned |].
    intros result. destruct (negb (String.eqb result ""));
      [|apply keeps_ret; exact sameBuild_refl].
    repeat (apply keeps_bind;
            [exact sameBuild_trans | apply keeps_lift; exact sameBuild_refl | intros ?]).
    apply sameBuild_spread. intros prev. split; reflexivity.
  - intros e. apply sameBuild_spread. intros prev. split; reflexivity.
Qed.

Lemma checkForUpdatesBody_keeps (rendered : Store) :
  Keeps sameBuild (checkForUpdatesBody respond JSON_parse revised rendered).
Proof.
  unfold checkForUpdatesBody.
  apply keeps_bind; [exact sameBuild_trans | |].
  - intros s. apply sameBuild_refl.
  - intros current.
    apply keeps_bind; [exact sameBuild_trans | apply keeps_lift; exact sameBuild_refl |].
    intros [v|]; cbn [option_map].
    + destruct (Str.includes _ "nightly");
        [apply checkNightly_keeps | apply checkStable_keeps].
    + apply checkStable_keeps.
Qed.

Lemma checkForUpdates_keeps (rendered : Store) :
  Keeps sameBuild (checkForUpdates respond JSON_parse revised rendered).
Proof.
  unfold checkForUpdates.
  apply keeps_bind; [exact sameBuild_trans | |].
  - apply sameBuild_spread. intros prev. split; reflexivity.
  - intros _.
    apply keeps_tryCatch; [exact sameBuild_trans | |].
    + apply checkForUpdatesBody_keeps.
    + intros e. apply sameBuild_spread. intros prev. split; reflexivity.
Qed.

(** When the stable branch throws nothing has been stored yet. *)
Lemma checkStable_throws (currentVersion : option string) (s : Session) (e : jserror) :
  fst (checkStable respond JSON_parse currentVersion s) = Throw e ->
  store (snd (checkStable respond JSON_parse currentVersion s)) = store s.
Proof.
  unfold checkStable, bind, spawn, spawnAs, lift, parse, ret.
  destruct (respond (issued s) _) as [result|]; [|reflexivity].
  destruct (negb (String.eqb result "")); [|discriminate].
  destruct (JSON_parse result) as [release|]; [|reflexivity].
  destruct (Json.prop release "tag_name") as [tag_name|]; [|reflexivity].
  destruct (Json.asStringOpt tag_name) as [name|]; [|reflexivity].
  intros H. rewrite setVersionInfo_done in H. discriminate H.
Qed.

Lemma checkForUpdatesBody_throws (rendered : Store) (s : Session) (e : jserror) :
  fst (checkForUpdatesBody respond JSON_parse revised rendered s) = Throw e ->
  store (snd (checkForUpdatesBody respond JSON_parse revised rendered s)) = store s.
Proof.
  unfold checkForUpdatesBody, bind, readCurrent, lift.
  destruct (Json.asStringOpt _) as [[v|]|]; cbn [option_map]; [| |reflexivity].
  - destruct (Str.includes _ "nightly").
    + intros H. rewrite checkNightly_total in H. discriminate H.
    + apply checkStable_throws.
  - apply checkStable_throws.
Qed.

(** C4.  Whatever the host answers, [checkForUpdates] leaves [current]
    and [buildDate] as they were: in particular no failing run erases
    them.  When its [try] block throws, the resulting [VersionInfo] is
    the previous one with [checkingUpdate = false] and [updateError]
    set: [updateAvailable] and every other field keep their previous
    value. *)
Theorem checkForUpdates_failure_frame (rendered : Store) (s : Session) :
  let prev := versionInfo (store s) in
  let started := snd (setVersionInfo (fun p => Done (Update.checking revised p)) s) in
  let info := versionInfo (store (snd (checkForUpdates respond JSON_parse revised rendered s))) in
  (VersionInfo.current info = VersionInfo.current prev /\
   VersionInfo.buildDate info = VersionInfo.buildDate prev) /\
  (forall e,
     fst (checkForUpdatesBody respond JSON_parse revised rendered started) = Throw e ->
     fst (checkForUpdates respond JSON_parse revised rendered s) = Done tt /\
     info =
     {| VersionInfo.current := VersionInfo.current prev;
        VersionInfo.buildDate := VersionInfo.buildDate prev;
        VersionInfo.latest := VersionInfo.latest prev;
        VersionInfo.latestNightly := VersionInfo.latestNightly prev;
        VersionInfo.nightlyTags := VersionInfo.nightlyTags prev;
        VersionInfo.updateAvailable := VersionInfo.updateAvailable prev;
        VersionInfo.checkingUpdate := Some false;
        VersionInfo.updateError := Some "Failed to check for updates";
        VersionInfo.releaseNotes := VersionInfo.releaseNotes prev;
        VersionInfo.releaseUrl := VersionInfo.releaseUrl prev |}).
Proof.
  intros prev started info. split.
  - apply (checkForUpdates_keeps rendered s).
  - intros e H.
    pose proof (checkForUpdatesBody_throws rendered started H) as Hstore.
    assert (Hrun :
      checkForUpdates respond JSON_parse revised rendered s =
      tryCatch (checkForUpdatesBody respond JSON_parse revised rendered)
               (fun _ => setVersionInfo (fun p => Done (Update.failed p)))
               started) by reflexivity.
    unfold info. rewrite Hrun. unfold tryCatch.
    destruct (checkForUpdatesBody respond JSON_parse revised rendered started)
      as [[a|e'] s'] eqn:E; cbn [fst snd] in *; [discriminate H|].
    cbn [setVersionInfo updateStore modify fst snd store versionInfo withVersionInfo].
    rewrite Hstore. split; reflexivity.
Qed.

End Failing.

Lemma checkForUpdates_failure_frame_witness :
  versionInfo
    (store (snd (checkForUpdates (Sample.scripted []) (Sample.tableParse []) AppTsx
                   Sample.stableStore (startSession Sample.stableStore)))) =
  VersionInfo.Build (Some (JStr "v1.2.3")) (Some (JStr "2025-06-01"))
                    (Some (JStr "1.2.2")) None None
                    (Some true) (Some false) (Some "Failed to check for updates")
                    (Some (JStr "notes")) (Some (JStr "https://example.org/r")).
Proof.
  refine (proj2 (proj2 (@checkForUpdates_failure_frame
                   (Sample.scripted []) (Sample.tableParse []) AppTsx
                   Sample.stableStore (startSession Sample.stableStore))
                 SpawnError _)).
  reflexivity.
Defined.

(** ** Recreating the container *)

Lemma foldM_pushBinding (port : string) (bindings : list json) (hostPorts args : list string) :
  Forall2 describesBinding bindings hostPorts ->
  foldM (pushBinding port) args bindings =
  Done (app args
            (flat_map (fun hostPort => ["-p"; hostPort ++ ":" ++ portOf port]) hostPorts)).
Proof.
  intros H. revert args. induction H as [|binding hostPort bindings hostPorts Hb _ IH]; intros args.
  - cbn [foldM flat_map]. rewrite app_nil_r. reflexivity.
  - cbn [foldM flat_map]. unfold pushBinding at 1. rewrite Hb. cbn [obind Json.toStringU Json.toString].
    rewrite IH, <- app_assoc. reflexivity.
Qed.

Lemma foldM_pushPort (entries : list (string * json)) (ports : list (string * list string))
      (args : list string) :
  Forall2 describesPort entries ports ->
  foldM pushPort args entries = Done (args ++ flat_map portFlags ports)%list.
Proof.
  intros H. revert args. induction H as [|entry port entries ports Hp _ IH]; intros args.
  - cbn [foldM flat_map]. rewrite app_nil_r. reflexivity.
  - cbn [foldM flat_map]. unfold pushPort at 1, portFlags at 1.
    destruct Hp as [Hkey [[Hnull Hnone] | [bindings [Harr Hb]]]].
    + rewrite Hnull, Hnone. cbn [obind flat_map app]. apply IH.
    + rewrite Harr, Hkey, (foldM_pushBinding (fst port) args Hb). cbn [obind].
      rewrite IH, <- app_assoc. reflexivity.
Qed.

Lemma foldM_pushMount (items : list json) (mounts : list Inspect.Mount) (args : list string) :
  Forall2 describesMount items mounts ->
  foldM pushMount args items = Done (args ++ flat_map mountFlags mounts)%list.
Proof.
  intros H. revert args. induction H as [|item m items mounts Hm _ IH]; intros args.
  - cbn [foldM flat_map]. rewrite app_nil_r. reflexivity.
  - cbn [foldM flat_map]. unfold pushMount at 1, mountFlags at 1.
    destruct Hm as [Ht [Hs Hd]]. rewrite Ht. cbn [obind Json.isString].
    destruct (String.eqb (Inspect.Type_ m) "bind").
    + rewrite Hs, Hd. cbn [obind Json.toStringU Json.toString].
      rewrite IH, <- app_assoc. reflexivity.
    + cbn [app]. apply IH.
Qed.

Lemma foldM_pushEnv (envs args : list string) :
  foldM pushEnv args (map JStr envs) = Done (args ++ flat_map envFlags envs)%list.
Proof.
  revert args. induction envs as [|env envs IH]; intros args.
  - cbn [map foldM flat_map]. rewrite app_nil_r. reflexivity.
  - cbn [map foldM flat_map]. unfold pushEnv at 1, envFlags at 1.
    cbn [Json.asString obind].
    destruct (negb (Str.startsWith env "PATH=") && negb (Str.startsWith env "HOME=")).
    + cbn [obind]. rewrite IH, <- app_assoc. reflexivity.
    + cbn [obind app]. apply IH.
Qed.

(** On an inspect record that carries a configuration, the argument list
    is built without an error and is the expected command line. *)
Lemma createArgs_describes (config : json) (c : Inspect.t) (imageName : string) :
  describes config c ->
  createArgs (Some config) imageName = Done (launchArgs c imageName).
Proof.
  intros [Hname [[hostConfig [Hhost Hports]] [[mounts [items [Hm [Harr Hitems]]]] [cfg [Hcfg Henv]]]]].
  unfold createArgs, launchArgs. cbn [Json.get].
  rewrite Hname. cbn [obind Json.asString]. rewrite Hhost. cbn [obind].
  set (base := ["docker"; "run"; "-d"; "--name"; Str.removeFirst "/" (Inspect.Name c);
                "--restart"; "unless-stopped"]).
  assert (Hp :
    match Json.getOpt hostConfig "PortBindings" with
    | Some pb =>
        if Json.truthy (Json.getOpt hostConfig "PortBindings")
        then foldM pushPort base (entries pb) else Done base
    | None => Done base
    end = Done (base ++ flat_map portFlags (Inspect.PortBindings c))%list).
  { destruct Hports as [[ports [Hpb Hf]] | [Hfalse Hnil]].
    - rewrite Hpb. cbn [Json.truthy entries]. apply foldM_pushPort, Hf.
    - rewrite Hnil. cbn [flat_map]. rewrite app_nil_r.
      destruct (Json.getOpt hostConfig "PortBindings"); [rewrite Hfalse|]; reflexivity. }
  rewrite Hp. cbn [obind]. rewrite Hm. cbn [obind].
  set (withPorts := (base ++ flat_map portFlags (Inspect.PortBindings c))%list).
  assert (Hmt :
    (if Json.truthy mounts
     then obind (Json.asArray mounts) (fun ms => foldM pushMount withPorts ms)
     else Done withPorts)
    = Done (withPorts ++ flat_map mountFlags (Inspect.Mounts c))%list).
  { destruct Harr as [-> | [Hfalse ->]].
    - cbn [Json.truthy Json.asArray obind]. apply foldM_pushMount, Hitems.
    - rewrite Hfalse. inversion Hitems. cbn [flat_map]. rewrite app_nil_r. reflexivity. }
  rewrite Hmt. cbn [obind]. rewrite Hcfg. cbn [obind].
  set (withMounts := (withPorts ++ flat_map mountFlags (Inspect.Mounts c))%list).
  assert (He :
    (if Json.truthy (Json.getOpt cfg "Env")
     then obind (Json.asArray (Json.getOpt cfg "Env")) (fun es => foldM pushEnv withMounts es)
     else Done withMounts)
    = Done (withMounts ++ flat_map envFlags (Inspect.Env c))%list).
  { destruct Henv as [-> | [Hfalse Hnil]].
    - cbn [Json.truthy Json.asArray obind]. apply foldM_pushEnv.
    - rewrite Hfalse. apply map_eq_nil in Hnil. rewrite Hnil.
      cbn [flat_map]. rewrite app_nil_r. reflexivity. }
  rewrite He. cbn [obind]. unfold withMounts, withPorts.
  rewrite <- !app_assoc. reflexivity.
Qed.

Lemma hasFlag_prepend (flag value : string) (before args : list string) :
  hasFlag flag value args -> hasFlag flag value (before ++ args)%list.
Proof.
  intros [b [a ->]]. exists (before ++ b)%list, a. rewrite app_assoc. reflexivity.
Qed.

Lemma hasFlag_append (flag value : string) (args after : list string) :
  hasFlag flag value args -> hasFlag flag value (args ++ after)%list.
Proof.
  intros [b [a ->]]. exists b, (a ++ after)%list.
  rewrite <- app_assoc. reflexivity.
Qed.

Lemma hasFlag_flat_map {A : Type} (f : A -> list string) (x : A) (xs : list A)
      (flag value : string) :
  In x xs -> hasFlag flag value (f x) -> hasFlag flag value (flat_map f xs).
Proof.
  induction xs as [|y ys IH]; intros Hin Hx; [contradiction|].
  cbn [flat_map]. destruct Hin as [->|Hin].
  - apply hasFlag_append, Hx.
  - apply hasFlag_prepend, IH; assumption.
Qed.

Lemma hasFlag_pair (flag value : string) : hasFlag flag value [flag; value].
Proof. exists [], []. reflexivity. Qed.

Lemma issuedGrows_refl (s : Session) : issuedGrows s s.
Proof. exists []. symmetry. apply app_nil_r. Qed.

Lemma issuedGrows_trans (s1 s2 s3 : Session) :
  issuedGrows s1 s2 -> issuedGrows s2 s3 -> issuedGrows s1 s3.
Proof.
  intros [a Ha] [b Hb]. exists (a ++ b)%list. rewrite Hb, Ha, app_assoc. reflexivity.
Qed.

Lemma issuedGrows_spawned (c : command) (s : Session) : issuedGrows s (spawned c s).
Proof. exists [c]. reflexivity. Qed.

Lemma grows_updateStore (f : Store -> Store) : Keeps issuedGrows (updateStore f).
Proof. intros s. exists []. symmetry. apply app_nil_r. Qed.

Lemma grows_alert (msg : string) : Keeps issuedGrows (alert msg).
Proof. intros s. exists []. symmetry. apply app_nil_r. Qed.

Lemma grows_setVersionInfo (updater : VersionInfo.t -> outcome VersionInfo.t) :
  Keeps issuedGrows (setVersionInfo updater).
Proof.
  intros s. unfold setVersionInfo.
  destruct (updater _); exists []; symmetry; apply app_nil_r.
Qed.

Ltac grows :=
  repeat first
    [ apply keeps_ret; exact issuedGrows_refl
    | apply keeps_lift; exact issuedGrows_refl
    | apply keeps_spawnAs; exact issuedGrows_spawned
    | apply grows_updateStore
    | apply grows_alert
    | apply grows_setVersionInfo
    | apply keeps_bind; [exact issuedGrows_trans | | intros ?]
    | apply keeps_tryCatch; [exact issuedGrows_trans | | intros ?]
    | match goal with
      | |- Keeps _ (if ?b then _ else _) => destruct b
      | |- Keeps _ (match ?x with _ => _ end) => destruct x
      end ].

Section Growing.

Variable respond : list command -> command -> option string.
Variable JSON_parse : string -> option json.
Variable hostname : string.
Variable revised : revision.

Lemma refreshStatus_grows (rendered : Store) :
  Keeps issuedGrows (refreshStatus respond JSON_parse hostname rendered).
Proof.
  unfold refreshStatus, checkDockerStatus, checkSystemdStatus, checkBirdNetGoStatus,
    probeHealth, fetchHealthStatus, spawn, setLoading, setDockerStatus,
    setSystemdStatus, setContainerStatus, setHealthStatus.
  grows.
Qed.

Lemma checkForUpdates_grows (rendered : Store) :
  Keeps issuedGrows (checkForUpdates respond JSON_parse revised rendered).
Proof.
  unfold checkForUpdates, checkForUpdatesBody, checkNightly, checkStable, spawn.
  grows. intros s. apply issuedGrows_refl.
Qed.

End Growing.

Section Upgrading.

Variable respond : list command -> command -> option string.
Variable JSON_parse : string -> option json.
Variable hostname : string.
Variable revised : revision.

Lemma upgrade_issues_launch
  (rendered : Store) (s : Session) (containerId imageName configJson : string)
  (pulled stopped removed : string) (parsed config : json) (args : list string) :
  let cPull := Command ["docker"; "pull"; imageName] false in
  let cStop := Command ["docker"; "stop"; containerId] false in
  let cInspect := Command ["docker"; "inspect"; containerId] false in
  let cRm := Command ["docker"; "rm"; containerId] false in
  DockerStatus.available (dockerStatus rendered) = true ->
  DockerStatus.running (dockerStatus rendered) = true ->
  SystemdStatus.exists_ (systemdStatus rendered) = false ->
  ContainerStatus.containerId (containerStatus rendered) = Some containerId ->
  containerId <> "" ->
  upgradeImage rendered = Done imageName ->
  respond (issued s) cPull = Some pulled ->
  respond (issued s ++ [cPull]) cStop = Some stopped ->
  respond (issued s ++ [cPull; cStop]) cInspect = Some configJson ->
  JSON_parse configJson = Some parsed ->
  Json.first parsed = Done (Some config) ->
  respond (issued s ++ [cPull; cStop; cInspect]) cRm = Some removed ->
  createArgs (Some config) imageName = Done args ->
  exists more,
    issued (snd (upgradeBirdNetGo respond JSON_parse hostname revised rendered s)) =
    (issued s ++ [cPull; cStop; cInspect; cRm; Command args false] ++ more)%list.
Proof.
  intros cPull cStop cInspect cRm Ha Hr Hs Hid Hne Himg Hpull Hstop Hinsp Hparse Hfirst Hrm Hargs.
  pose proof (@refreshStatus_grows respond JSON_parse hostname rendered) as Hrefresh.
  pose proof (@checkForUpdates_grows respond JSON_parse revised rendered) as Hcheck.
  unfold upgradeBirdNetGo, tryFinally, bind at 1.
  cbn [setUpgrading updateStore modify].
  unfold tryCatch, bind at 1.
  rewrite Ha, Hr. cbn [negb]. unfold lift at 1. rewrite Himg.
  unfold bind at 1. unfold spawn at 1. unfold spawnAs. cbn [issued].
  fold cPull. rewrite Hpull.
  rewrite Hs, Hid. apply String.eqb_neq in Hne. rewrite Hne. cbn [negb].
  unfold bind at 1. unfold recreateContainer.
  unfold bind at 1. unfold spawn at 1. unfold spawnAs. cbn [issued spawned].
  fold cStop. rewrite Hstop.
  unfold bind at 1. unfold spawn at 1. unfold spawnAs. cbn [issued spawned].
  rewrite <- !app_assoc. cbn [app]. fold cInspect. rewrite Hinsp.
  unfold bind at 1. unfold lift at 1, parse. rewrite Hparse.
  unfold bind at 1. unfold lift at 1. rewrite Hfirst.
  unfold bind at 1. unfold spawn at 1. unfold spawnAs. cbn [issued spawned].
  rewrite <- !app_assoc. cbn [app]. fold cRm. rewrite Hrm.
  unfold bind at 1. unfold lift at 1. rewrite Hargs.
  unfold bind at 1. unfold spawn at 1. unfold spawnAs. cbn [issued spawned].
  rewrite <- !app_assoc. cbn [app].
  set (launched := spawned {| argv := args; superuser := false |} _).
  assert (Hl : issued launched =
               (issued s ++ [cPull; cStop; cInspect; cRm; Command args false])%list).
  { unfold launched. cbn [issued spawned]. rewrite <- !app_assoc. reflexivity. }
  assert (Htail : Keeps issuedGrows
                    (refreshStatus respond JSON_parse hostname rendered;;
                     checkForUpdates respond JSON_parse revised rendered)).
  { apply keeps_bind; [exact issuedGrows_trans | exact Hrefresh | intros _; exact Hcheck]. }
  destruct (respond _ {| argv := args; superuser := false |}) as [out|].
  - unfold ret. specialize (Htail launched).
    destruct ((refreshStatus respond JSON_parse hostname rendered;;
               checkForUpdates respond JSON_parse revised rendered) launched)
      as [[a|e] s'] eqn:E; destruct Htail as [more Hmore]; cbn [snd] in Hmore;
      exists more; cbn [snd issued alert modify]; rewrite Hmore, Hl, <- app_assoc;
      reflexivity.
  - exists []. cbn [snd issued alert modify]. rewrite Hl. reflexivity.
Qed.

(** C5.  For a container managed without a system service, once the
    image is pulled and the old container stopped, inspected and removed,
    [upgradeBirdNetGo] spawns [docker run] with the argument list built
    from the inspect record: for every configuration that record
    carries, the list has a [-p host:container] entry for every host
    port bound, a [-v source:destination] entry for every mount of type
    bind, and a [-e] entry for every environment variable that starts
    with neither [PATH=] nor [HOME=]; no variable that starts with one
    of them is passed on. *)
Theorem upgrade_preserves_configuration
  (rendered : Store) (s : Session) (containerId imageName configJson : string)
  (pulled stopped removed : string) (parsed config : json) (c : Inspect.t) :
  let cPull := Command ["docker"; "pull"; imageName] false in
  let cStop := Command ["docker"; "stop"; containerId] false in
  let cInspect := Command ["docker"; "inspect"; containerId] false in
  let cRm := Command ["docker"; "rm"; containerId] false in
  let args := launchArgs c imageName in
  DockerStatus.available (dockerStatus rendered) = true ->
  DockerStatus.running (dockerStatus rendered) = true ->
  SystemdStatus.exists_ (systemdStatus rendered) = false ->
  ContainerStatus.containerId (containerStatus rendered) = Some containerId ->
  containerId <> "" ->
  upgradeImage rendered = Done imageName ->
  respond (issued s) cPull = Some pulled ->
  respond (issued s ++ [cPull]) cStop = Some stopped ->
  respond (issued s ++ [cPull; cStop]) cInspect = Some configJson ->
  JSON_parse configJson = Some parsed ->
  Json.first parsed = Done (Some config) ->
  describes config c ->
  respond (issued s ++ [cPull; cStop; cInspect]) cRm = Some removed ->
  createArgs (Some config) imageName = Done args /\
  (exists more,
     issued (snd (upgradeBirdNetGo respond JSON_parse hostname revised rendered s)) =
     (issued s ++ [cPull; cStop; cInspect; cRm; Command args false] ++ more)%list) /\
  (forall port hostPorts hostPort,
     In (port, hostPorts) (Inspect.PortBindings c) ->
     In hostPort hostPorts ->
     hasFlag "-p" (hostPort ++ ":" ++ portOf port) args) /\
  (forall m,
     In m (Inspect.Mounts c) ->
     Inspect.Type_ m = "bind" ->
     hasFlag "-v" (Inspect.Source m ++ ":" ++ Inspect.Destination m) args) /\
  (forall env,
     In env (Inspect.Env c) ->
     Str.startsWith env "PATH=" = false ->
     Str.startsWith env "HOME=" = false ->
     hasFlag "-e" env args) /\
  (forall env,
     In env (flat_map envFlags (Inspect.Env c)) ->
     Str.startsWith env "PATH=" = false /\ Str.startsWith env "HOME=" = false).
Proof.
  intros cPull cStop cInspect cRm args Ha Hr Hs Hid Hne Himg Hpull Hstop Hinsp Hparse
         Hfirst Hdesc Hrm.
  pose proof (createArgs_describes imageName Hdesc) as Hargs. fold args in Hargs.
  split; [exact Hargs|]. split.
  { eapply upgrade_issues_launch; eassumption. }
  unfold args, launchArgs. split; [|split; [|split]].
  - intros port hostPorts hostPort Hp Hh.
    apply hasFlag_prepend, hasFlag_append.
    apply (hasFlag_flat_map portFlags (port, hostPorts) _ Hp).
    unfold portFlags. cbn [fst snd].
    apply (hasFlag_flat_map _ hostPort _ Hh). apply hasFlag_pair.
  - intros m Hm Ht.
    apply hasFlag_prepend, hasFlag_prepend, hasFlag_append.
    apply (hasFlag_flat_map mountFlags m _ Hm).
    unfold mountFlags. rewrite Ht. apply hasFlag_pair.
  - intros env He Hp Hh.
    apply hasFlag_prepend, hasFlag_prepend, hasFlag_prepend, hasFlag_append.
    apply (hasFlag_flat_map envFlags env _ He).
    unfold envFlags. rewrite Hp, Hh. apply hasFlag_pair.
  - intros env He. apply in_flat_map in He as [e [_ He]].
    unfold envFlags in He.
    destruct (Str.startsWith e "PATH=") eqn:Ep; [contradiction|].
    destruct (Str.startsWith e "HOME=") eqn:Eh; [contradiction|].
    cbn [negb andb] in He. destruct He as [<- | [<- | []]].
    + split; reflexivity.
    + split; assumption.
Qed.

End Upgrading.

Example createArgs_inspected :
  createArgs (Some Sample.inspected) "ghcr.io/tphakala/birdnet-go:nightly-20250901" =
  Done ["docker"; "run"; "-d"; "--name"; "birdnet-go"; "--restart"; "unless-stopped";
        "-p"; "8080:8080"; "-v"; "/data:/data"; "-e"; "FOO=bar";
        "ghcr.io/tphakala/birdnet-go:nightly-20250901"].
Proof. reflexivity. Qed.

Lemma describes_inspected : describes Sample.inspected Sample.configuration.
Proof.
  split; [reflexivity|]. split; [|split].
  - eexists. split; [reflexivity|]. left. eexists. split; [reflexivity|].
    constructor; [|constructor]. split; [reflexivity|]. right.
    eexists. split; [reflexivity|]. constructor; [reflexivity | constructor].
  - eexists. eexists. split; [reflexivity|]. split; [left; reflexivity|].
    constructor; [|constructor]. repeat split.
  - eexists. split; [reflexivity|]. left. reflexivity.
Qed.

Lemma upgrade_preserves_configuration_witness :
  let image := "ghcr.io/tphakala/birdnet-go:nightly-20250901" in
  let args :=
    ["docker"; "run"; "-d"; "--name"; "birdnet-go"; "--restart"; "unless-stopped";
     "-p"; "8080:8080"; "-v"; "/data:/data"; "-e"; "FOO=bar"; image] in
  hasFlag "-p" "8080:8080" args /\
  hasFlag "-v" "/data:/data" args /\
  hasFlag "-e" "FOO=bar" args /\
  exists more,
    issued (snd (upgradeBirdNetGo Sample.upgradeHost
                   (Sample.tableParse [JArr [Sample.inspected]]) "localhost" AppTsx
                   Sample.upgradeStore (startSession Sample.upgradeStore))) =
    ([Command ["docker"; "pull"; image] false;
      Command ["docker"; "stop"; "abc123"] false;
      Command ["docker"; "inspect"; "abc123"] false;
      Command ["docker"; "rm"; "abc123"] false;
      Command args false] ++ more)%list.
Proof.
  cbv zeta.
  destruct (@upgrade_preserves_configuration
              Sample.upgradeHost (Sample.tableParse [JArr [Sample.inspected]])
              "localhost" AppTsx Sample.upgradeStore (startSession Sample.upgradeStore)
              "abc123" "ghcr.io/tphakala/birdnet-go:nightly-20250901"
              (Json.stringify (JArr [Sample.inspected]))
              "pulled" "abc123" "abc123" (JArr [Sample.inspected])
              Sample.inspected Sample.configuration)
    as [_ [Hrun [Hp [Hv [He _]]]]].
  - reflexivity.
  - reflexivity.
  - reflexivity.
  - reflexivity.
  - discriminate.
  - reflexivity.
  - reflexivity.
  - reflexivity.
  - reflexivity.
  - reflexivity.
  - reflexivity.
  - exact describes_inspected.
  - reflexivity.
  - split; [|split; [|split]].
    + apply (Hp "8080/tcp" ["8080"] "8080"); left; reflexivity.
    + apply (Hv (Inspect.BuildMount "bind" "/data" "/data")); [left|]; reflexivity.
    + apply (He "FOO=bar"); [left| |]; reflexivity.
    + exact Hrun.
Defined.

(** ** The records the probes leave *)

Section Records.

Variable respond : list command -> command -> option string.
Variable JSON_parse : string -> option json.
Variable hostname : string.

Let cVersion := Command cmdDockerVersion false.
Let cActive := Command cmdDockerActive false.
Let cListUnit := Command cmdListUnit false.
Let cIsEnabled := Command cmdIsEnabled false.
Let cIsActive := Command cmdIsActive false.
Let cImages := Command cmdImages false.
Let cHealth := Command (cmdHealth "2" hostname) false.
Let cPs := Command cmdPs false.

(** X1.  Whatever the host answers, the record [checkDockerStatus] stores
    is consistent: [running] implies [available], the version is set
    exactly when the engine is available, and the engine is available
    exactly when both the version check and the service check ran to the
    end. *)
Theorem checkDockerStatus_consistent (s : Session) :
  let docker := dockerStatus (store (snd (checkDockerStatus respond s))) in
  (DockerStatus.running docker = true -> DockerStatus.available docker = true) /\
  (DockerStatus.available docker = true <-> exists v, DockerStatus.version docker = Some v) /\
  (DockerStatus.available docker = true <->
   exists v a,
     respond (issued s) cVersion = Some v /\
     respond (issued s ++ [cVersion]) cActive = Some a).
Proof.
  cbv zeta.
  unfold checkDockerStatus, tryCatch, bind, spawn, spawnAs. fold cVersion cActive.
  destruct (respond (issued s) cVersion) as [v|] eqn:Ev.
  - cbn [issued spawned].
    destruct (respond (issued s ++ [cVersion]) cActive) as [a|] eqn:Ea;
      cbn [setDockerStatus updateStore modify snd store dockerStatus withDockerStatus
           DockerStatus.running DockerStatus.available DockerStatus.version].
    + split; [reflexivity|]. split; split; intros _; eauto.
    + split; [discriminate|]. split; split; try discriminate.
      * intros [x Hx]. discriminate Hx.
      * intros [x [y [_ Hy]]]. discriminate Hy.
  - cbn [setDockerStatus updateStore modify snd store dockerStatus withDockerStatus
         DockerStatus.running DockerStatus.available DockerStatus.version].
    split; [discriminate|]. split; split; try discriminate.
    + intros [x Hx]. discriminate Hx.
    + intros [x [y [Hx _]]]. discriminate Hx.
Qed.

(** X2.  Whatever the host answers, the record [checkSystemdStatus]
    stores is consistent: [running] and [enabled] each imply [exists],
    the status text is set exactly when the unit exists, and the unit
    counts as running exactly when that text is [active]. *)
Theorem checkSystemdStatus_consistent (s : Session) :
  let unit := systemdStatus (store (snd (checkSystemdStatus respond s))) in
  (SystemdStatus.running unit = true -> SystemdStatus.exists_ unit = true) /\
  (SystemdStatus.enabled unit = true -> SystemdStatus.exists_ unit = true) /\
  (SystemdStatus.exists_ unit = true <-> exists text, SystemdStatus.status unit = Some text) /\
  (SystemdStatus.running unit = true <-> SystemdStatus.status unit = Some "active").
Proof.
  cbv zeta.
  unfold checkSystemdStatus, tryCatch, bind, spawn, spawnAs, ret.
  destruct (respond (issued s) _) as [files|].
  - destruct (Str.includes files "birdnet-go.service").
    + destruct (respond (issued (spawned _ s)) _) as [e|];
        destruct (respond _ _) as [a|];
        cbn [setSystemdStatus updateStore modify snd store systemdStatus withSystemdStatus
             SystemdStatus.running SystemdStatus.enabled SystemdStatus.exists_
             SystemdStatus.status];
        (split; [reflexivity|]); (split; [reflexivity|]);
        (split; [split; intros _; eauto|]).
      * split; intros H; [apply String.eqb_eq in H; rewrite H; reflexivity|].
        injection H as H. rewrite H. reflexivity.
      * split; discriminate.
      * split; intros H; [apply String.eqb_eq in H; rewrite H; reflexivity|].
        injection H as H. rewrite H. reflexivity.
      * split; discriminate.
    + cbn. split; [discriminate|]. split; [discriminate|].
      split; split; try discriminate. intros [x Hx]. discriminate Hx.
  - cbn. split; [discriminate|]. split; [discriminate|].
    split; split; try discriminate. intros [x Hx]. discriminate Hx.
Qed.

(** X3.  When the unit-file listing does not name the unit,
    [checkSystemdStatus] stops there: that listing is the only command
    it spawns (the enabled and active states are never queried) and the
    record is the default one. *)
Theorem checkSystemdStatus_short_circuit (s : Session) (files : string) :
  respond (issued s) cListUnit = Some files ->
  Str.includes files "birdnet-go.service" = false ->
  checkSystemdStatus respond s = setSystemdStatus noSystemd (spawned cListUnit s).
Proof.
  intros Hl Hi.
  unfold checkSystemdStatus, tryCatch, bind, spawn, spawnAs. fold cListUnit.
  rewrite Hl, Hi. reflexivity.
Qed.

(** X4.  Whatever the host answers, the record [checkBirdNetGoStatus]
    stores is consistent: [running] implies [exists], a container id is
    only set on a container that exists, and the status text is set
    exactly when the container exists. *)
Theorem checkBirdNetGoStatus_consistent (s : Session) :
  let container :=
    containerStatus (store (snd (checkBirdNetGoStatus respond JSON_parse hostname s))) in
  (ContainerStatus.running container = true -> ContainerStatus.exists_ container = true) /\
  ((exists id, ContainerStatus.containerId container = Some id) ->
   ContainerStatus.exists_ container = true) /\
  (ContainerStatus.exists_ container = true <->
   exists text, ContainerStatus.status container = Some text).
Proof.
  cbv zeta.
  assert (Hno : forall present,
    let c := ContainerStatus.Build false false present None None in
    (ContainerStatus.running c = true -> ContainerStatus.exists_ c = true) /\
    ((exists id, ContainerStatus.containerId c = Some id) -> ContainerStatus.exists_ c = true) /\
    (ContainerStatus.exists_ c = true <-> exists text, ContainerStatus.status c = Some text)).
  { intros present. cbn. split; [discriminate|]. split.
    - intros [id H]. discriminate H.
    - split; [discriminate | intros [t H]; discriminate H]. }
  assert (Hyes : forall run present id text,
    let c := ContainerStatus.Build true run present id (Some text) in
    (ContainerStatus.running c = true -> ContainerStatus.exists_ c = true) /\
    ((exists i, ContainerStatus.containerId c = Some i) -> ContainerStatus.exists_ c = true) /\
    (ContainerStatus.exists_ c = true <-> exists t, ContainerStatus.status c = Some t)).
  { intros run present id text. cbn. split; [reflexivity|]. split; [reflexivity|].
    split; intros _; eauto. }
  unfold checkBirdNetGoStatus, tryCatch, bind, spawn, spawnAs.
  destruct (respond (issued s) _) as [images|]; [|exact (Hno false)].
  destruct (probeHealth_run respond JSON_parse hostname
              (spawned {| argv := cmdImages; superuser := false |} s)) as [b ->].
  destruct (respond _ {| argv := cmdPs; superuser := false |}) as [containers|];
    [|exact (Hno false)].
  destruct (negb (String.eqb (Str.trim containers) "")).
  - unfold lift.
    destruct (findM isBirdnetContainer _) as [[line|]|]; [| |exact (Hno false)].
    + destruct (nth_error (Str.split "|" line) 2) as [status|];
        [exact (Hyes _ _ _ _) | exact (Hno false)].
    + destruct b; [exact (Hyes _ _ _ _) | exact (Hno _)].
  - destruct b; [exact (Hyes _ _ _ _) | exact (Hno _)].
Qed.

End Records.

(** ** The engine's word when the application does not answer *)

Section Fallback.

Variable respond : list command -> command -> option string.
Variable JSON_parse : string -> option json.
Variable hostname : string.

Let cImages := Command cmdImages false.
Let cHealth := Command (cmdHealth "2" hostname) false.
Let cPs := Command cmdPs false.

Lemma probeHealth_down (s : Session) :
  respond (issued s) cHealth = None \/ respond (issued s) cHealth = Some "" ->
  probeHealth respond JSON_parse hostname s = (Done false, spawned cHealth s).
Proof.
  intros H.
  unfold probeHealth, tryCatch, bind, spawn, spawnAs, lift, ret. fold cHealth.
  destruct H as [-> | ->]; reflexivity.
Qed.

(** X5.  When the health check fails or prints nothing while both
    listings succeed, the engine decides: on the first line of a
    well-formed listing that names a BirdNET-Go container, [running] is
    whether its status field starts with [Up], and its id and status are
    stored; with no such line, or an empty listing, the record says that
    no container exists. *)
Theorem engine_decides_without_health (s : Session) (images containers : string) :
  respond (issued s) cImages = Some images ->
  respond (issued s ++ [cImages]) cHealth = None \/
  respond (issued s ++ [cImages]) cHealth = Some "" ->
  respond (issued s ++ [cImages; cHealth]) cPs = Some containers ->
  wellFormedListing containers ->
  let present := Str.includes images "ghcr.io/tphakala/birdnet-go" in
  let lines := Str.split Str.newline (Str.trim containers) in
  exists record,
    checkBirdNetGoStatus respond JSON_parse hostname s =
    setContainerStatus record (spawned cPs (spawned cHealth (spawned cImages s))) /\
    ((record = ContainerStatus.Build false false present None None /\
      (Str.trim containers = "" \/ findM isBirdnetContainer lines = Done None)) \/
     exists line id image status rest,
       findM isBirdnetContainer lines = Done (Some line) /\
       Str.split "|" line = id :: image :: status :: rest /\
       record = ContainerStatus.Build true (Str.startsWith status "Up") present
                                      (Some id) (Some status)).
Proof.
  intros Hi Hh Hc Hw present lines.
  unfold checkBirdNetGoStatus, tryCatch, bind.
  unfold spawn at 1. unfold spawnAs. fold cImages. rewrite Hi.
  rewrite (@probeHealth_down (spawned cImages s)); [|exact Hh].
  unfold spawn, spawnAs. fold cPs. cbn [issued spawned].
  rewrite <- app_assoc. cbn [app]. rewrite Hc. fold present.
  destruct (String.eqb (Str.trim containers) "") eqn:E; cbn [negb].
  - apply String.eqb_eq in E. eexists. split; [reflexivity|].
    left. split; [reflexivity | left; exact E].
  - destruct Hw as [He | Hw]; [rewrite He in E; discriminate E|].
    unfold lift. fold lines in Hw |- *.
    destruct (findM_listing Hw) as [found [Hf Hin]]. rewrite Hf.
    destruct found as [line|].
    + rewrite Forall_forall in Hw. specialize (Hw line Hin).
      destruct (Str.split "|" line) as [|id [|image [|status rest]]] eqn:El;
        cbn [List.length] in Hw; try lia.
      cbn [nth_error orb]. eexists. split; [reflexivity|].
      right. exists line, id, image, status, rest. repeat split; exact El.
    + eexists. split; [reflexivity|]. left. split; [reflexivity | right; reflexivity].
Qed.

(** A listing whose images all belong to editor containers names no
    BirdNET-Go container, whatever the containers are called. *)
Lemma findM_editor_containers (lines : list string) :
  Forall (fun line => exists id image rest,
            Str.split "|" line = id :: image :: rest /\
            Str.startsWith image "vsc-" = true) lines ->
  findM isBirdnetContainer lines = Done None.
Proof.
  induction 1 as [|line lines [id [image [rest [Hs Hv]]]] _ IH]; [reflexivity|].
  cbn [findM]. unfold isBirdnetContainer at 1. rewrite Hs. cbn [nth_error].
  rewrite Hv. cbn [obind]. exact IH.
Qed.

(** X6.  Editor containers are never taken for the application: when the
    health check does not answer and every line of the listing carries an
    image that starts with [vsc-], the record says that no container
    exists, even for a container named [birdnet-go]. *)
Theorem editor_containers_are_ignored (s : Session) (images containers : string) :
  respond (issued s) cImages = Some images ->
  respond (issued s ++ [cImages]) cHealth = None \/
  respond (issued s ++ [cImages]) cHealth = Some "" ->
  respond (issued s ++ [cImages; cHealth]) cPs = Some containers ->
  Forall (fun line => exists id image rest,
            Str.split "|" line = id :: image :: rest /\
            Str.startsWith image "vsc-" = true)
         (Str.split Str.newline (Str.trim containers)) ->
  checkBirdNetGoStatus respond JSON_parse hostname s =
  setContainerStatus
    (ContainerStatus.Build false false (Str.includes images "ghcr.io/tphakala/birdnet-go")
                           None None)
    (spawned cPs (spawned cHealth (spawned cImages s))).
Proof.
  intros Hi Hh Hc Hv.
  unfold checkBirdNetGoStatus, tryCatch, bind.
  unfold spawn at 1. unfold spawnAs. fold cImages. rewrite Hi.
  rewrite (@probeHealth_down (spawned cImages s)); [|exact Hh].
  unfold spawn, spawnAs. fold cPs. cbn [issued spawned].
  rewrite <- app_assoc. cbn [app]. rewrite Hc.
  destruct (String.eqb (Str.trim containers) ""); cbn [negb]; [reflexivity|].
  unfold lift. rewrite (findM_editor_containers Hv). reflexivity.
Qed.

End Fallback.

(** ** The cards and their buttons *)

Ltac in_buttons H :=
  repeat (destruct H as [H|H]; [try (inversion H; subst; clear H) |]);
  try contradiction.

Ltac pick_button := solve [repeat (first [left; reflexivity | right])].

(** X7.  Exactly one manager is offered for control: when the unit
    exists no button of the actions card acts on the container or the
    image, and when it does not exist no button acts on the unit. *)
Theorem controls_follow_the_manager (restarting : bool) (st : Store) (a : action) :
  offers a (serviceControls restarting st) ->
  (SystemdStatus.exists_ (systemdStatus st) = true -> isContainerAction a = false) /\
  (SystemdStatus.exists_ (systemdStatus st) = false -> isServiceAction a = false).
Proof.
  intros [disabled H]. unfold serviceControls, shown in H.
  destruct (SystemdStatus.exists_ (systemdStatus st));
    (split; intros E; [try discriminate E | try discriminate E]); clear E;
    cbn [negb] in H.
  - destruct (SystemdStatus.running (systemdStatus st));
      destruct (SystemdStatus.enabled (systemdStatus st));
      destruct (ContainerStatus.running (containerStatus st));
      cbn in H; in_buttons H; reflexivity.
  - destruct (ContainerStatus.exists_ (containerStatus st));
      destruct (ContainerStatus.running (containerStatus st));
      destruct (ContainerStatus.imagePresent (containerStatus st));
      destruct (DockerStatus.available (dockerStatus st));
      destruct (SystemdStatus.running (systemdStatus st));
      cbn in H; in_buttons H; reflexivity.
Qed.

Lemma controls_follow_the_manager_witness :
  isContainerAction StopService = false.
Proof.
  refine (proj1 (@controls_follow_the_manager false
                   (withSystemdStatus (SystemdStatus.Build true true true (Some "active"))
                                      initialStore)
                   StopService _) eq_refl).
  exists false. cbn. right. left. reflexivity.
Defined.

(** X8.  Start and stop are never offered together, for the unit or for
    the container; the refresh button is always there; and when the unit
    exists exactly one of start and stop is offered for it, next to the
    restart. *)
Theorem controls_start_or_stop (restarting : bool) (st : Store) :
  let buttons := serviceControls restarting st in
  ~ (offers StartService buttons /\ offers StopService buttons) /\
  ~ (offers StartContainer buttons /\ offers StopContainer buttons) /\
  offers RefreshStatus buttons /\
  (SystemdStatus.exists_ (systemdStatus st) = true ->
   offers RestartService buttons /\
   (offers StartService buttons \/ offers StopService buttons)).
Proof.
  cbv zeta. unfold serviceControls, shown, offers.
  destruct (SystemdStatus.exists_ (systemdStatus st));
    destruct (SystemdStatus.running (systemdStatus st));
    destruct (SystemdStatus.enabled (systemdStatus st));
    destruct (ContainerStatus.exists_ (containerStatus st));
    destruct (ContainerStatus.running (containerStatus st));
    destruct (ContainerStatus.imagePresent (containerStatus st));
    destruct (DockerStatus.available (dockerStatus st));
    cbn;
    (split; [intros [[d1 H1] [d2 H2]]; in_buttons H1; in_buttons H2|]);
    (split; [intros [[d1 H1] [d2 H2]]; in_buttons H1; in_buttons H2|]);
    (split; [exists false; left; reflexivity|]);
    intros E; try discriminate E;
    (split; [exists false; pick_button |]);
    first [solve [left; exists false; pick_button]
          | solve [right; exists false; pick_button]].
Qed.

Lemma controls_without_container (restarting : bool) (st : Store) :
  SystemdStatus.exists_ (systemdStatus st) = false ->
  SystemdStatus.running (systemdStatus st) = false ->
  containerStatus st = ContainerStatus.Build false false true None None ->
  serviceControls restarting st =
  [Button RefreshStatus false;
   Button CreateContainer (negb (DockerStatus.running (dockerStatus st)))].
Proof.
  intros He Hr Hc. unfold serviceControls, shown. rewrite He, Hr, Hc. reflexivity.
Qed.

(** X9.  On a host without a unit whose engine lists the image and no
    container, and whose application does not answer, the probe records
    [{exists: false, running: false, imagePresent: true}] and the
    actions card then offers the refresh and [Create Container] and
    nothing else, the creation being enabled exactly when the engine
    runs. *)
Theorem only_creation_is_offered
  (respond : list command -> command -> option string)
  (JSON_parse : string -> option json) (hostname : string)
  (restarting : bool) (s : Session) (images containers : string) :
  let cImages := Command cmdImages false in
  let cHealth := Command (cmdHealth "2" hostname) false in
  let cPs := Command cmdPs false in
  SystemdStatus.exists_ (systemdStatus (store s)) = false ->
  SystemdStatus.running (systemdStatus (store s)) = false ->
  respond (issued s) cImages = Some images ->
  Str.includes images "ghcr.io/tphakala/birdnet-go" = true ->
  respond (issued s ++ [cImages])%list cHealth = None \/
  respond (issued s ++ [cImages])%list cHealth = Some "" ->
  respond (issued s ++ [cImages; cHealth])%list cPs = Some containers ->
  Str.trim containers = "" ->
  let after := store (snd (checkBirdNetGoStatus respond JSON_parse hostname s)) in
  containerStatus after = ContainerStatus.Build false false true None None /\
  serviceControls restarting after =
  [Button RefreshStatus false;
   Button CreateContainer (negb (DockerStatus.running (dockerStatus (store s))))].
Proof.
  intros cImages cHealth cPs He Hr Hi Hp Hh Hc Ht after.
  assert (Hrun :
    checkBirdNetGoStatus respond JSON_parse hostname s =
    setContainerStatus (ContainerStatus.Build false false true None None)
                       (spawned cPs (spawned cHealth (spawned cImages s)))).
  { unfold checkBirdNetGoStatus, tryCatch, bind.
    unfold spawn at 1. unfold spawnAs. fold cImages. rewrite Hi, Hp.
    rewrite (@probeHealth_down respond JSON_parse hostname (spawned cImages s));
      [|exact Hh].
    unfold spawn, spawnAs. fold cPs. cbn [issued spawned].
    rewrite <- app_assoc. cbn [app]. fold cHealth. rewrite Hc, Ht. reflexivity. }
  unfold after. rewrite Hrun. split; [reflexivity|].
  etransitivity; [apply controls_without_container; [exact He | exact Hr | reflexivity]|].
  reflexivity.
Qed.

(** X10.  The status card is green exactly when the unit exists and
    runs, or, without a unit, when image and container are there and
    the container runs; whenever it is green the web interface button is
    offered and the text is one of the two [running] messages. *)
Theorem green_card_means_running (gettext : string -> string) (restarting : bool) (st : Store) :
  (getContainerStatusVariant st = "success" <->
   (SystemdStatus.exists_ (systemdStatus st) = true /\
    SystemdStatus.running (systemdStatus st) = true) \/
   (SystemdStatus.exists_ (systemdStatus st) = false /\
    ContainerStatus.imagePresent (containerStatus st) = true /\
    ContainerStatus.exists_ (containerStatus st) = true /\
    ContainerStatus.running (containerStatus st) = true)) /\
  (getContainerStatusVariant st = "success" ->
   offers OpenWebInterface (serviceControls restarting st) /\
   (getContainerStatusText gettext st = gettext "BirdNET-Go service running (systemd)" \/
    getContainerStatusText gettext st = gettext "BirdNET-Go container running")).
Proof.
  unfold getContainerStatusVariant, getContainerStatusText, serviceControls, shown, offers.
  destruct (SystemdStatus.exists_ (systemdStatus st));
    destruct (SystemdStatus.running (systemdStatus st));
    destruct (SystemdStatus.enabled (systemdStatus st));
    destruct (ContainerStatus.imagePresent (containerStatus st));
    destruct (ContainerStatus.exists_ (containerStatus st));
    destruct (ContainerStatus.running (containerStatus st));
    destruct (DockerStatus.available (dockerStatus st));
    cbn [negb andb orb app];
    repeat match goal with
           | |- _ /\ _ => split
           | |- _ <-> _ => split
           | |- _ -> _ => intros ?
           end;
    try discriminate;
    try match goal with
        | H : _ \/ _ |- _ =>
            destruct H as [[? ?]|[? [? [? ?]]]]; discriminate
        end;
    try reflexivity;
    try (exists false; pick_button);
    try (left; split; reflexivity);
    try (right; repeat split; reflexivity);
    try (left; reflexivity);
    try (right; reflexivity).
Qed.

Lemma checkSystemdStatus_short_circuit_witness :
  checkSystemdStatus Hosts.freshHost (startSession initialStore) =
  setSystemdStatus noSystemd
    (spawned (Command cmdListUnit false) (startSession initialStore)).
Proof.
  apply (@checkSystemdStatus_short_circuit Hosts.freshHost (startSession initialStore)
           "0 unit files listed."); reflexivity.
Defined.

Lemma engine_decides_without_health_witness :
  exists record,
    checkBirdNetGoStatus Hosts.startingHost (fun _ => None) "localhost"
                         (startSession initialStore) =
    setContainerStatus record
      (spawned (Command cmdPs false)
         (spawned (Command (cmdHealth "2" "localhost") false)
            (spawned (Command cmdImages false) (startSession initialStore)))).
Proof.
  destruct (@engine_decides_without_health Hosts.startingHost (fun _ => None) "localhost"
              (startSession initialStore)
              "ghcr.io/tphakala/birdnet-go:nightly"
              "abc123|ghcr.io/tphakala/birdnet-go:nightly|Up 2 seconds|birdnet-go")
    as [record [Hrun _]].
  - reflexivity.
  - left. reflexivity.
  - reflexivity.
  - right. vm_compute. repeat constructor.
  - exists record. exact Hrun.
Defined.

Lemma editor_containers_are_ignored_witness :
  checkBirdNetGoStatus Hosts.editorHost (fun _ => None) "localhost"
                       (startSession initialStore) =
  setContainerStatus (ContainerStatus.Build false false false None None)
    (spawned (Command cmdPs false)
       (spawned (Command (cmdHealth "2" "localhost") false)
          (spawned (Command cmdImages false) (startSession initialStore)))).
Proof.
  apply (@editor_containers_are_ignored Hosts.editorHost (fun _ => None) "localhost"
           (startSession initialStore)
           "vsc-birdnet-go-1234:latest"
           "f00|vsc-birdnet-go-1234|Up 3 hours|birdnet-go").
  - reflexivity.
  - left. reflexivity.
  - reflexivity.
  - assert (Hs : Str.split Str.newline (Str.trim "f00|vsc-birdnet-go-1234|Up 3 hours|birdnet-go")
                 = ["f00|vsc-birdnet-go-1234|Up 3 hours|birdnet-go"])
      by (vm_compute; reflexivity).
    rewrite Hs. constructor; [|constructor].
    exists "f00", "vsc-birdnet-go-1234", ["Up 3 hours"; "birdnet-go"].
    split; vm_compute; reflexivity.
Defined.

Lemma only_creation_is_offered_witness :
  serviceControls false
    (store (snd (checkBirdNetGoStatus Hosts.freshHost (fun _ => None) "localhost"
                   (startSession initialStore)))) =
  [Button RefreshStatus false; Button CreateContainer true].
Proof.
  apply (@only_creation_is_offered Hosts.freshHost (fun _ => None) "localhost" false
           (startSession initialStore) "ghcr.io/tphakala/birdnet-go:nightly" "").
  - reflexivity.
  - reflexivity.
  - reflexivity.
  - reflexivity.
  - left. reflexivity.
  - reflexivity.
  - reflexivity.
Defined.

(** ** Promises that settle, commands that only read *)

Lemma settles_modify (f : Session -> Session) : Settles (modify f).
Proof. intros s. exists tt. reflexivity. Qed.

Lemma settles_ret {A : Type} (a : A) : Settles (ret a).
Proof. intros s. exists a. reflexivity. Qed.

Lemma settles_setVersionInfo (updater : VersionInfo.t -> outcome VersionInfo.t) :
  Settles (setVersionInfo updater).
Proof.
  intros s. exists tt. unfold setVersionInfo. destruct (updater _); reflexivity.
Qed.

Lemma settles_bind {A B : Type} (m : Async A) (k : A -> Async B) :
  Settles m -> (forall a, Settles (k a)) -> Settles (bind m k).
Proof.
  intros Hm Hk s. unfold bind. destruct (Hm s) as [a Ha].
  destruct (m s) as [r s']. cbn [fst] in Ha. subst r. apply Hk.
Qed.

Lemma settles_tryCatch {A : Type} (body : Async A) (handler : jserror -> Async A) :
  (forall e, Settles (handler e)) -> Settles (tryCatch body handler).
Proof.
  intros Hh s. unfold tryCatch.
  destruct (body s) as [[a|e] s']; [exists a; reflexivity | apply Hh].
Qed.

Lemma settles_tryFinally {A : Type} (body : Async A) (final : Session -> Session) :
  Settles body -> Settles (tryFinally body final).
Proof.
  intros Hb s. unfold tryFinally. destruct (Hb s) as [a Ha].
  destruct (body s) as [r s']. exists a. exact Ha.
Qed.

(** A procedure that settles hands over to what follows it. *)
Lemma bind_settled {A B : Type} (m : Async A) (k : A -> Async B) (s : Session) :
  Settles m -> exists a, bind m k s = k a (snd (m s)).
Proof.
  intros Hm. unfold bind. destruct (Hm s) as [a Ha].
  destruct (m s) as [r s']. cbn [fst] in Ha. subst r. exists a. reflexivity.
Qed.

Lemma tryCatch_settled {A : Type} (body : Async A) (handler : jserror -> Async A)
      (s : Session) :
  Settles body -> tryCatch body handler s = body s.
Proof.
  intros Hb. unfold tryCatch. destruct (Hb s) as [a Ha].
  destruct (body s) as [r s']. cbn [fst] in Ha. subst r. reflexivity.
Qed.

Ltac settles :=
  repeat first
    [ apply settles_modify
    | apply settles_ret
    | apply settles_setVersionInfo
    | apply settles_tryCatch; intros ?
    | apply settles_tryFinally
    | apply settles_bind; [| intros ?]
    | match goal with
      | |- Settles (if ?b then _ else _) => destruct b
      | |- Settles (match ?x with _ => _ end) => destruct x
      end ].

Lemma issuedOnly_refl (P : command -> Prop) (s : Session) : issuedOnly P s s.
Proof. exists []. split; [symmetry; apply app_nil_r | constructor]. Qed.

Lemma issuedOnly_trans (P : command -> Prop) (s1 s2 s3 : Session) :
  issuedOnly P s1 s2 -> issuedOnly P s2 s3 -> issuedOnly P s1 s3.
Proof.
  intros [a [Ha Pa]] [b [Hb Pb]]. exists (a ++ b)%list. split.
  - rewrite Hb, Ha, app_assoc. reflexivity.
  - apply Forall_app. split; assumption.
Qed.

Lemma only_spawnAs (P : command -> Prop)
      (respond : list command -> command -> option string) (su : bool) (args : list string) :
  P (Command args su) -> Keeps (issuedOnly P) (spawnAs respond su args).
Proof.
  intros H s. unfold spawnAs.
  destruct (respond _ _); exists [Command args su];
    (split; [reflexivity | constructor; [exact H | constructor]]).
Qed.

Lemma only_updateStore (P : command -> Prop) (f : Store -> Store) :
  Keeps (issuedOnly P) (updateStore f).
Proof. intros s. exists []. split; [symmetry; apply app_nil_r | constructor]. Qed.

Lemma only_alert (P : command -> Prop) (msg : string) : Keeps (issuedOnly P) (alert msg).
Proof. intros s. exists []. split; [symmetry; apply app_nil_r | constructor]. Qed.

Lemma only_setVersionInfo (P : command -> Prop)
      (updater : VersionInfo.t -> outcome VersionInfo.t) :
  Keeps (issuedOnly P) (setVersionInfo updater).
Proof.
  intros s. unfold setVersionInfo.
  destruct (updater _); exists []; (split; [symmetry; apply app_nil_r | constructor]).
Qed.

(** [spawning] proves that the command at hand is an allowed one. *)
Ltac within spawning :=
  repeat first
    [ apply keeps_ret; apply issuedOnly_refl
    | apply keeps_lift; apply issuedOnly_refl
    | apply only_spawnAs; spawning
    | apply only_updateStore
    | apply only_alert
    | apply only_setVersionInfo
    | apply keeps_bind; [apply issuedOnly_trans | | intros ?]
    | apply keeps_tryCatch; [apply issuedOnly_trans | | intros ?]
    | match goal with
      | |- Keeps _ (if ?b then _ else _) => destruct b
      | |- Keeps _ (match ?x with _ => _ end) => destruct x
      end ].

Ltac listed_command := solve [repeat (first [left; reflexivity | right])].

Lemma sameAlerts_refl (s : Session) : sameAlerts s s.
Proof. reflexivity. Qed.

Lemma sameAlerts_trans (s1 s2 s3 : Session) :
  sameAlerts s1 s2 -> sameAlerts s2 s3 -> sameAlerts s1 s3.
Proof. unfold sameAlerts. congruence. Qed.

Lemma sameAlerts_spawned (c : command) (s : Session) : sameAlerts s (spawned c s).
Proof. reflexivity. Qed.

Lemma sameAlerts_updateStore (f : Store -> Store) : Keeps sameAlerts (updateStore f).
Proof. intros s. reflexivity. Qed.

Lemma sameAlerts_setVersionInfo (updater : VersionInfo.t -> outcome VersionInfo.t) :
  Keeps sameAlerts (setVersionInfo updater).
Proof. intros s. unfold setVersionInfo. destruct (updater _); reflexivity. Qed.

Ltac quiet :=
  repeat first
    [ apply keeps_ret; exact sameAlerts_refl
    | apply keeps_lift; exact sameAlerts_refl
    | apply keeps_spawnAs; exact sameAlerts_spawned
    | apply sameAlerts_updateStore
    | apply sameAlerts_setVersionInfo
    | apply keeps_bind; [exact sameAlerts_trans | | intros ?]
    | apply keeps_tryCatch; [exact sameAlerts_trans | | intros ?]
    | match goal with
      | |- Keeps _ (if ?b then _ else _) => destruct b
      | |- Keeps _ (match ?x with _ => _ end) => destruct x
      end ].

Lemma sameVersionInfo_refl (s : Session) : sameVersionInfo s s.
Proof. reflexivity. Qed.

Lemma sameVersionInfo_trans (s1 s2 s3 : Session) :
  sameVersionInfo s1 s2 -> sameVersionInfo s2 s3 -> sameVersionInfo s1 s3.
Proof. unfold sameVersionInfo. congruence. Qed.

Lemma sameVersionInfo_spawned (c : command) (s : Session) :
  sameVersionInfo s (spawned c s).
Proof. reflexivity. Qed.

Section Refreshing.

Variable respond : list command -> command -> option string.
Variable JSON_parse : string -> option json.
Variable hostname : string.

Lemma checkDockerStatus_settles : Settles (checkDockerStatus respond).
Proof. unfold checkDockerStatus, setDockerStatus, updateStore. settles. Qed.

Lemma checkSystemdStatus_settles : Settles (checkSystemdStatus respond).
Proof. unfold checkSystemdStatus, setSystemdStatus, updateStore. settles. Qed.

Lemma checkBirdNetGoStatus_settles :
  Settles (checkBirdNetGoStatus respond JSON_parse hostname).
Proof. unfold checkBirdNetGoStatus, setContainerStatus, updateStore. settles. Qed.

Lemma fetchHealthStatus_settles (rendered : Store) :
  Settles (fetchHealthStatus respond JSON_parse hostname rendered).
Proof. unfold fetchHealthStatus, setHealthStatus, updateStore. settles. Qed.

Lemma refreshStatus_settles (rendered : Store) :
  Settles (refreshStatus respond JSON_parse hostname rendered).
Proof.
  unfold refreshStatus.
  repeat (apply settles_bind; [|intros ?]).
  - apply settles_modify.
  - apply checkDockerStatus_settles.
  - apply checkSystemdStatus_settles.
  - apply checkBirdNetGoStatus_settles.
  - apply fetchHealthStatus_settles.
  - apply settles_modify.
Qed.

(** The refresh ends in the health query and [setLoading(false)]. *)
Lemma refreshStatus_last (rendered : Store) (s : Session) :
  exists s',
    refreshStatus respond JSON_parse hostname rendered s =
    setLoading false (snd (fetchHealthStatus respond JSON_parse hostname rendered s')).
Proof.
  unfold refreshStatus.
  destruct (@bind_settled _ unit (setLoading true)
              (fun _ => checkDockerStatus respond ;; checkSystemdStatus respond ;;
                        checkBirdNetGoStatus respond JSON_parse hostname ;;
                        fetchHealthStatus respond JSON_parse hostname rendered ;;
                        setLoading false) s (settles_modify _)) as [a1 ->].
  destruct (@bind_settled _ unit (checkDockerStatus respond)
              (fun _ => checkSystemdStatus respond ;;
                        checkBirdNetGoStatus respond JSON_parse hostname ;;
                        fetchHealthStatus respond JSON_parse hostname rendered ;;
                        setLoading false) (snd (setLoading true s))
              checkDockerStatus_settles) as [a2 ->].
  destruct (@bind_settled _ unit (checkSystemdStatus respond)
              (fun _ => checkBirdNetGoStatus respond JSON_parse hostname ;;
                        fetchHealthStatus respond JSON_parse hostname rendered ;;
                        setLoading false)
              (snd (checkDockerStatus respond (snd (setLoading true s))))
              checkSystemdStatus_settles) as [a3 ->].
  destruct (@bind_settled _ unit (checkBirdNetGoStatus respond JSON_parse hostname)
              (fun _ => fetchHealthStatus respond JSON_parse hostname rendered ;;
                        setLoading false)
              (snd (checkSystemdStatus respond
                      (snd (checkDockerStatus respond (snd (setLoading true s))))))
              checkBirdNetGoStatus_settles) as [a4 ->].
  destruct (@bind_settled _ unit (fetchHealthStatus respond JSON_parse hostname rendered)
              (fun _ => setLoading false)
              (snd (checkBirdNetGoStatus respond JSON_parse hostname
                      (snd (checkSystemdStatus respond
                              (snd (checkDockerStatus respond (snd (setLoading true s))))))))
              (fetchHealthStatus_settles rendered)) as [a5 ->].
  eexists. reflexivity.
Qed.

Lemma refreshStatus_only_probes (rendered : Store) :
  Keeps (issuedOnly (isProbe hostname)) (refreshStatus respond JSON_parse hostname rendered).
Proof.
  unfold refreshStatus, checkDockerStatus, checkSystemdStatus, checkBirdNetGoStatus,
    probeHealth, fetchHealthStatus, spawn, setLoading, setDockerStatus,
    setSystemdStatus, setContainerStatus, setHealthStatus.
  within ltac:(split; [reflexivity | cbn [argv probeCommands In]; listed_command]).
Qed.

Lemma refreshStatus_quiet (rendered : Store) :
  Keeps sameAlerts (refreshStatus respond JSON_parse hostname rendered).
Proof.
  unfold refreshStatus, checkDockerStatus, checkSystemdStatus, checkBirdNetGoStatus,
    probeHealth, fetchHealthStatus, spawn, setLoading, setDockerStatus,
    setSystemdStatus, setContainerStatus, setHealthStatus.
  quiet.
Qed.

(** X11.  A refresh never rejects, ends with the loading flag lowered,
    shows no alert, and spawns nothing but unprivileged commands out of
    the nine read-only probes: it never starts, stops, creates or pulls
    anything. *)
Theorem refreshStatus_only_reads (rendered : Store) (s : Session) :
  let after := snd (refreshStatus respond JSON_parse hostname rendered s) in
  fst (refreshStatus respond JSON_parse hostname rendered s) = Done tt /\
  loading (store after) = false /\
  alerts after = alerts s /\
  exists more,
    issued after = (issued s ++ more)%list /\
    Forall (fun c => superuser c = false /\ In (argv c) (probeCommands hostname)) more.
Proof.
  cbv zeta. split; [|split; [|split]].
  - destruct (refreshStatus_settles rendered s) as [[] H]. exact H.
  - destruct (refreshStatus_last rendered s) as [s' ->]. reflexivity.
  - apply refreshStatus_quiet.
  - apply refreshStatus_only_probes.
Qed.

End Refreshing.

(** ** The health query *)

Lemma sameVersionInfo_updateStore (f : Store -> Store) :
  (forall st, versionInfo (f st) = versionInfo st) ->
  Keeps sameVersionInfo (updateStore f).
Proof. intros H s. apply H. Qed.

Ltac same_info :=
  repeat first
    [ apply keeps_ret; exact sameVersionInfo_refl
    | apply keeps_lift; exact sameVersionInfo_refl
    | apply keeps_spawnAs; exact sameVersionInfo_spawned
    | apply sameVersionInfo_updateStore; intros ?; reflexivity
    | apply keeps_bind; [exact sameVersionInfo_trans | | intros ?]
    | apply keeps_tryCatch; [exact sameVersionInfo_trans | | intros ?]
    | match goal with
      | |- Keeps _ (if ?b then _ else _) => destruct b
      | |- Keeps _ (match ?x with _ => _ end) => destruct x
      end ].

Section Health.

Variable respond : list command -> command -> option string.
Variable JSON_parse : string -> option json.
Variable hostname : string.

Let cQuery := Command (cmdHealth "5" hostname) false.

Lemma fetchHealthStatus_stale (rendered : Store) :
  ContainerStatus.running (containerStatus rendered) = false ->
  SystemdStatus.running (systemdStatus rendered) = false ->
  fetchHealthStatus respond JSON_parse hostname rendered = setHealthStatus JNull.
Proof. intros Hc Hs. unfold fetchHealthStatus. rewrite Hc, Hs. reflexivity. Qed.

(** X12.  The health query of a refresh is decided by the render the
    refresh was started from, not by what its own probes have just found:
    started from a render in which nothing runs (the first one, for
    instance), the refresh never spawns the health query, leaves the
    health status [null] and the version information as it was. *)
Theorem stale_render_skips_health (rendered : Store) (s : Session) :
  ContainerStatus.running (containerStatus rendered) = false ->
  SystemdStatus.running (systemdStatus rendered) = false ->
  let after := snd (refreshStatus respond JSON_parse hostname rendered s) in
  healthStatus (store after) = JNull /\
  versionInfo (store after) = versionInfo (store s) /\
  exists more, issued after = (issued s ++ more)%list /\ ~ In cQuery more.
Proof.
  intros Hc Hs. cbv zeta. split; [|split].
  - destruct (refreshStatus_last respond JSON_parse hostname rendered s) as [s' ->].
    rewrite (fetchHealthStatus_stale rendered Hc Hs). reflexivity.
  - assert (K : Keeps sameVersionInfo (refreshStatus respond JSON_parse hostname rendered)).
    { unfold refreshStatus. rewrite (fetchHealthStatus_stale rendered Hc Hs).
      unfold checkDockerStatus, checkSystemdStatus, checkBirdNetGoStatus,
        probeHealth, spawn, setLoading, setDockerStatus,
        setSystemdStatus, setContainerStatus, setHealthStatus.
      same_info. }
    apply K.
  - assert (K : Keeps (issuedOnly (fun c => c <> cQuery))
                      (refreshStatus respond JSON_parse hostname rendered)).
    { unfold refreshStatus. rewrite (fetchHealthStatus_stale rendered Hc Hs).
      unfold checkDockerStatus, checkSystemdStatus, checkBirdNetGoStatus,
        probeHealth, spawn, setLoading, setDockerStatus,
        setSystemdStatus, setContainerStatus, setHealthStatus.
      within ltac:(unfold cQuery; intros H; injection H as H; vm_compute in H;
                   discriminate H). }
    destruct (K s) as [more [Hm Hf]]. exists more. split; [exact Hm|].
    intros Hin. rewrite Forall_forall in Hf. exact (Hf _ Hin eq_refl).
Qed.

(** X13.  From a render in which the container or the unit runs, the
    health query stores an object payload as the health status and takes
    [current] and [buildDate] from its [version] and [build_date] fields,
    erasing them when the payload lacks the field; a payload [null] is
    stored and its updater throws once React runs it, outside the [try];
    a query that fails, prints nothing or prints no JSON leaves the
    health status [null] and the version information as it was. *)
Theorem fetchHealthStatus_outcome (rendered : Store) (s : Session) :
  ContainerStatus.running (containerStatus rendered) = true \/
  SystemdStatus.running (systemdStatus rendered) = true ->
  let run := fetchHealthStatus respond JSON_parse hostname rendered s in
  (forall result fields,
     respond (issued s) cQuery = Some result -> result <> "" ->
     JSON_parse result = Some (JObj fields) ->
     run =
     updateStore
       (fun st =>
          withVersionInfo
            (Update.health (Json.assoc "version" fields) (Json.assoc "build_date" fields)
                           (versionInfo st))
            (withHealthStatus (JObj fields) st))
       (spawned cQuery s)) /\
  (forall result,
     respond (issued s) cQuery = Some result -> result <> "" ->
     JSON_parse result = Some JNull ->
     fst run = Done tt /\
     healthStatus (store (snd run)) = JNull /\
     versionInfo (store (snd run)) = versionInfo (store s) /\
     updaterError (snd run) = Some TypeError) /\
  (respond (issued s) cQuery = None \/
   respond (issued s) cQuery = Some "" \/
   (exists result, respond (issued s) cQuery = Some result /\ JSON_parse result = None) ->
   run = setHealthStatus JNull (spawned cQuery s)).
Proof.
  intros Hrun. cbv zeta.
  assert (Hg : negb (ContainerStatus.running (containerStatus rendered)) &&
               negb (SystemdStatus.running (systemdStatus rendered)) = false).
  { destruct Hrun as [-> | ->]; [reflexivity|].
    destruct (ContainerStatus.running _); reflexivity. }
  unfold fetchHealthStatus. rewrite Hg.
  unfold tryCatch, bind, spawn, spawnAs, lift, parse. fold cQuery.
  split; [|split].
  - intros result fields Hr Hne Hp. rewrite Hr.
    apply String.eqb_neq in Hne. rewrite Hne. cbn [negb]. rewrite Hp. reflexivity.
  - intros result Hr Hne Hp. rewrite Hr.
    apply String.eqb_neq in Hne. rewrite Hne. cbn [negb]. rewrite Hp.
    repeat split.
  - intros [Hr | [Hr | [result [Hr Hp]]]]; rewrite Hr; try reflexivity.
    destruct (String.eqb result ""); cbn [negb]; [reflexivity|].
    rewrite Hp. reflexivity.
Qed.

End Health.

Lemma stale_render_skips_health_witness :
  healthStatus
    (store (snd (refreshStatus Sample.stoppedHost (Sample.tableParse [Sample.healthy])
                   "localhost" initialStore (startSession initialStore)))) = JNull.
Proof.
  apply (@stale_render_skips_health Sample.stoppedHost (Sample.tableParse [Sample.healthy])
           "localhost" initialStore (startSession initialStore)); reflexivity.
Defined.

Lemma fetchHealthStatus_outcome_witness :
  fetchHealthStatus Hosts.healthHost (Sample.tableParse [Hosts.payload]) "localhost"
                    Hosts.containerStore (startSession Hosts.containerStore) =
  updateStore
    (fun st =>
       withVersionInfo
         (Update.health (Some (JStr "v1.2.3")) (Some (JStr "2025-06-01T00:00:00Z"))
                        (versionInfo st))
         (withHealthStatus Hosts.payload st))
    (spawned (Command (cmdHealth "5" "localhost") false)
             (startSession Hosts.containerStore)).
Proof.
  refine (proj1 (@fetchHealthStatus_outcome Hosts.healthHost
                   (Sample.tableParse [Hosts.payload]) "localhost"
                   Hosts.containerStore (startSession Hosts.containerStore)
                   (or_introl eq_refl))
                (Json.stringify Hosts.payload) _ eq_refl _ eq_refl).
  vm_compute. discriminate.
Defined.

(** ** What a button does *)

Section Buttons.

Variable respond : list command -> command -> option string.
Variable JSON_parse : string -> option json.
Variable hostname : string.

Lemma spawnThenRefresh_run (su : bool) (args : list string) (rendered : Store) (s : Session) :
  spawnThenRefresh respond JSON_parse hostname su args rendered s =
  match respond (issued s) (Command args su) with
  | Some _ => refreshStatus respond JSON_parse hostname rendered (spawned (Command args su) s)
  | None => (Done tt, spawned (Command args su) s)
  end.
Proof.
  unfold spawnThenRefresh, tryCatch, bind, spawnAs.
  destruct (respond (issued s) (Command args su)); [|reflexivity].
  destruct (refreshStatus_settles respond JSON_parse hostname rendered
              (spawned (Command args su) s)) as [a Ha].
  destruct (refreshStatus _ _ _ _ _) as [[u|e] s']; [reflexivity | discriminate Ha].
Qed.

Lemma onContainer_without_id (verb : string) (rendered : Store) (s : Session) :
  ContainerStatus.containerId (containerStatus rendered) = None \/
  ContainerStatus.containerId (containerStatus rendered) = Some "" ->
  onContainer respond JSON_parse hostname verb rendered s = (Done tt, s).
Proof. intros [H|H]; unfold onContainer; rewrite H; reflexivity. Qed.

Lemma handler_run (a : action) (rendered : Store) (c : command) (s : Session) :
  commandOf a rendered = Some c ->
  handler respond JSON_parse hostname a rendered s =
  match respond (issued s) c with
  | Some _ => refreshStatus respond JSON_parse hostname rendered (spawned c s)
  | None => (Done tt, spawned c s)
  end.
Proof.
  intros Hc.
  destruct a; cbn [commandOf] in Hc; try discriminate Hc;
    cbn [handler];
    unfold startSystemdService, stopSystemdService, restartSystemdService,
      enableSystemdService, startContainer, stopContainer, restartContainer,
      createContainer, pullImage, onContainer;
    try (injection Hc as <-; apply spawnThenRefresh_run);
    destruct (ContainerStatus.containerId (containerStatus rendered)) as [id|];
    try discriminate Hc;
    destruct (String.eqb id ""); try discriminate Hc;
    injection Hc as <-; apply spawnThenRefresh_run.
Qed.

(** X14.  The start, stop and restart of the container do nothing at all
    without a container id: no command, no refresh, no message.  The
    card nevertheless offers the stop, enabled, and the restart for an
    application that was only found through its health endpoint, whose
    record exists and runs without an id. *)
Theorem container_buttons_need_an_id (restarting : bool) (rendered : Store) :
  ContainerStatus.containerId (containerStatus rendered) = None \/
  ContainerStatus.containerId (containerStatus rendered) = Some "" ->
  (forall a s,
     a = StartContainer \/ a = StopContainer \/ a = RestartContainer ->
     handler respond JSON_parse hostname a rendered s = (Done tt, s)) /\
  (SystemdStatus.exists_ (systemdStatus rendered) = false ->
   ContainerStatus.exists_ (containerStatus rendered) = true ->
   ContainerStatus.running (containerStatus rendered) = true ->
   In (Button StopContainer false) (serviceControls restarting rendered) /\
   offers RestartContainer (serviceControls restarting rendered)).
Proof.
  intros Hid. split.
  - intros a s [-> | [-> | ->]]; apply onContainer_without_id; exact Hid.
  - intros Hu He Hr. unfold serviceControls, shown, offers. rewrite Hu, He, Hr.
    cbn [negb andb orb app]. split.
    + right. left. reflexivity.
    + eexists. right. right. left. reflexivity.
Qed.

(** X15.  Every other button spawns exactly one command, with privileges
    exactly when it acts on the unit, and refreshes only when that
    command succeeded; when it failed nothing else happens: no refresh,
    no message, and the stored state stays as it was. *)
Theorem handler_runs_its_command (a : action) (rendered : Store) (c : command) (s : Session) :
  commandOf a rendered = Some c ->
  superuser c = isServiceAction a /\
  (forall out, respond (issued s) c = Some out ->
     handler respond JSON_parse hostname a rendered s =
     refreshStatus respond JSON_parse hostname rendered (spawned c s)) /\
  (respond (issued s) c = None ->
     handler respond JSON_parse hostname a rendered s = (Done tt, spawned c s)).
Proof.
  intros Hc. split; [|split].
  - destruct a; cbn [commandOf] in Hc; try discriminate Hc;
      try (injection Hc as <-; reflexivity);
      destruct (ContainerStatus.containerId (containerStatus rendered)) as [id|];
      try discriminate Hc;
      destruct (String.eqb id ""); try discriminate Hc;
      injection Hc as <-; reflexivity.
  - intros out Hr. rewrite (@handler_run a rendered c s Hc), Hr. reflexivity.
  - intros Hr. rewrite (@handler_run a rendered c s Hc), Hr. reflexivity.
Qed.

(** X16.  No button ever rejects or shows an alert, and what it spawns is
    its own command, if it has one, followed by read-only probes only. *)
Theorem handler_footprint (a : action) (rendered : Store) (s : Session) :
  let after := snd (handler respond JSON_parse hostname a rendered s) in
  fst (handler respond JSON_parse hostname a rendered s) = Done tt /\
  alerts after = alerts s /\
  exists more,
    issued after =
    (issued s ++ match commandOf a rendered with Some c => [c] | None => [] end ++ more)%list /\
    Forall (fun c => superuser c = false /\ In (argv c) (probeCommands hostname)) more.
Proof.
  cbv zeta.
  assert (Hrefresh : forall s0,
    fst (refreshStatus respond JSON_parse hostname rendered s0) = Done tt /\
    alerts (snd (refreshStatus respond JSON_parse hostname rendered s0)) = alerts s0 /\
    exists more,
      issued (snd (refreshStatus respond JSON_parse hostname rendered s0)) =
      (issued s0 ++ more)%list /\
      Forall (fun c => superuser c = false /\ In (argv c) (probeCommands hostname)) more).
  { intros s0. split; [|split].
    - destruct (refreshStatus_settles respond JSON_parse hostname rendered s0) as [[] H].
      exact H.
    - apply refreshStatus_quiet.
    - apply refreshStatus_only_probes. }
  assert (Hnone : commandOf a rendered = None ->
                  a = RefreshStatus \/
                  handler respond JSON_parse hostname a rendered s = (Done tt, s)).
  { intros Hc. destruct a; cbn [commandOf] in Hc; try discriminate Hc;
      try (left; reflexivity); right; try reflexivity;
      cbn [handler]; unfold startContainer, stopContainer, restartContainer;
      apply onContainer_without_id;
      destruct (ContainerStatus.containerId (containerStatus rendered)) as [id|];
      try (left; reflexivity);
      destruct (String.eqb id "") eqn:E; try discriminate Hc;
      apply String.eqb_eq in E; rewrite E; right; reflexivity. }
  destruct (commandOf a rendered) as [c|] eqn:Hc.
  - rewrite (@handler_run a rendered c s Hc).
    destruct (respond (issued s) c) as [out|].
    + destruct (Hrefresh (spawned c s)) as [Hd [Ha [more [Hi Hf]]]].
      split; [exact Hd|]. split; [exact Ha|].
      exists more. split; [|exact Hf].
      rewrite Hi. cbn [issued spawned]. rewrite <- app_assoc. reflexivity.
    + split; [reflexivity|]. split; [reflexivity|].
      exists []. split; [reflexivity | constructor].
  - destruct (Hnone eq_refl) as [-> | ->].
    + cbn [handler]. exact (Hrefresh s).
    + split; [reflexivity|]. split; [reflexivity|].
      exists []. split; [symmetry; apply app_nil_r | constructor].
Qed.

End Buttons.

Lemma container_buttons_need_an_id_witness :
  handler Sample.nativeHost (fun _ => None) "localhost" StopContainer initialStore
          (startSession initialStore) = (Done tt, startSession initialStore).
Proof.
  apply (proj1 (@container_buttons_need_an_id Sample.nativeHost (fun _ => None) "localhost"
                  false initialStore (or_introl eq_refl))).
  right. left. reflexivity.
Defined.

Lemma handler_runs_its_command_witness :
  handler Sample.nativeHost (fun _ => None) "localhost" StopContainer Hosts.containerStore
          (startSession Hosts.containerStore) =
  (Done tt, spawned (Command ["docker"; "stop"; "abc123"] false)
                    (startSession Hosts.containerStore)).
Proof.
  apply (@handler_runs_its_command Sample.nativeHost (fun _ => None) "localhost"
           StopContainer Hosts.containerStore
           (Command ["docker"; "stop"; "abc123"] false)
           (startSession Hosts.containerStore) eq_refl).
  reflexivity.
Defined.

(** ** Update checks that find nothing to read *)

Lemma split_lacks (c : ascii) (s : string) : lacks c s = true -> Str.split c s = [s].
Proof.
  induction s as [|d s IH]; [reflexivity|].
  cbn [lacks Str.split]. intros H. apply andb_prop in H. destruct H as [Hd Hs].
  apply negb_true_iff in Hd. rewrite Hd, (IH Hs). reflexivity.
Qed.

Lemma split_app (c : ascii) (x rest : string) :
  lacks c x = true -> Str.split c (x ++ String c rest) = x :: Str.split c rest.
Proof.
  induction x as [|d x IH].
  - intros _. cbn [append Str.split]. rewrite Ascii.eqb_refl. reflexivity.
  - cbn [lacks append Str.split]. intros H. apply andb_prop in H. destruct H as [Hd Hs].
    apply negb_true_iff in Hd. rewrite Hd, (IH Hs). reflexivity.
Qed.

Lemma lacks_app (c : ascii) (a b : string) :
  lacks c (a ++ b) = lacks c a && lacks c b.
Proof.
  induction a as [|d a IH]; [reflexivity|].
  cbn [append lacks]. rewrite IH. apply andb_assoc.
Qed.

Lemma append_empty (s : string) : s ++ "" = s.
Proof. induction s as [|c s IH]; [reflexivity|]. cbn [append]. rewrite IH. reflexivity. Qed.

Lemma orZero_Num (z : Z) : Number.orZero (Num z) = Num z.
Proof.
  unfold Number.orZero, Number.truthy.
  destruct (Z.eqb_spec z 0) as [->|]; reflexivity.
Qed.

(** A release number of three components is read as their weighted sum. *)
Lemma parseVersion_components (x y z : string) (a b c : Z) :
  component x a -> component y b -> component z c ->
  parseVersion (x ++ "." ++ y ++ "." ++ z) = Num (a * 10000 + b * 100 + c).
Proof.
  intros [Hx [_ [Pa _]]] [Hy [_ [Pb _]]] [Hz [_ [Pc _]]].
  unfold parseVersion.
  change (x ++ "." ++ y ++ "." ++ z) with (x ++ String "." (y ++ String "." z)).
  rewrite (@split_app _ _ _ Hx), (@split_app _ _ _ Hy), (@split_lacks _ _ Hz).
  cbn [map nth_error Number.ofElement]. rewrite Pa, Pb, Pc, !orZero_Num.
  reflexivity.
Qed.

Section Checking.

Variable respond : list command -> command -> option string.
Variable JSON_parse : string -> option json.
Variable revised : revision.

Let cRegistry := Command cmdRegistry false.
Let cReleases := Command cmdReleases false.

(** The session in which the check spawns its request. *)
Let pending (s : Session) : Session :=
  snd (setVersionInfo (fun prev => Done (Update.checking revised prev)) s).

(** X17.  On a nightly build a registry request that fails, prints no
    JSON, or prints JSON that is not an array (the error object of a rate
    limit, for instance) is not reported as an error: the check ends with
    the development-build notice, no update available, and the
    [latestNightly] and [nightlyTags] it had. *)
Theorem nightly_check_falls_back (rendered : Store) (s : Session) (current : string) :
  currentOf revised rendered s = Some (JStr current) ->
  Str.includes (Str.removeFirst "v" current) "nightly" = true ->
  respond (issued s) cRegistry = None \/
  (exists text, respond (issued s) cRegistry = Some text /\ text <> "" /\
     (JSON_parse text = None \/
      exists v, JSON_parse text = Some v /\ forall items, v <> JArr items)) ->
  let prev := versionInfo (store s) in
  let after := versionInfo (store (snd (checkForUpdates respond JSON_parse revised rendered s))) in
  checkForUpdates respond JSON_parse revised rendered s =
  setVersionInfo (fun prev => Done (Update.development prev)) (spawned cRegistry (pending s)) /\
  after = Update.development (Update.checking revised prev) /\
  VersionInfo.updateAvailable after = Some false /\
  VersionInfo.checkingUpdate after = Some false /\
  VersionInfo.updateError after =
    match revised with AppTsx => None | Later => VersionInfo.updateError prev end /\
  VersionInfo.latestNightly after = VersionInfo.latestNightly prev /\
  VersionInfo.nightlyTags after = VersionInfo.nightlyTags prev.
Proof.
  intros Hcur Hn Hfail. cbv zeta.
  assert (Hrun :
    checkForUpdates respond JSON_parse revised rendered s =
    setVersionInfo (fun prev => Done (Update.development prev))
                   (spawned cRegistry (pending s))).
  { unfold checkForUpdates, bind at 1.
    cbn [setVersionInfo updateStore modify fst snd].
    unfold tryCatch, checkForUpdatesBody, bind, readCurrent, lift.
    cbn [versionInfoRef store].
    unfold currentOf in Hcur. rewrite Hcur. cbn [Json.asStringOpt option_map]. rewrite Hn.
    unfold checkNightly, tryCatch, bind, spawn, spawnAs, lift, parse.
    cbn [issued]. fold cRegistry.
    destruct Hfail as [Hr | [text [Hr [Hne Hp]]]]; rewrite Hr; [reflexivity|].
    apply String.eqb_neq in Hne. rewrite Hne. cbn [negb].
    destruct Hp as [Hp | [v [Hp Hv]]]; rewrite Hp; [reflexivity|].
    unfold scanVersions.
    destruct v as [| | | |items| |]; try reflexivity.
    exfalso. exact (Hv items eq_refl). }
  rewrite Hrun. split; [reflexivity|]. repeat split.
Qed.

(** X18.  A request that succeeds and prints nothing ends the check
    without another state update, on a nightly build as on a stable one:
    [checkingUpdate] stays true, so the check button stays disabled, and
    everything else is as it was before the check. *)
Theorem empty_response_keeps_checking (rendered : Store) (s : Session) (current : string) :
  currentOf revised rendered s = Some (JStr current) ->
  let request :=
    if Str.includes (Str.removeFirst "v" current) "nightly" then cRegistry else cReleases in
  respond (issued s) request = Some "" ->
  checkForUpdates respond JSON_parse revised rendered s = (Done tt, spawned request (pending s)) /\
  versionInfo (store (snd (checkForUpdates respond JSON_parse revised rendered s))) =
  Update.checking revised (versionInfo (store s)) /\
  VersionInfo.checkingUpdate
    (versionInfo (store (snd (checkForUpdates respond JSON_parse revised rendered s)))) =
  Some true.
Proof.
  intros Hcur request Hr.
  assert (Hrun :
    checkForUpdates respond JSON_parse revised rendered s =
    (Done tt, spawned request (pending s))).
  { unfold checkForUpdates, bind at 1.
    cbn [setVersionInfo updateStore modify fst snd].
    unfold tryCatch, checkForUpdatesBody, bind, readCurrent, lift.
    cbn [versionInfoRef store].
    unfold currentOf in Hcur. rewrite Hcur. cbn [Json.asStringOpt option_map].
    unfold request in *.
    destruct (Str.includes (Str.removeFirst "v" current) "nightly").
    - unfold checkNightly, tryCatch, bind, spawn, spawnAs, lift, parse.
      cbn [issued]. fold cRegistry. rewrite Hr. reflexivity.
    - unfold checkStable, tryCatch, bind, spawn, spawnAs, lift, parse.
      cbn [issued]. fold cReleases. rewrite Hr. reflexivity. }
  rewrite Hrun. repeat split.
Qed.

(** A stable check on a release that carries a tag name. *)
Lemma checkForUpdates_stable (rendered : Store) (s : Session) (current result tag : string)
      (fields : list (string * json)) :
  currentOf revised rendered s = Some (JStr current) ->
  Str.includes (Str.removeFirst "v" current) "nightly" = false ->
  respond (issued s) cReleases = Some result ->
  result <> "" ->
  JSON_parse result = Some (JObj fields) ->
  Json.assoc "tag_name" fields = Some (JStr tag) ->
  let latest := Str.removeFirst "v" tag in
  let cleanCurrent := hd EmptyString (Str.split "-" (Str.removeFirst "v" current)) in
  let available :=
    if negb (String.eqb latest "") && negb (String.eqb (Str.removeFirst "v" current) "")
    then Number.gt (parseVersion latest) (parseVersion cleanCurrent)
    else false in
  checkForUpdates respond JSON_parse revised rendered s =
  updateStore
    (fun st =>
       withVersionInfo
         (Update.stable (Some latest) available (Json.assoc "body" fields)
                        (Json.assoc "html_url" fields) (versionInfo st)) st)
    (spawned cReleases (pending s)).
Proof.
  intros Hcur Hn Hr Hne Hp Ht latest cleanCurrent available.
  unfold checkForUpdates, bind at 1.
  cbn [setVersionInfo updateStore modify fst snd].
  unfold tryCatch, checkForUpdatesBody, bind, readCurrent, lift.
  cbn [versionInfoRef store].
  unfold currentOf in Hcur. rewrite Hcur. cbn [Json.asStringOpt option_map]. rewrite Hn.
  unfold checkStable, tryCatch, bind, spawn, spawnAs, lift, parse.
  cbn [issued]. fold cReleases. rewrite Hr.
  apply String.eqb_neq in Hne. rewrite Hne. cbn [negb].
  rewrite Hp. cbn [Json.prop]. rewrite Ht. cbn [Json.asStringOpt option_map].
  reflexivity.
Qed.

(** X19.  On a stable build [vX.Y.Z], with or without a suffix after a
    hyphen, and a latest release tagged [vX'.Y'.Z'], every component
    below 100: the check stores [X'.Y'.Z'] as the latest release and
    reports an update exactly when the release number is greater in the
    order of release numbers. *)
Theorem stable_update_compares_releases
  (rendered : Store) (s : Session) (result : string) (fields : list (string * json))
  (x y z x' y' z' suffix : string) (a b c a' b' c' : Z) :
  component x a -> component y b -> component z c ->
  component x' a' -> component y' b' -> component z' c' ->
  suffix = "" \/ (exists rest, suffix = String "-" rest) ->
  let current := "v" ++ x ++ "." ++ y ++ "." ++ z ++ suffix in
  let tag := "v" ++ x' ++ "." ++ y' ++ "." ++ z' in
  currentOf revised rendered s = Some (JStr current) ->
  Str.includes (x ++ "." ++ y ++ "." ++ z ++ suffix) "nightly" = false ->
  respond (issued s) cReleases = Some result ->
  result <> "" ->
  JSON_parse result = Some (JObj fields) ->
  Json.assoc "tag_name" fields = Some (JStr tag) ->
  let after := versionInfo (store (snd (checkForUpdates respond JSON_parse revised rendered s))) in
  VersionInfo.latest after = Some (JStr (x' ++ "." ++ y' ++ "." ++ z')) /\
  VersionInfo.checkingUpdate after = Some false /\
  exists available,
    VersionInfo.updateAvailable after = Some available /\
    (available = true <-> olderRelease (a, b, c) (a', b', c')).
Proof.
  intros Cx Cy Cz Cx' Cy' Cz' Hsuffix current tag Hcur Hn Hr Hne Hp Ht after.
  assert (Hrm : Str.removeFirst "v" current = x ++ "." ++ y ++ "." ++ z ++ suffix)
    by reflexivity.
  assert (Hrm' : Str.removeFirst "v" tag = x' ++ "." ++ y' ++ "." ++ z') by reflexivity.
  assert (Hclean : hd EmptyString (Str.split "-" (x ++ "." ++ y ++ "." ++ z ++ suffix))
                   = x ++ "." ++ y ++ "." ++ z).
  { assert (Hl : lacks "-" (x ++ "." ++ y ++ "." ++ z) = true).
    { destruct Cx as [_ [Hx _]], Cy as [_ [Hy _]], Cz as [_ [Hz _]].
      rewrite !lacks_app, Hx, Hy, Hz. reflexivity. }
    destruct Hsuffix as [-> | [rest ->]].
    - rewrite (append_empty z), (@split_lacks _ _ Hl). reflexivity.
    - replace (x ++ "." ++ y ++ "." ++ z ++ String "-" rest)
        with ((x ++ "." ++ y ++ "." ++ z) ++ String "-" rest).
      + rewrite (@split_app _ _ _ Hl). reflexivity.
      + rewrite !append_assoc. reflexivity. }
  unfold after.
  rewrite (@checkForUpdates_stable rendered s current result tag fields
             Hcur (eq_trans (f_equal (fun v => Str.includes v "nightly") Hrm) Hn)
             Hr Hne Hp Ht).
  cbn [updateStore modify snd store versionInfo withVersionInfo Update.stable
       VersionInfo.latest VersionInfo.checkingUpdate VersionInfo.updateAvailable option_map].
  rewrite Hrm, Hrm', Hclean.
  split; [reflexivity|]. split; [reflexivity|].
  eexists. split; [reflexivity|].
  rewrite (parseVersion_components Cx Cy Cz), (parseVersion_components Cx' Cy' Cz').
  assert (E1 : String.eqb (x' ++ "." ++ y' ++ "." ++ z') "" = false).
  { apply String.eqb_neq. destruct x'; discriminate. }
  assert (E2 : String.eqb (x ++ "." ++ y ++ "." ++ z ++ suffix) "" = false).
  { apply String.eqb_neq. destruct x; discriminate. }
  rewrite E1, E2. cbn [negb andb Number.gt olderRelease].
  destruct Cx as [_ [_ [_ Ba]]], Cy as [_ [_ [_ Bb]]], Cz as [_ [_ [_ Bc]]],
           Cx' as [_ [_ [_ Ba']]], Cy' as [_ [_ [_ Bb']]], Cz' as [_ [_ [_ Bc']]].
  rewrite Z.ltb_lt. lia.
Qed.

End Checking.

Section Short.

Variable respond : list command -> command -> option string.
Variable JSON_parse : string -> option json.
Variable revised : revision.

Let cReleases := Command cmdReleases false.

(** X20.  A stable check never reports an update when the release number
    of the latest tag, or of the current build before its first hyphen,
    has fewer than three dot-separated components: the comparison is
    made on [NaN] and is false, whatever the numbers are. *)
Theorem short_versions_never_update
  (rendered : Store) (s : Session) (current result tag : string)
  (fields : list (string * json)) :
  currentOf revised rendered s = Some (JStr current) ->
  Str.includes (Str.removeFirst "v" current) "nightly" = false ->
  respond (issued s) cReleases = Some result ->
  result <> "" ->
  JSON_parse result = Some (JObj fields) ->
  Json.assoc "tag_name" fields = Some (JStr tag) ->
  List.length (Str.split "." (Str.removeFirst "v" tag)) < 3 \/
  List.length
    (Str.split "." (hd EmptyString (Str.split "-" (Str.removeFirst "v" current)))) < 3 ->
  let after := versionInfo (store (snd (checkForUpdates respond JSON_parse revised rendered s))) in
  VersionInfo.updateAvailable after = Some false /\
  VersionInfo.latest after = Some (JStr (Str.removeFirst "v" tag)).
Proof.
  intros Hcur Hn Hr Hne Hp Ht Hshort after. unfold after.
  rewrite (@checkForUpdates_stable respond JSON_parse revised rendered s current result tag
             fields Hcur Hn Hr Hne Hp Ht).
  cbn [updateStore modify snd store versionInfo withVersionInfo Update.stable
       VersionInfo.latest VersionInfo.updateAvailable option_map].
  split; [|reflexivity]. f_equal.
  destruct (negb (String.eqb (Str.removeFirst "v" tag) "") &&
            negb (String.eqb (Str.removeFirst "v" current) "")); [|reflexivity].
  destruct Hshort as [H | H]; rewrite (parseVersion_short _ H).
  - reflexivity.
  - destruct (parseVersion (Str.removeFirst "v" tag)); reflexivity.
Qed.

End Short.

Lemma nightly_check_falls_back_witness :
  VersionInfo.updateAvailable
    (versionInfo
       (store (snd (checkForUpdates Hosts.rateLimitedHost
                      (Sample.tableParse [Hosts.rateLimited]) AppTsx
                      (Sample.nightlyStore Sample.nightlyBuild)
                      (startSession (Sample.nightlyStore Sample.nightlyBuild)))))) =
  Some false.
Proof.
  refine (proj1 (proj2 (proj2
    (@nightly_check_falls_back Hosts.rateLimitedHost
       (Sample.tableParse [Hosts.rateLimited]) AppTsx
       (Sample.nightlyStore Sample.nightlyBuild)
       (startSession (Sample.nightlyStore Sample.nightlyBuild))
       Sample.nightlyBuild eq_refl eq_refl _)))).
  right. exists (Json.stringify Hosts.rateLimited).
  split; [reflexivity|]. split; [vm_compute; discriminate|].
  right. exists Hosts.rateLimited. split; [reflexivity|].
  intros items H. discriminate H.
Defined.

Lemma empty_response_keeps_checking_witness :
  VersionInfo.checkingUpdate
    (versionInfo
       (store (snd (checkForUpdates Hosts.silentHost (fun _ => None) Later
                      Hosts.stableBuild (startSession Hosts.stableBuild))))) =
  Some true.
Proof.
  exact (proj2 (proj2
    (@empty_response_keeps_checking Hosts.silentHost (fun _ => None) Later
       Hosts.stableBuild (startSession Hosts.stableBuild) "v1.2.3-rc1"
       eq_refl eq_refl))).
Defined.

Lemma stable_update_compares_releases_witness :
  VersionInfo.latest
    (versionInfo
       (store (snd (checkForUpdates Hosts.releaseHost (Sample.tableParse [Hosts.release])
                      AppTsx Hosts.stableBuild (startSession Hosts.stableBuild))))) =
  Some (JStr "1.3.0").
Proof.
  assert (C : forall s n, lacks "." s = true -> lacks "-" s = true ->
                          Number.parseInt s = Num n -> (0 <= n < 100)%Z -> component s n).
  { intros s n A B C D. repeat split; try assumption; apply D. }
  refine (proj1
    (@stable_update_compares_releases Hosts.releaseHost (Sample.tableParse [Hosts.release])
       AppTsx Hosts.stableBuild (startSession Hosts.stableBuild)
       (Json.stringify Hosts.release)
       [("tag_name", JStr "v1.3.0"); ("body", JStr "Fixes");
        ("html_url", JStr "https://github.com/tphakala/birdnet-go/releases/tag/v1.3.0")]
       "1" "2" "3" "1" "3" "0" "-rc1" 1%Z 2%Z 3%Z 1%Z 3%Z 0%Z
       _ _ _ _ _ _ _ eq_refl eq_refl eq_refl _ eq_refl eq_refl));
    try (apply C; [reflexivity | reflexivity | reflexivity | lia]).
  - right. exists "rc1". reflexivity.
  - vm_compute. discriminate.
Defined.

Lemma short_versions_never_update_witness :
  VersionInfo.updateAvailable
    (versionInfo
       (store (snd (checkForUpdates Hosts.shortReleaseHost
                      (Sample.tableParse [Hosts.shortRelease])
                      AppTsx Hosts.stableBuild (startSession Hosts.stableBuild))))) =
  Some false.
Proof.
  refine (proj1
    (@short_versions_never_update Hosts.shortReleaseHost
       (Sample.tableParse [Hosts.shortRelease])
       AppTsx Hosts.stableBuild (startSession Hosts.stableBuild)
       "v1.2.3-rc1" (Json.stringify Hosts.shortRelease) "v2.0"
       [("tag_name", JStr "v2.0")] eq_refl eq_refl eq_refl _ eq_refl eq_refl _)).
  - vm_compute. discriminate.
  - left. vm_compute. lia.
Defined.

(** ** Upgrades that stop half way *)

Section Recovering.

Variable respond : list command -> command -> option string.
Variable JSON_parse : string -> option json.
Variable hostname : string.
Variable revised : revision.

Lemma checkForUpdates_quiet (rendered : Store) :
  Keeps sameAlerts (checkForUpdates respond JSON_parse revised rendered).
Proof.
  unfold checkForUpdates, checkForUpdatesBody, checkNightly, checkStable, spawn.
  quiet. intros s. reflexivity.
Qed.

Lemma checkForUpdates_only_queries (rendered : Store) :
  Keeps (issuedOnly (isQuery hostname)) (checkForUpdates respond JSON_parse revised rendered).
Proof.
  unfold checkForUpdates, checkForUpdatesBody, checkNightly, checkStable, spawn.
  within ltac:(split; [reflexivity | cbn [argv probeCommands In app]; listed_command]).
  intros s. apply issuedOnly_refl.
Qed.

Lemma refreshStatus_only_queries (rendered : Store) :
  Keeps (issuedOnly (isQuery hostname)) (refreshStatus respond JSON_parse hostname rendered).
Proof.
  unfold refreshStatus, checkDockerStatus, checkSystemdStatus, checkBirdNetGoStatus,
    probeHealth, fetchHealthStatus, spawn, setLoading, setDockerStatus,
    setSystemdStatus, setContainerStatus, setHealthStatus.
  within ltac:(split; [reflexivity | cbn [argv probeCommands In app]; listed_command]).
Qed.

(** X21.  An upgrade never rejects, always ends with the [upgrading]
    flag lowered, and shows at most one alert. *)
Theorem upgrade_settles (rendered : Store) (s : Session) :
  let run := upgradeBirdNetGo respond JSON_parse hostname revised rendered s in
  fst run = Done tt /\
  upgrading (store (snd run)) = false /\
  exists shown, alerts (snd run) = (alerts s ++ shown)%list /\ List.length shown <= 1.
Proof.
  cbv zeta. split; [|split].
  - assert (H : Settles (upgradeBirdNetGo respond JSON_parse hostname revised rendered)).
    { unfold upgradeBirdNetGo, setUpgrading, updateStore.
      apply settles_bind; [apply settles_modify | intros _].
      apply settles_tryFinally, settles_tryCatch. intros e. apply settles_modify. }
    destruct (H s) as [[] E]. exact E.
  - unfold upgradeBirdNetGo, bind at 1. cbn [setUpgrading updateStore modify].
    unfold tryFinally. destruct (tryCatch _ _ _) as [r s']. reflexivity.
  - unfold upgradeBirdNetGo, bind at 1. cbn [setUpgrading updateStore modify].
    unfold tryFinally, tryCatch.
    destruct (negb (DockerStatus.available (dockerStatus rendered))).
    { eexists [_]. split; [reflexivity | cbn; lia]. }
    destruct (negb (DockerStatus.running (dockerStatus rendered))).
    { eexists [_]. split; [reflexivity | cbn; lia]. }
    match goal with
    | |- context [match ?body ?s1 with _ => _ end] =>
        assert (K : Keeps sameAlerts body); [|specialize (K s1); destruct (body s1) as [[u|e] s']]
    end.
    + apply keeps_bind; [exact sameAlerts_trans | apply keeps_lift; exact sameAlerts_refl |].
      intros imageName.
      apply keeps_bind; [exact sameAlerts_trans | apply keeps_spawnAs; exact sameAlerts_spawned |].
      intros _.
      apply keeps_bind; [exact sameAlerts_trans | |].
      * unfold recreateContainer, spawn. quiet.
      * intros _. apply keeps_bind; [exact sameAlerts_trans | |].
        -- apply refreshStatus_quiet.
        -- intros _. apply checkForUpdates_quiet.
    + exists []. cbn [snd alerts] in *. split; [|cbn; lia].
      rewrite app_nil_r. exact K.
    + eexists [_]. cbn [snd alerts alert modify] in *. split; [|cbn; lia].
      rewrite K. reflexivity.
Qed.

Ltac upgrade_begins :=
  unfold upgradeBirdNetGo, recreateContainer, tryFinally, tryCatch, bind, spawn, spawnAs,
    lift, parse, ret, alert, setUpgrading, updateStore, modify;
  cbn [issued spawned alerts store fst snd negb].

Ltac upgrade_step H :=
  rewrite <- ?app_assoc; cbn [app]; rewrite H;
  cbn [issued spawned alerts store fst snd negb].

(** X22.  When the pull fails the upgrade stops there, whoever manages
    the application: the pull is the only command spawned, nothing is
    stopped, removed or restarted, the failure alert is shown, and the
    stored state is as before. *)
Theorem failed_pull_changes_nothing (rendered : Store) (s : Session) (imageName : string) :
  let cPull := Command ["docker"; "pull"; imageName] false in
  DockerStatus.available (dockerStatus rendered) = true ->
  DockerStatus.running (dockerStatus rendered) = true ->
  upgradeImage rendered = Done imageName ->
  respond (issued s) cPull = None ->
  let after := snd (upgradeBirdNetGo respond JSON_parse hostname revised rendered s) in
  issued after = (issued s ++ [cPull])%list /\
  alerts after = (alerts s ++ [upgradeFailed])%list /\
  store after = withUpgrading false (store s).
Proof.
  intros cPull Ha Hr Himg Hpull after. unfold after.
  upgrade_begins.
  upgrade_step Ha. upgrade_step Hr. upgrade_step Himg.
  fold cPull. upgrade_step Hpull.
  split; [reflexivity|]. split; reflexivity.
Qed.

(** X23.  The replacement of a standalone container is not rolled back.
    When the stop fails only the pull and the stop are spawned; when the
    inspection fails or prints no JSON the container has been stopped and
    is neither removed nor started again; when the launch fails the
    container has been removed and nothing replaces it.  Each time the
    failure alert is shown and no refresh follows. *)
Theorem interrupted_upgrade_is_not_rolled_back
  (rendered : Store) (s : Session) (containerId imageName pulled : string) :
  let cPull := Command ["docker"; "pull"; imageName] false in
  let cStop := Command ["docker"; "stop"; containerId] false in
  let cInspect := Command ["docker"; "inspect"; containerId] false in
  let cRm := Command ["docker"; "rm"; containerId] false in
  DockerStatus.available (dockerStatus rendered) = true ->
  DockerStatus.running (dockerStatus rendered) = true ->
  SystemdStatus.exists_ (systemdStatus rendered) = false ->
  ContainerStatus.containerId (containerStatus rendered) = Some containerId ->
  containerId <> "" ->
  upgradeImage rendered = Done imageName ->
  respond (issued s) cPull = Some pulled ->
  let after := snd (upgradeBirdNetGo respond JSON_parse hostname revised rendered s) in
  (respond (issued s ++ [cPull]) cStop = None ->
   issued after = (issued s ++ [cPull; cStop])%list /\
   alerts after = (alerts s ++ [upgradeFailed])%list) /\
  (forall stopped,
     respond (issued s ++ [cPull]) cStop = Some stopped ->
     respond (issued s ++ [cPull; cStop]) cInspect = None \/
     (exists configJson,
        respond (issued s ++ [cPull; cStop]) cInspect = Some configJson /\
        JSON_parse configJson = None) ->
     issued after = (issued s ++ [cPull; cStop; cInspect])%list /\
     alerts after = (alerts s ++ [upgradeFailed])%list) /\
  (forall stopped configJson parsed config removed args,
     respond (issued s ++ [cPull]) cStop = Some stopped ->
     respond (issued s ++ [cPull; cStop]) cInspect = Some configJson ->
     JSON_parse configJson = Some parsed ->
     Json.first parsed = Done config ->
     respond (issued s ++ [cPull; cStop; cInspect]) cRm = Some removed ->
     createArgs config imageName = Done args ->
     respond (issued s ++ [cPull; cStop; cInspect; cRm]) (Command args false) = None ->
     issued after = (issued s ++ [cPull; cStop; cInspect; cRm; Command args false])%list /\
     alerts after = (alerts s ++ [upgradeFailed])%list).
Proof.
  intros cPull cStop cInspect cRm Ha Hr Hs Hid Hne Himg Hpull after. unfold after.
  apply String.eqb_neq in Hne.
  upgrade_begins.
  upgrade_step Ha. upgrade_step Hr. upgrade_step Himg.
  fold cPull. upgrade_step Hpull. upgrade_step Hs. upgrade_step Hid. upgrade_step Hne.
  fold cStop.
  split; [|split].
  - intros Hstop. upgrade_step Hstop.
    rewrite <- ?app_assoc. split; reflexivity.
  - intros stopped Hstop Hinsp. upgrade_step Hstop. fold cInspect.
    destruct Hinsp as [Hinsp | [configJson [Hinsp Hparse]]]; upgrade_step Hinsp.
    + rewrite <- ?app_assoc. split; reflexivity.
    + upgrade_step Hparse. rewrite <- ?app_assoc. split; reflexivity.
  - intros stopped configJson parsed config removed args Hstop Hinsp Hparse Hfirst Hrm
           Hargs Hrun.
    upgrade_step Hstop. fold cInspect. upgrade_step Hinsp.
    upgrade_step Hparse. upgrade_step Hfirst. fold cRm. upgrade_step Hrm.
    upgrade_step Hargs. upgrade_step Hrun.
    rewrite <- ?app_assoc. split; reflexivity.
Qed.

(** X24.  When a unit manages the application the upgrade pulls the
    image and restarts the unit with privileges; the container is never
    stopped, removed or launched by the upgrade: everything else it
    spawns is an unprivileged probe or update request.  When the restart
    fails nothing follows it but the failure alert. *)
Theorem unit_upgrade_restarts_the_unit
  (rendered : Store) (s : Session) (imageName pulled : string) :
  let cPull := Command ["docker"; "pull"; imageName] false in
  let cRestart := Command cmdRestartUnit true in
  DockerStatus.available (dockerStatus rendered) = true ->
  DockerStatus.running (dockerStatus rendered) = true ->
  SystemdStatus.exists_ (systemdStatus rendered) = true ->
  upgradeImage rendered = Done imageName ->
  respond (issued s) cPull = Some pulled ->
  let after := snd (upgradeBirdNetGo respond JSON_parse hostname revised rendered s) in
  exists more,
    issued after = (issued s ++ [cPull; cRestart] ++ more)%list /\
    Forall (fun c => superuser c = false /\
                     In (argv c) (probeCommands hostname ++ [cmdRegistry; cmdReleases])%list)
           more /\
    (respond (issued s ++ [cPull]) cRestart = None ->
     more = [] /\ alerts after = (alerts s ++ [upgradeFailed])%list).
Proof.
  intros cPull cRestart Ha Hr Hs Himg Hpull after. unfold after.
  assert (Htail : Keeps (issuedOnly (isQuery hostname))
                    (refreshStatus respond JSON_parse hostname rendered;;
                     checkForUpdates respond JSON_parse revised rendered)).
  { apply keeps_bind; [apply issuedOnly_trans | apply refreshStatus_only_queries |].
    intros _. apply checkForUpdates_only_queries. }
  unfold bind in Htail.
  upgrade_begins.
  upgrade_step Ha. upgrade_step Hr. upgrade_step Himg.
  fold cPull. upgrade_step Hpull. upgrade_step Hs. fold cRestart.
  destruct (respond (issued s ++ [cPull]) cRestart) as [out|];
    cbn [issued spawned alerts store fst snd].
  - match goal with
    | |- context [refreshStatus _ _ _ _ ?s1] =>
        specialize (Htail s1); cbv beta in Htail; revert Htail;
        destruct (refreshStatus respond JSON_parse hostname rendered s1) as [[u|e] s2];
        [destruct (checkForUpdates respond JSON_parse revised rendered s2) as [[u'|e] s3]|]
    end;
      intros [more [Hm Hf]]; cbn [snd issued spawned] in Hm;
      exists more; cbn [snd issued alerts]; rewrite Hm, <- !app_assoc;
      (split; [reflexivity|]); (split; [exact Hf|]); intros H; discriminate H.
  - exists []. rewrite <- !app_assoc.
    split; [reflexivity|]. split; [constructor|]. intros _. split; reflexivity.
Qed.

End Recovering.

Lemma failed_pull_changes_nothing_witness :
  alerts (snd (upgradeBirdNetGo Sample.nativeHost (fun _ => None) "localhost" AppTsx
                 Sample.upgradeStore (startSession Sample.upgradeStore))) =
  [upgradeFailed].
Proof.
  exact (proj1 (proj2
    (@failed_pull_changes_nothing Sample.nativeHost (fun _ => None) "localhost" AppTsx
       Sample.upgradeStore (startSession Sample.upgradeStore)
       "ghcr.io/tphakala/birdnet-go:nightly-20250901"
       eq_refl eq_refl eq_refl eq_refl))).
Defined.

Lemma interrupted_upgrade_is_not_rolled_back_witness :
  issued (snd (upgradeBirdNetGo Hosts.pullOnlyHost (fun _ => None) "localhost" AppTsx
                 Sample.upgradeStore (startSession Sample.upgradeStore))) =
  [Command ["docker"; "pull"; "ghcr.io/tphakala/birdnet-go:nightly-20250901"] false;
   Command ["docker"; "stop"; "abc123"] false].
Proof.
  refine (proj1 (proj1
    (@interrupted_upgrade_is_not_rolled_back Hosts.pullOnlyHost (fun _ => None) "localhost"
       AppTsx Sample.upgradeStore (startSession Sample.upgradeStore)
       "abc123" "ghcr.io/tphakala/birdnet-go:nightly-20250901" "pulled"
       eq_refl eq_refl eq_refl eq_refl _ eq_refl eq_refl) eq_refl)).
  discriminate.
Defined.

Lemma unit_upgrade_restarts_the_unit_witness :
  exists more,
    issued (snd (upgradeBirdNetGo Hosts.unitHost (fun _ => None) "localhost" AppTsx
                   Hosts.unitStore (startSession Hosts.unitStore))) =
    ([Command ["docker"; "pull"; "ghcr.io/tphakala/birdnet-go:v1.3.0"] false;
      Command cmdRestartUnit true] ++ more)%list.
Proof.
  destruct (@unit_upgrade_restarts_the_unit Hosts.unitHost (fun _ => None) "localhost" AppTsx
              Hosts.unitStore (startSession Hosts.unitStore)
              "ghcr.io/tphakala/birdnet-go:v1.3.0" "pulled"
              eq_refl eq_refl eq_refl eq_refl eq_refl) as [more [Hm _]].
  exists more. exact Hm.
Defined.

(** ** From the check to the upgrade *)

Lemma removeFirst_lacks (c : ascii) (s : string) :
  lacks c s = true -> Str.removeFirst c s = s.
Proof.
  induction s as [|d s IH]; [reflexivity|].
  cbn [lacks Str.removeFirst]. intros H. apply andb_prop in H. destruct H as [Hd Hs].
  apply negb_true_iff in Hd. rewrite Hd, (IH Hs). reflexivity.
Qed.

Section Composing.

Variable respond : list command -> command -> option string.
Variable JSON_parse : string -> option json.
Variable revised : revision.

Let cRegistry := Command cmdRegistry false.
Let cReleases := Command cmdReleases false.

(** X25.  The upgrade pulls what the nightly check selected: from the
    state a successful nightly check leaves, the image of the upgrade is
    the repository with the newest dated nightly tag of the response, or
    with [nightly] when the response has no tag dated after 0. *)
Theorem upgrade_pulls_the_selected_nightly
  (rendered : Store) (s : Session) (current packageResult : string)
  (versions : list json) (tags : list string) :
  currentOf revised rendered s = Some (JStr current) ->
  VersionInfo.current (versionInfo (store s)) = Some (JStr current) ->
  Str.includes current "nightly" = true ->
  Str.includes (Str.removeFirst "v" current) "nightly" = true ->
  respond (issued s) cRegistry = Some packageResult ->
  packageResult <> "" ->
  JSON_parse packageResult = Some (JArr versions) ->
  responseTags versions = Some tags ->
  let candidates := filter isNightlyTag tags in
  let checked := store (snd (checkForUpdates respond JSON_parse revised rendered s)) in
  exists tag,
    upgradeImage checked = Done (imageRepository ++ tag) /\
    ((0 < maxDate candidates)%Z -> newest candidates = Some tag) /\
    (maxDate candidates = 0%Z -> tag = "nightly").
Proof.
  intros Hcur Hstore Hn Hn' Hr Hne Hp Ht candidates checked. unfold checked.
  rewrite (checkForUpdates_nightly respond JSON_parse revised rendered s
             Hcur Hn' Hr Hne Hp Ht).
  unfold upgradeImage.
  cbn [setVersionInfo updateStore modify fst snd store versionInfo withVersionInfo
       Update.nightly Update.checking VersionInfo.current VersionInfo.latestNightly
       spawned].
  rewrite Hstore. cbn [Json.asStringOpt obind]. rewrite Hn.
  destruct (@scan_latest tags Scan.empty 0 eq_refl (Z.le_refl 0)) as [_ Htag].
  cbv zeta in Htag. fold candidates in Htag. rewrite Htag.
  pose proof (maxDate_nonneg candidates) as Hm.
  destruct (Z.ltb_spec 0 (maxDate candidates)) as [Hpos | Hzero].
  - unfold newestOr. destruct (newest candidates) as [tag|] eqn:En.
    + destruct (newest_date _ En) as [Hin _].
      assert (Hnight : isNightlyTag tag = true).
      { unfold candidates in Hin. apply filter_In in Hin. apply Hin. }
      rewrite (isNightlyTag_nonempty tag Hnight), (isNightlyTag_nonempty tag Hnight).
      exists tag. split; [reflexivity|]. split; [reflexivity | lia].
    + apply newest_none in En. rewrite En in Hpos. cbn [maxDate] in Hpos. lia.
  - exists "nightly". split; [reflexivity|]. split; [lia | reflexivity].
Qed.

(** X26.  The upgrade pulls the release the stable check found: from the
    state a stable check leaves, the image of the upgrade carries the
    tag name of the release when that name is [v] followed by something,
    [v] and the tag name when the name has no [v], and [latest] when
    the name is [v] alone or empty. *)
Theorem upgrade_pulls_the_latest_release
  (rendered : Store) (s : Session) (current result tag : string)
  (fields : list (string * json)) :
  currentOf revised rendered s = Some (JStr current) ->
  VersionInfo.current (versionInfo (store s)) = Some (JStr current) ->
  Str.includes current "nightly" = false ->
  Str.includes (Str.removeFirst "v" current) "nightly" = false ->
  respond (issued s) cReleases = Some result ->
  result <> "" ->
  JSON_parse result = Some (JObj fields) ->
  Json.assoc "tag_name" fields = Some (JStr tag) ->
  let checked := store (snd (checkForUpdates respond JSON_parse revised rendered s)) in
  (forall name, tag = "v" ++ name -> name <> "" ->
     upgradeImage checked = Done (imageRepository ++ tag)) /\
  (lacks "v" tag = true -> tag <> "" ->
     upgradeImage checked = Done (imageRepository ++ "v" ++ tag)) /\
  (tag = "v" \/ tag = "" -> upgradeImage checked = Done (imageRepository ++ "latest")).
Proof.
  intros Hcur Hstore Hn Hn' Hr Hne Hp Ht checked. unfold checked.
  rewrite (@checkForUpdates_stable respond JSON_parse revised rendered s current result tag
             fields Hcur Hn' Hr Hne Hp Ht).
  unfold upgradeImage.
  cbn [updateStore modify fst snd store versionInfo withVersionInfo Update.stable
       Update.checking VersionInfo.current VersionInfo.latest VersionInfo.latestNightly
       spawned setVersionInfo option_map].
  rewrite Hstore. cbn [Json.asStringOpt obind]. rewrite Hn.
  cbn [Json.truthy Json.toStringU Json.toString].
  split; [|split].
  - intros name -> Hname. change (Str.removeFirst "v" ("v" ++ name)) with name.
    apply String.eqb_neq in Hname. rewrite Hname. reflexivity.
  - intros Hl Hname. rewrite (removeFirst_lacks _ _ Hl).
    apply String.eqb_neq in Hname. rewrite Hname. reflexivity.
  - intros [-> | ->]; reflexivity.
Qed.

End Composing.

Lemma upgrade_pulls_the_selected_nightly_witness :
  exists tag,
    upgradeImage
      (store (snd (checkForUpdates (Sample.registryHost Sample.registry)
                     (Sample.tableParse [Sample.registry]) AppTsx
                     (Sample.nightlyStore Sample.nightlyBuild)
                     (startSession (Sample.nightlyStore Sample.nightlyBuild))))) =
    Done (imageRepository ++ tag).
Proof.
  destruct (@upgrade_pulls_the_selected_nightly (Sample.registryHost Sample.registry)
              (Sample.tableParse [Sample.registry]) AppTsx
              (Sample.nightlyStore Sample.nightlyBuild)
              (startSession (Sample.nightlyStore Sample.nightlyBuild))
              Sample.nightlyBuild (Json.stringify Sample.registry)
              [Sample.version ["nightly-20250901"; "nightly"];
               Sample.version ["nightly-20250830"; "v1.0"];
               Sample.version []]
              ["nightly-20250901"; "nightly"; "nightly-20250830"; "v1.0"])
    as [tag [Himage _]].
  - reflexivity.
  - reflexivity.
  - reflexivity.
  - reflexivity.
  - reflexivity.
  - vm_compute. discriminate.
  - reflexivity.
  - reflexivity.
  - exists tag. exact Himage.
Defined.

Lemma upgrade_pulls_the_latest_release_witness :
  upgradeImage
    (store (snd (checkForUpdates Hosts.releaseHost (Sample.tableParse [Hosts.release])
                   AppTsx Hosts.stableBuild (startSession Hosts.stableBuild)))) =
  Done (imageRepository ++ "v1.3.0").
Proof.
  refine (proj1
    (@upgrade_pulls_the_latest_release Hosts.releaseHost (Sample.tableParse [Hosts.release])
       AppTsx Hosts.stableBuild (startSession Hosts.stableBuild)
       "v1.2.3-rc1" (Json.stringify Hosts.release) "v1.3.0"
       [("tag_name", JStr "v1.3.0"); ("body", JStr "Fixes");
        ("html_url", JStr "https://github.com/tphakala/birdnet-go/releases/tag/v1.3.0")]
       eq_refl eq_refl eq_refl eq_refl eq_refl _ eq_refl eq_refl) "1.3.0" eq_refl _).
  - vm_compute. discriminate.
  - discriminate.
Defined.

(** ** The log view *)

Lemma filterM_kept {A : Type} (p : A -> outcome bool) (xs kept : list A) (x : A) :
  filterM p xs = Done kept -> In x kept -> In x xs /\ p x = Done true.
Proof.
  revert kept. induction xs as [|y xs IH]; intros kept H Hin; cbn [filterM] in H.
  - injection H as <-. contradiction.
  - destruct (p y) as [keep|e] eqn:Ey; cbn [obind] in H; [|discriminate H].
    destruct (filterM p xs) as [tail|e] eqn:Et; cbn [obind] in H; [|discriminate H].
    injection H as <-.
    destruct keep.
    + destruct Hin as [<- | Hin].
      * split; [left; reflexivity | exact Ey].
      * destruct (IH tail eq_refl Hin) as [Hx Hp]. split; [right; exact Hx | exact Hp].
    + destruct (IH tail eq_refl Hin) as [Hx Hp]. split; [right; exact Hx | exact Hp].
Qed.

Lemma filterM_throws {A : Type} (p : A -> outcome bool) (xs : list A) (x : A) (e : jserror) :
  (forall y e', p y = Throw e' -> e' = e) ->
  In x xs -> p x = Throw e -> filterM p xs = Throw e.
Proof.
  intros Hp Hin Hx. induction xs as [|y xs IH]; [contradiction|].
  cbn [filterM].
  destruct (p y) as [keep|e'] eqn:Ey; cbn [obind].
  - destruct Hin as [-> | Hin]; [rewrite Hx in Ey; discriminate Ey|].
    rewrite (IH Hin). reflexivity.
  - rewrite (Hp y e' Ey). reflexivity.
Qed.

Section LogView.

Variable toUpperCase toLowerCase : string -> string.

Lemma keepLog_throws (level text : string) (log : json) (e : jserror) :
  keepLog toUpperCase toLowerCase level text log = Throw e -> e = TypeError.
Proof.
  unfold keepLog.
  destruct (negb (String.eqb level "all")); cbn [obind].
  - destruct log as [| | | | |fields|]; cbn [Json.prop obind];
      try (intros H; injection H as <-; reflexivity);
      try (destruct (negb (String.eqb text "") && _); discriminate).
    destruct (Json.assoc "level" fields) as [[| | |l| | |]|];
      cbn [Json.asStringOpt obind];
      try (intros H; injection H as <-; reflexivity);
      try (destruct (negb (String.eqb text "") && _); discriminate).
    destruct (negb (String.eqb _ _)); [discriminate|].
    destruct (negb (String.eqb text "") && _); discriminate.
  - cbn [negb]. destruct (negb (String.eqb text "") && _); discriminate.
Qed.

(** X27.  Under a level filter every row shown has the colour of that
    level: an entry that [filteredLogs] keeps has a string level, and
    [getLogLevelColor] gives it the colour it gives the filter, whatever
    the case of the letters on either side. *)
Theorem kept_rows_have_the_colour_of_the_filter (st : Store) (kept : list json) (log : json) :
  filteredLogs toUpperCase toLowerCase st = Done kept ->
  logLevelFilter st <> "all" ->
  In log kept ->
  exists level,
    Json.prop log "level" = Done (Some (JStr level)) /\
    getLogLevelColor toUpperCase (Some (JStr level)) =
    getLogLevelColor toUpperCase (Some (JStr (logLevelFilter st))).
Proof.
  intros Hf Hall Hin.
  destruct (filterM_kept _ _ _ Hf Hin) as [_ Hk].
  unfold keepLog in Hk. apply String.eqb_neq in Hall. rewrite Hall in Hk. cbn [negb] in Hk.
  destruct (Json.prop log "level") as [[[| | |l| | |]|]|]; cbn [Json.asStringOpt obind] in Hk;
    try discriminate Hk.
  exists l. split; [reflexivity|].
  destruct (String.eqb (toUpperCase l) (toUpperCase (logLevelFilter st))) eqn:E;
    cbn [negb] in Hk; [|discriminate Hk].
  apply String.eqb_eq in E.
  unfold getLogLevelColor. cbn [Json.asStringOpt obind option_map]. rewrite E. reflexivity.
Qed.

(** X28.  An entry whose level is neither a string nor [null] nor
    missing cannot be shown: the colour of its row throws, and under a
    level filter the whole of [filteredLogs] throws, wherever in the
    buffer the entry is. *)
Theorem unreadable_level_breaks_the_view (st : Store) (log : json) :
  In log (appLogs st) ->
  levelReadable log = false ->
  (let* level := Json.prop log "level" in getLogLevelColor toUpperCase level)
  = Throw TypeError /\
  (logLevelFilter st <> "all" ->
   filteredLogs toUpperCase toLowerCase st = Throw TypeError).
Proof.
  intros Hin Hl. unfold levelReadable in Hl.
  split.
  - destruct (Json.prop log "level") as [[[| | |l| | |]|]|e] eqn:E; try discriminate Hl;
      try reflexivity.
    destruct log; cbn [Json.prop] in E; try discriminate E. injection E as <-. reflexivity.
  - intros Hall. unfold filteredLogs.
    apply filterM_throws with (x := log); [intros y e'; apply keepLog_throws | exact Hin |].
    unfold keepLog. apply String.eqb_neq in Hall. rewrite Hall. cbn [negb].
    destruct (Json.prop log "level") as [[[| | |l| | |]|]|e] eqn:E; try discriminate Hl;
      try reflexivity.
    destruct log; cbn [Json.prop] in E; try discriminate E. injection E as <-. reflexivity.
Qed.

End LogView.

Lemma kept_rows_have_the_colour_of_the_filter_witness :
  exists level,
    Json.prop Sample.errorEntry "level" = Done (Some (JStr level)) /\
    getLogLevelColor Str.asciiUpper (Some (JStr level)) =
    getLogLevelColor Str.asciiUpper (Some (JStr "error")).
Proof.
  apply (@kept_rows_have_the_colour_of_the_filter Str.asciiUpper Str.asciiLower
           (logView [Sample.errorEntry; Sample.infoEntry; Sample.debugEntry] "error" "")
           [Sample.errorEntry] Sample.errorEntry).
  - reflexivity.
  - discriminate.
  - left. reflexivity.
Defined.

Lemma unreadable_level_breaks_the_view_witness :
  filteredLogs Str.asciiUpper Str.asciiLower
    (logView [Sample.infoEntry; Hosts.numberedEntry] "INFO" "") = Throw TypeError.
Proof.
  refine (proj2 (@unreadable_level_breaks_the_view Str.asciiUpper Str.asciiLower
                   (logView [Sample.infoEntry; Hosts.numberedEntry] "INFO" "")
                   Hosts.numberedEntry _ eq_refl) _).
  - right. left. reflexivity.
  - discriminate.
Defined.

(** ** The log fetchers *)

Section Fetching.

Variable respond : list command -> command -> option string.
Variable JSON_parse : string -> option json.

Let cList := Command cmdListLogs false.

Lemma listed_In (name : string) (files : list string) :
  listed name files = true -> In name files.
Proof.
  unfold listed. intros H. apply existsb_exists in H. destruct H as [f [Hin Hf]].
  apply String.eqb_eq in Hf. subst f. exact Hin.
Qed.

(** X29.  Listing the log files never rejects and spawns the one
    listing command; the files it hands on all end in [.log]; and when
    the render it was started from shows the current selection, the
    selection afterwards is one of the files as soon as there is any,
    and is untouched when there is none or the listing failed. *)
Theorem fetchLogFiles_selects_a_listed_file (rendered : Store) (s : Session) :
  selectedLogFile (store s) = selectedLogFile rendered ->
  let run := fetchLogFiles respond rendered s in
  exists files,
    fst run = Done files /\
    issued (snd run) = (issued s ++ [cList])%list /\
    Forall (fun file => endsWith file ".log" = true) files /\
    (files <> [] -> In (selectedLogFile (store (snd run))) files) /\
    (files = [] -> selectedLogFile (store (snd run)) = selectedLogFile (store s)) /\
    (respond (issued s) cList = None -> files = []).
Proof.
  intros Hsel. cbv zeta.
  unfold fetchLogFiles, tryCatch, bind, spawn, spawnAs, ret. fold cList.
  destruct (respond (issued s) cList) as [result|].
  - set (files := filter (fun file => endsWith file ".log")
                         (Str.split Str.newline (Str.trim result))).
    assert (Hlog : Forall (fun file => endsWith file ".log" = true) files).
    { apply Forall_forall. intros f Hf. unfold files in Hf. apply filter_In in Hf.
      apply Hf. }
    exists files.
    destruct ((0 <? List.length files) && negb (listed (selectedLogFile rendered) files))
      eqn:E; cbn [fst snd issued spawned setSelectedLogFile updateStore modify store
                  selectedLogFile withSelectedLogFile].
    + split; [reflexivity|]. split; [reflexivity|]. split; [exact Hlog|].
      split; [|split].
      * intros _. destruct files as [|f files']; [discriminate E | left; reflexivity].
      * intros Hnil. rewrite Hnil in E. discriminate E.
      * discriminate.
    + split; [reflexivity|]. split; [reflexivity|]. split; [exact Hlog|].
      split; [|split].
      * intros Hne. destruct files as [|f files'] eqn:Ef; [contradiction|].
        cbn [List.length Nat.ltb Nat.leb andb] in E.
        apply negb_false_iff in E. rewrite Hsel. apply listed_In. exact E.
      * reflexivity.
      * discriminate.
  - exists []. cbn [fst snd issued spawned store].
    split; [reflexivity|]. split; [reflexivity|]. split; [constructor|].
    split; [intros H; contradiction|]. split; reflexivity.
Qed.

(** X30.  The log fetchers keep their failures to themselves.  Without
    a container or without its id [fetchLogs] shows the empty text and
    spawns nothing; when the engine refuses, it shows [Error fetching
    logs]; without a selected file [fetchAppLogs] does nothing, and when
    [tail] fails it empties the buffer.  None of them rejects or shows an
    alert. *)
Theorem log_fetchers_fail_quietly (rendered : Store) (s : Session) :
  let container := containerStatus rendered in
  let file := selectedLogFile rendered in
  (ContainerStatus.exists_ container = false \/
   ContainerStatus.containerId container = None \/
   ContainerStatus.containerId container = Some "" ->
   fetchLogs respond rendered s = (Done "", s)) /\
  (forall containerId,
     ContainerStatus.exists_ container = true ->
     ContainerStatus.containerId container = Some containerId ->
     containerId <> "" ->
     respond (issued s) (Command (cmdLogs containerId) false) = None ->
     fetchLogs respond rendered s =
     (Done "Error fetching logs", spawned (Command (cmdLogs containerId) false) s)) /\
  (file = "" -> fetchAppLogs respond JSON_parse rendered s = (Done tt, s)) /\
  (file <> "" ->
   respond (issued s) (Command (cmdTail file) false) = None ->
   fetchAppLogs respond JSON_parse rendered s =
   setAppLogs [] (spawned (Command (cmdTail file) false) s)) /\
  (exists text, fst (fetchLogs respond rendered s) = Done text) /\
  fst (fetchAppLogs respond JSON_parse rendered s) = Done tt /\
  alerts (snd (fetchLogs respond rendered s)) = alerts s /\
  alerts (snd (fetchAppLogs respond JSON_parse rendered s)) = alerts s.
Proof.
  cbv zeta. unfold fetchLogs, fetchAppLogs, tryCatch, bind, spawn, spawnAs, ret.
  repeat split.
  - intros [He | [Hid | Hid]].
    + destruct (ContainerStatus.containerId _); [rewrite He|]; reflexivity.
    + rewrite Hid. reflexivity.
    + rewrite Hid. cbn. rewrite orb_true_r. reflexivity.
  - intros containerId He Hid Hne Hr. rewrite Hid, He.
    apply String.eqb_neq in Hne. rewrite Hne. cbn [negb orb]. rewrite Hr. reflexivity.
  - intros ->. reflexivity.
  - intros Hne Hr. apply String.eqb_neq in Hne. rewrite Hne, Hr. reflexivity.
  - destruct (ContainerStatus.containerId _) as [id|]; [|eexists; reflexivity].
    destruct (negb _ || _); [eexists; reflexivity|].
    destruct (respond _ _); eexists; reflexivity.
  - destruct (String.eqb _ ""); [reflexivity|].
    destruct (respond _ _); reflexivity.
  - destruct (ContainerStatus.containerId _) as [id|]; [|reflexivity].
    destruct (negb _ || _); [reflexivity|].
    destruct (respond _ _); reflexivity.
  - destruct (String.eqb _ ""); [reflexivity|].
    destruct (respond _ _); reflexivity.
Qed.

End Fetching.

Lemma fetchLogFiles_selects_a_listed_file_witness :
  exists files,
    fst (fetchLogFiles Hosts.logsHost initialStore (startSession initialStore)) = Done files /\
    In (selectedLogFile
          (store (snd (fetchLogFiles Hosts.logsHost initialStore
                         (startSession initialStore))))) files.
Proof.
  destruct (@fetchLogFiles_selects_a_listed_file Hosts.logsHost initialStore
              (startSession initialStore) eq_refl)
    as [files [Hrun [_ [_ [Hin _]]]]].
  exists files. split; [exact Hrun|]. apply Hin.
  intros Hnil. rewrite Hnil in Hrun. vm_compute in Hrun. discriminate Hrun.
Defined.
